(** * YouTube analyzer tools: a shallow embedding of the four [run] methods

    The four tools of [src/tools/youtube_analyzer] share one pipeline shape:
    page through a listing, enrich the identifiers through a batch lookup,
    score and filter, sort, summarise.  This file embeds the Python code of
    the tools and states the properties of the specification against it.

    Conventions of the embedding:
    - Python [str] values are [string]; [lower], [split] and the [in] test
      are written out on ASCII characters.
    - API responses are dynamically typed JSON values ([json]); every
      subscript, [.get], [int(...)] and [len(...)] is a fallible operation
      that raises the Python exception the interpreter would raise.
    - A [float] that results from a true division of two integers is kept as
      the exact rational ([Q]).
    - The API client is a collaborator: a function from the history of calls
      and the current call to a response or a raised exception.  Calls are
      logged, so that the number and order of requests can be observed.
    - The text of a report is kept as the sequence of its interpolated
      parts ([text]); the Python format specifications are recorded, not
      evaluated. *)

From Stdlib Require Import ZArith List String Ascii Bool Lia QArith.
From Stdlib Require Import Permutation Sorted.
Import ListNotations.

Set Warnings "-register-all".

Local Open Scope string_scope.
Local Open Scope Z_scope.

(** ** Python strings *)

Module PyStr.

Definition lower_ascii (c : ascii) : ascii :=
  let n := nat_of_ascii c in
  if (Nat.leb 65 n && Nat.leb n 90)%bool then ascii_of_nat (n + 32) else c.

(** [s.lower()] *)
Fixpoint lower (s : string) : string :=
  match s with
  | EmptyString => EmptyString
  | String c t => String (lower_ascii c) (lower t)
  end.

(** [c.isspace()] on the ASCII range: TAB, LF, VT, FF, CR, FS, GS, RS, US
    and the blank. *)
Definition is_space (c : ascii) : bool :=
  let n := nat_of_ascii c in
  ((Nat.leb 9 n && Nat.leb n 13) || (Nat.leb 28 n && Nat.leb n 32))%bool.

(** [s.split()] with no separator: maximal runs of non-blank characters.
    [cur] is the word being read, in reverse. *)
Fixpoint rev_string (acc s : string) : string :=
  match s with
  | EmptyString => acc
  | String c t => rev_string (String c acc) t
  end.

Definition flush (cur : string) (k : list string) : list string :=
  match cur with
  | EmptyString => k
  | _ => rev_string EmptyString cur :: k
  end.

Fixpoint split_aux (cur : string) (s : string) : list string :=
  match s with
  | EmptyString => flush cur []
  | String c t =>
      if is_space c then flush cur (split_aux EmptyString t)
      else split_aux (String c cur) t
  end.

Definition split (s : string) : list string := split_aux EmptyString s.

(** [needle in hay] *)
Fixpoint contains (needle hay : string) : bool :=
  (String.prefix needle hay ||
   match hay with
   | EmptyString => false
   | String _ t => contains needle t
   end)%bool.

(** [s[:n]] *)
Fixpoint take (n : nat) (s : string) : string :=
  match n, s with
  | O, _ => EmptyString
  | _, EmptyString => EmptyString
  | S k, String c t => String c (take k t)
  end.

(** [sep.join(parts)] *)
Fixpoint join (sep : string) (parts : list string) : string :=
  match parts with
  | [] => EmptyString
  | [p] => p
  | p :: rest => p ++ sep ++ join sep rest
  end.

End PyStr.

(** ** Exceptions and results *)

(** The classes of the exceptions that occur.  [KeyboardInterrupt],
    [SystemExit] and [GeneratorExit] derive from [BaseException] only;
    every other class derives from [Exception]. *)
Inductive exc_class : Type :=
| KeyError | TypeError | ValueError | AttributeError | IndexError
| ZeroDivisionError
| HttpError
| OtherException (name : string)
| KeyboardInterrupt | SystemExit | GeneratorExit.

Record pyexc : Type := PyExc { exc_cls : exc_class; exc_msg : string }.

(** [isinstance(e, Exception)] *)
Definition is_Exception (e : pyexc) : bool :=
  match exc_cls e with
  | KeyboardInterrupt | SystemExit | GeneratorExit => false
  | _ => true
  end.

(** The outcome of an evaluation: a value or a raised exception. *)
Inductive res (A : Type) : Type :=
| Ok (a : A)
| Raise (e : pyexc).

Arguments Ok {A} a.
Arguments Raise {A} e.

(** ** JSON values, as [json.loads] and the API client hand them out *)

Inductive json : Type :=
| JNull
| JBool (b : bool)
| JNum (z : Z)
| JStr (s : string)
| JList (l : list json)
| JDict (d : list (string * json)).

Module Py.

Fixpoint lookup (k : string) (d : list (string * json)) : option json :=
  match d with
  | [] => None
  | (k', v) :: rest => if String.eqb k k' then Some v else lookup k rest
  end.

Definition raise {A} (c : exc_class) (msg : string) : res A :=
  Raise (PyExc c msg).

(** [j[k]] with a string key *)
Definition getitem (j : json) (k : string) : res json :=
  match j with
  | JDict d =>
      match lookup k d with
      | Some v => Ok v
      | None => raise KeyError ("'" ++ k ++ "'")
      end
  | JList _ => raise TypeError "list indices must be integers or slices, not str"
  | JStr _ => raise TypeError "string indices must be integers, not 'str'"
  | _ => raise TypeError "object is not subscriptable"
  end.

(** [j[0]] *)
Definition getfirst (j : json) : res json :=
  match j with
  | JList (x :: _) => Ok x
  | JList [] => raise IndexError "list index out of range"
  | JStr (String c _) => Ok (JStr (String c EmptyString))
  | JStr EmptyString => raise IndexError "string index out of range"
  | JDict _ => raise KeyError "0"
  | _ => raise TypeError "object is not subscriptable"
  end.

(** [j.get(k, default)] *)
Definition get (j : json) (k : string) (default : json) : res json :=
  match j with
  | JDict d =>
      match lookup k d with
      | Some v => Ok v
      | None => Ok default
      end
  | _ => raise AttributeError "object has no attribute 'get'"
  end.

(** [bool(j)] *)
Definition truthy (j : json) : bool :=
  match j with
  | JNull => false
  | JBool b => b
  | JNum z => negb (z =? 0)
  | JStr s => negb (String.eqb s "")
  | JList l => match l with [] => false | _ => true end
  | JDict d => match d with [] => false | _ => true end
  end.

(** The elements that [for x in j] goes through. *)
Fixpoint chars (s : string) : list json :=
  match s with
  | EmptyString => []
  | String c t => JStr (String c EmptyString) :: chars t
  end.

Definition iter (j : json) : res (list json) :=
  match j with
  | JList l => Ok l
  | JDict d => Ok (map (fun kv => JStr (fst kv)) d)
  | JStr s => Ok (chars s)
  | _ => raise TypeError "object is not iterable"
  end.

(** ['k' in j] *)
Definition is_str (k : string) (j : json) : bool :=
  match j with
  | JStr s => String.eqb s k
  | _ => false
  end.

Definition contains (k : string) (j : json) : res bool :=
  match j with
  | JDict d => Ok (match lookup k d with Some _ => true | None => false end)
  | JList l => Ok (existsb (is_str k) l)
  | JStr s => Ok (PyStr.contains k s)
  | _ => raise TypeError "argument is not iterable"
  end.

(** [j == 0] *)
Definition eq_zero (j : json) : bool :=
  match j with
  | JNum z => z =? 0
  | JBool b => negb b
  | _ => false
  end.

(** [s.lower()] on a JSON value *)
Definition lower (j : json) : res string :=
  match j with
  | JStr s => Ok (PyStr.lower s)
  | _ => raise AttributeError "object has no attribute 'lower'"
  end.

End Py.

(** ** The error monad of the interpreter and of the tools *)

Definition bind_res {A B} (r : res A) (k : A -> res B) : res B :=
  match r with
  | Ok a => k a
  | Raise e => Raise e
  end.

Notation "'let*' x ':=' c 'in' k" := (bind_res c (fun x => k))
  (at level 61, x pattern, c at next level, right associativity).

(** A list comprehension or [for] loop whose body may raise: the elements
    are visited from left to right and the first exception ends the loop. *)
Fixpoint map_res {A B} (f : A -> res B) (l : list A) : res (list B) :=
  match l with
  | [] => Ok []
  | x :: t =>
      let* y := f x in
      let* ys := map_res f t in
      Ok (y :: ys)
  end.

Module PyInt.

Definition digit (c : ascii) : option Z :=
  let n := nat_of_ascii c in
  if (Nat.leb 48 n && Nat.leb n 57)%bool then Some (Z.of_nat (n - 48)) else None.

(** Decimal digits, single underscores allowed between two digits. *)
Fixpoint digits (acc : Z) (after_digit : bool) (s : string) : option Z :=
  match s with
  | EmptyString => if after_digit then Some acc else None
  | String c t =>
      match digit c with
      | Some d => digits (10 * acc + d) true t
      | None =>
          if (Ascii.eqb c "_" && after_digit)%bool then digits acc false t
          else None
      end
  end.

Fixpoint lstrip (s : string) : string :=
  match s with
  | String c t => if PyStr.is_space c then lstrip t else s
  | EmptyString => EmptyString
  end.

Definition strip (s : string) : string :=
  let r := PyStr.rev_string EmptyString (lstrip s) in
  PyStr.rev_string EmptyString (lstrip r).

Definition parse (s : string) : option Z :=
  match strip s with
  | String "-" t => option_map Z.opp (digits 0 false t)
  | String "+" t => digits 0 false t
  | t => digits 0 false t
  end.

(** [int(j)] *)
Definition int (j : json) : res Z :=
  match j with
  | JNum z => Ok z
  | JBool b => Ok (if b then 1 else 0)
  | JStr s =>
      match parse s with
      | Some z => Ok z
      | None => Py.raise ValueError ("invalid literal for int() with base 10: '" ++ s ++ "'")
      end
  | _ => Py.raise TypeError "int() argument must be a string, a bytes-like object or a real number"
  end.

End PyInt.

(** ** The API client *)

(** The requests the tools issue.  Arguments that the tools take from a
    response and pass on unchanged are JSON values. *)
Inductive call : Type :=
| Build (developerKey : option string)
| BuildOAuth (credentials : string)
| SearchList (q : string) (maxResults : Z)
| ChannelsList (part : string) (id : string)
| PlaylistItemsList (playlistId : json) (maxResults : Z) (pageToken : json)
| VideosList (part : string) (id : string)
| CommentThreadsList (videoId : string) (maxResults : Z).

(** What a request meets: a response or an exception raised by the client. *)
Inductive response : Type :=
| Reply (j : json)
| Fails (e : pyexc).

(** The collaborator: its answer may depend on the requests made before. *)
Definition client : Type := list call -> call -> response.

(** Computations of a tool: they may issue requests, which are logged.  The
    outcome is [None] when a loop has not finished within the turns granted
    to it. *)
Definition M (A : Type) : Type := list call -> option (res A) * list call.

Definition ret {A} (a : A) : M A := fun log => (Some (Ok a), log).

Definition bind {A B} (m : M A) (k : A -> M B) : M B :=
  fun log =>
    match m log with
    | (Some (Ok a), log') => k a log'
    | (Some (Raise e), log') => (Some (Raise e), log')
    | (None, log') => (None, log')
    end.

Definition lift {A} (r : res A) : M A := fun log => (Some r, log).

Definition execute (yt : client) (c : call) : M json :=
  fun log =>
    (Some match yt log c with
          | Reply j => Ok j
          | Fails e => Raise e
          end, (log ++ [c])%list).

Notation "x <- c ;; k" := (bind c (fun x => k))
  (at level 61, c at next level, right associativity).

(** ** Report text *)

(** The pieces an f-string is made of. *)
Inductive part : Type :=
| Lit (s : string)
| Val (j : json)                    (* {value} *)
| Int (z : Z)                       (* {n} *)
| IntComma (z : Z)                  (* {n:,} *)
| Float (q : Q) (spec : string)     (* {x:spec} *)
| Time (t : Z) (fmt : string).      (* {d.strftime(fmt)} *)

Definition text : Type := list part.

(** [try: body except Exception as e: return handler(e)] *)
Definition try_except (body : M text) (handler : pyexc -> text) : M text :=
  fun log =>
    match body log with
    | (Some (Raise e), log') =>
        if is_Exception e then (Some (Ok (handler e)), log')
        else (Some (Raise e), log')
    | r => r
    end.

(** ** More of the interpreter: lengths, slices, joins, division *)

Module PyOps.

Definition nl : string := String (ascii_of_nat 10) EmptyString.

(** [s * n] *)
Fixpoint repeat_str (s : string) (n : nat) : string :=
  match n with
  | O => EmptyString
  | S k => s ++ repeat_str s k
  end.

(** [len(j)] *)
Definition len (j : json) : res Z :=
  match j with
  | JStr s => Ok (Z.of_nat (String.length s))
  | JList l => Ok (Z.of_nat (List.length l))
  | JDict d => Ok (Z.of_nat (List.length d))
  | _ => Py.raise TypeError "object has no len()"
  end.

(** [j[:n]] *)
Definition slice_to (n : nat) (j : json) : res json :=
  match j with
  | JStr s => Ok (JStr (PyStr.take n s))
  | JList l => Ok (JList (firstn n l))
  | JDict _ => Py.raise TypeError "unhashable type: 'slice'"
  | _ => Py.raise TypeError "object is not subscriptable"
  end.

(** [j + "literal"] *)
Definition add_str (j : json) (s : string) : res json :=
  match j with
  | JStr s0 => Ok (JStr (s0 ++ s))
  | _ => Py.raise TypeError "unsupported operand type(s) for +"
  end.

(** [sep.join(l)]: every item has to be a [str]. *)
Definition as_str (j : json) : res string :=
  match j with
  | JStr s => Ok s
  | _ => Py.raise TypeError "sequence item: expected str instance"
  end.

Definition join (sep : string) (l : list json) : res string :=
  let* parts := map_res as_str l in
  Ok (PyStr.join sep parts).

(** [sum(...)] of integers *)
Definition sum (l : list Z) : Z := fold_right Z.add 0 l.

(** [a / b] on two [int]s: true division. *)
Definition true_div (a b : Z) : res Q :=
  if b =? 0 then Py.raise ZeroDivisionError "division by zero"
  else Ok (inject_Z a / inject_Z b)%Q.

(** [l.sort(key=..., reverse=True)].  Python's sort is stable, also with
    [reverse=True]: among equal keys the order of the list is kept.  The
    result of a stable sort is determined by the list and the key; it is
    computed here by insertion from the right, an element moving past the
    strictly larger keys only. *)
Section Sort.
Context {A : Type} (key : A -> Z).

Fixpoint insert_desc (x : A) (l : list A) : list A :=
  match l with
  | [] => [x]
  | y :: t => if key x <? key y then y :: insert_desc x t else x :: l
  end.

Definition sort_reverse (l : list A) : list A :=
  fold_right insert_desc [] l.

(** [a] may stand before [b] in a descending order. *)
Definition desc (a b : A) : Prop := key b <= key a.

Definition has_key (k : Z) (a : A) : bool := key a =? k.
End Sort.

End PyOps.

(** ** CompetitorSearchTool *)

Module CompetitorSearchTool.

Import PyOps.

(** The [competitor_data] dictionary. *)
Record competitor : Type := {
  channel_name : json;
  channel_id : json;
  description : json;
  subscriber_count : Z;
  video_count : Z;
  view_count : Z;
  country : json;
  created_date : json;
  topics : json;
  relevance_score : Q;
  url : text
}.

Definition bool_to_Z (b : bool) : Z := if b then 1 else 0.

(** Lines 67-72: the relevance of a channel for the query. *)
Definition search_terms (search_query : string) : list string :=
  PyStr.split (PyStr.lower search_query).

Definition term_matches (keywords description term : string) : bool :=
  (PyStr.contains term keywords || PyStr.contains term description)%bool.

Definition score (search_query keywords description : string) : res Q :=
  let terms := search_terms search_query in
  true_div
    (sum (map (fun term => bool_to_Z (term_matches keywords description term)) terms))
    (Z.of_nat (List.length terms)).

Definition getitem2 (j : json) (k1 k2 : string) : res json :=
  let* a := Py.getitem j k1 in Py.getitem a k2.

(** Lines 78-80: the description, cut after 200 characters. *)
Definition short_description (channel : json) : res json :=
  let* d := getitem2 channel "snippet" "description" in
  let* n := len d in
  if 200 <? n then
    let* d1 := getitem2 channel "snippet" "description" in
    let* cut := slice_to 200 d1 in
    add_str cut "..."
  else getitem2 channel "snippet" "description".

Definition int_stat (channel : json) (field : string) : res Z :=
  let* stats := Py.getitem channel "statistics" in
  let* v := Py.get stats field (JNum 0) in
  PyInt.int v.

(** Lines 75-89: the dictionary of a retained channel. *)
Definition competitor_data (channel : json) (relevance : Q) : res competitor :=
  let* name := getitem2 channel "snippet" "title" in
  let* id := Py.getitem channel "id" in
  let* descr := short_description channel in
  let* subs := int_stat channel "subscriberCount" in
  let* vids := int_stat channel "videoCount" in
  let* views := int_stat channel "viewCount" in
  let* snippet := Py.getitem channel "snippet" in
  let* ctry := Py.get snippet "country" (JStr "Not specified") in
  let* created := getitem2 channel "snippet" "publishedAt" in
  let* td := Py.get channel "topicDetails" (JDict []) in
  let* tops := Py.get td "topicCategories" (JList []) in
  let* id' := Py.getitem channel "id" in
  Ok {| channel_name := name; channel_id := id; description := descr;
        subscriber_count := subs; video_count := vids; view_count := views;
        country := ctry; created_date := created; topics := tops;
        relevance_score := relevance;
        url := [Lit "https://www.youtube.com/channel/"; Val id'] |}.

(** Lines 63-90: one turn of the loop over the looked-up channels; [None]
    when the channel is below the threshold. *)
Definition process_channel (search_query : string) (relevance_threshold : Q)
    (channel : json) : res (option competitor) :=
  let* bs := Py.getitem channel "brandingSettings" in
  let* ch := Py.get bs "channel" (JDict []) in
  let* kw := Py.get ch "keywords" (JStr "") in
  let* keywords := Py.lower kw in
  let* d := getitem2 channel "snippet" "description" in
  let* descr := Py.lower d in
  let* relevance := score search_query keywords descr in
  if Qle_bool relevance_threshold relevance then
    let* c := competitor_data channel relevance in Ok (Some c)
  else Ok None.

(** The channels that the loop retains. *)
Definition retained (search_query : string) (relevance_threshold : Q)
    (channel : json) : bool :=
  match process_channel search_query relevance_threshold channel with
  | Ok (Some _) => true
  | _ => false
  end.

Fixpoint keep {A} (l : list (option A)) : list A :=
  match l with
  | [] => []
  | Some a :: t => a :: keep t
  | None :: t => keep t
  end.

(** Lines 61-90: the Enricher and the Scorer/Filter. *)
Definition collect (search_query : string) (relevance_threshold : Q)
    (channels : list json) : res (list competitor) :=
  let* cs := map_res (process_channel search_query relevance_threshold) channels in
  Ok (keep cs).

(** Line 93: the Ranker. *)
Definition rank (competitors : list competitor) : list competitor :=
  sort_reverse subscriber_count competitors.

(** Lines 116-117: the Summarizer. *)
Definition average (field : competitor -> Z) (competitors : list competitor) : res Q :=
  true_div (sum (map field competitors)) (Z.of_nat (List.length competitors)).

(** Lines 107-111: [topic.split('/')[-1].replace('_', ' ')] for the first
    three topics. *)
Fixpoint last_segment_aux (cur s : string) : string :=
  match s with
  | EmptyString => PyStr.rev_string EmptyString cur
  | String c t =>
      if Ascii.eqb c "/" then last_segment_aux EmptyString t
      else last_segment_aux (String c cur) t
  end.

Fixpoint replace_underscore (s : string) : string :=
  match s with
  | EmptyString => EmptyString
  | String c t =>
      String (if Ascii.eqb c "_" then " "%char else c) (replace_underscore t)
  end.

Definition topic_name (topic : json) : res string :=
  match topic with
  | JStr s => Ok (replace_underscore (last_segment_aux EmptyString s))
  | _ => Py.raise AttributeError "object has no attribute 'split'"
  end.

Definition format_topics (tops : json) : res text :=
  if Py.truthy tops then
    let* first3 := slice_to 3 tops in
    let* l := Py.iter first3 in
    let* names := map_res topic_name l in
    Ok [Lit "   Topics: "; Lit (PyStr.join ", " names); Lit nl]
  else Ok [].

(** Lines 100-113: the entry of one competitor. *)
Definition format_competitor (idx : Z) (c : competitor) : res text :=
  let* tl := format_topics (topics c) in
  Ok ([Int idx; Lit ". "; Val (channel_name c); Lit nl;
       Lit "   Relevance Score: "; Float (relevance_score c) ".2f"; Lit nl;
       Lit "   Subscribers: "; IntComma (subscriber_count c); Lit nl;
       Lit "   Total Views: "; IntComma (view_count c); Lit nl;
       Lit "   Videos: "; Int (video_count c); Lit nl;
       Lit "   Country: "; Val (country c); Lit nl;
       Lit "   Description: "; Val (description c); Lit nl]
      ++ tl
      ++ [Lit "   URL: "] ++ url c ++ [Lit nl;
          Lit (repeat_str "-" 60); Lit nl])%list.

Fixpoint format_all (idx : Z) (l : list competitor) : res text :=
  match l with
  | [] => Ok []
  | c :: t =>
      let* entry := format_competitor idx c in
      let* rest := format_all (idx + 1) t in
      Ok (entry ++ rest)%list
  end.

Definition channel_id_of (item : json) : res json :=
  getitem2 item "snippet" "channelId".

(** Lines 38-124: the body of [run], under the [try]. *)
Definition body (API_KEY : option string) (yt : client)
    (search_query : string) (max_results : Z) (relevance_threshold : Q) : M text :=
  _ <- execute yt (Build API_KEY) ;;
  search_response <- execute yt (SearchList search_query max_results) ;;
  found <- lift (Py.get search_response "items" JNull) ;;
  if negb (Py.truthy found) then ret [Lit "No competing channels found."]
  else
    items <- lift (let* l := Py.getitem search_response "items" in Py.iter l) ;;
    channel_ids <- lift (map_res channel_id_of items) ;;
    ids <- lift (join "," channel_ids) ;;
    channels_response <-
      execute yt (ChannelsList "snippet,statistics,brandingSettings,topicDetails" ids) ;;
    channels <- lift (let* l := Py.getitem channels_response "items" in Py.iter l) ;;
    found <- lift (collect search_query relevance_threshold channels) ;;
    let competitors := rank found in
    listing <- lift (format_all 1 competitors) ;;
    avg_subs <- lift (average subscriber_count competitors) ;;
    avg_views <- lift (average view_count competitors) ;;
    ret ([Lit "Competitor Analysis Report for '"; Lit search_query; Lit "'"; Lit nl;
          Lit (repeat_str "=" 60); Lit nl; Lit nl]
         ++ listing
         ++ [Lit nl; Lit "Summary Statistics:"; Lit nl;
             Lit "Average Subscribers: "; Float avg_subs ",.0f"; Lit nl;
             Lit "Average Total Views: "; Float avg_views ",.0f"; Lit nl;
             Lit "Total Competitors Found: ";
             Int (Z.of_nat (List.length competitors)); Lit nl])%list.

(** Lines 126-127 *)
Definition handler (e : pyexc) : text :=
  [Lit "Error searching for competitors: "; Lit (exc_msg e)].

Definition run (API_KEY : option string) (yt : client)
    (search_query : string) (max_results : Z) (relevance_threshold : Q) : M text :=
  try_except (body API_KEY yt search_query max_results relevance_threshold) handler.

End CompetitorSearchTool.

(** ** VideoFetchingTool *)

Module VideoFetchingTool.

Import PyOps.

(** The [video_data] dictionary; [published_at] is the [datetime], as
    seconds on the time line. *)
Record video : Type := {
  title : json;
  video_id : json;
  published_at : Z;
  view_count : Z;
  like_count : Z;
  comment_count : Z;
  url : text
}.

(** How a turn of the [while] loop ends. *)
Inductive turn_end : Type :=
| Continue (videos : list video) (next_page_token : json)
| Break (videos : list video)
| Return (output : text).

Section Run.

(** [datetime.strptime(s, '%Y-%m-%dT%H:%M:%SZ')]: [None] stands for the
    [ValueError] of a string that does not match the format. *)
Variable strptime : string -> option Z.

(** The positions pandas computes for
    [sort_values(column, ascending=False)] on a column of the frame,
    with its default sort kind. *)
Variable indexer : list Z -> list nat.

Definition parse_time (j : json) : res Z :=
  match j with
  | JStr s =>
      match strptime s with
      | Some t => Ok t
      | None => Py.raise ValueError "time data does not match format '%Y-%m-%dT%H:%M:%SZ'"
      end
  | _ => Py.raise TypeError "strptime() argument 1 must be str"
  end.

Definition int_stat (v : json) (field : string) : res Z :=
  let* stats := Py.getitem v "statistics" in
  let* x := Py.get stats field (JNum 0) in
  PyInt.int x.

(** Lines 89-100 *)
Definition video_data (v : json) : res video :=
  let* sn := Py.getitem v "snippet" in
  let* t := Py.getitem sn "title" in
  let* id := Py.getitem v "id" in
  let* sn' := Py.getitem v "snippet" in
  let* pa := Py.getitem sn' "publishedAt" in
  let* published := parse_time pa in
  let* views := int_stat v "viewCount" in
  let* likes := int_stat v "likeCount" in
  let* comments := int_stat v "commentCount" in
  let* id' := Py.getitem v "id" in
  Ok {| title := t; video_id := id; published_at := published;
        view_count := views; like_count := likes; comment_count := comments;
        url := [Lit "https://www.youtube.com/watch?v="; Val id'] |}.

Definition video_id_of (item : json) : res json :=
  let* sn := Py.getitem item "snippet" in
  let* r := Py.getitem sn "resourceId" in
  Py.getitem r "videoId".

Definition items_of (response : json) : res (list json) :=
  let* l := Py.getitem response "items" in Py.iter l.

Definition len_videos (videos : list video) : Z := Z.of_nat (List.length videos).

(** Lines 61-105: one turn of the [while] loop. *)
Definition turn (yt : client) (uploads_playlist_id : json) (max_results : Z)
    (videos : list video) (next_page_token : json) : M turn_end :=
  playlist_response <-
    execute yt (PlaylistItemsList uploads_playlist_id
                  (Z.min 50 (max_results - len_videos videos)) next_page_token) ;;
  has_items <- lift (Py.contains "items" playlist_response) ;;
  if negb has_items then ret (Return [Lit "No videos found in the uploads playlist."])
  else
    items <- lift (items_of playlist_response) ;;
    video_ids <- lift (map_res video_id_of items) ;;
    ids <- lift (join "," video_ids) ;;
    video_response <- execute yt (VideosList "statistics,snippet" ids) ;;
    found <- lift (items_of video_response) ;;
    new <- lift (map_res video_data found) ;;
    token <- lift (Py.get playlist_response "nextPageToken" JNull) ;;
    if negb (Py.truthy token) then ret (Break (videos ++ new)%list)
    else ret (Continue (videos ++ new)%list token).

Definition out_of_fuel {A} : M A := fun log => (None, log).

(** Lines 60-105: the loop; [fuel] bounds the number of turns. *)
Fixpoint while_loop (fuel : nat) (yt : client) (uploads_playlist_id : json)
    (max_results : Z) (videos : list video) (next_page_token : json)
    : M (list video + text) :=
  if len_videos videos <? max_results then
    match fuel with
    | O => out_of_fuel
    | S fuel' =>
        e <- turn yt uploads_playlist_id max_results videos next_page_token ;;
        match e with
        | Continue videos' token' =>
            while_loop fuel' yt uploads_playlist_id max_results videos' token'
        | Break videos' => ret (inl videos')
        | Return output => ret (inr output)
        end
    end
  else ret (inl videos).

(** Lines 108-114.  A frame built from an empty list has no columns, and
    [sort_values] raises [KeyError] for a label that is no column.
    Otherwise the rows, each with its index label, are taken in the
    order of the indexer. *)
Definition sort_column (sort_by : string) : string * (video -> Z) :=
  if String.eqb (PyStr.lower sort_by) "views" then ("view_count", view_count)
  else ("published_at", published_at).

Fixpoint enumerate {A} (i : nat) (l : list A) : list (nat * A) :=
  match l with
  | [] => []
  | x :: t => (i, x) :: enumerate (S i) t
  end.

Definition take_row {A} (rows : list A) (i : nat) : res A :=
  match nth_error rows i with
  | Some r => Ok r
  | None => Py.raise IndexError "indices are out-of-bounds"
  end.

Definition sort_values (column : string) (key : video -> Z)
    (videos : list video) : res (list (nat * video)) :=
  match videos with
  | [] => Py.raise KeyError ("'" ++ column ++ "'")
  | _ => map_res (take_row (enumerate 0 videos)) (indexer (map key videos))
  end.

Definition rank (sort_by : string) (videos : list video) : res (list (nat * video)) :=
  let (column, key) := sort_column sort_by in
  sort_values column key videos.

(** Lines 120-127 *)
Definition format_row (row : nat * video) : text :=
  let (idx, v) := row in
  ([Int (Z.of_nat idx + 1); Lit ". "; Val (title v); Lit nl;
   Lit "   Published: "; Time (published_at v) "%Y-%m-%d"; Lit nl;
   Lit "   Views: "; IntComma (view_count v); Lit nl;
   Lit "   Likes: "; IntComma (like_count v); Lit nl;
   Lit "   Comments: "; IntComma (comment_count v); Lit nl;
    Lit "   URL: "] ++ url v ++ [Lit nl; Lit (repeat_str "-" 50); Lit nl])%list.

(** Lines 39-129: the body of [run], under the [try]. *)
Definition body (fuel : nat) (API_KEY : option string) (yt : client)
    (channel_id : string) (max_results : Z) (sort_by : string) : M text :=
  _ <- execute yt (Build API_KEY) ;;
  channel_response <- execute yt (ChannelsList "contentDetails" channel_id) ;;
  total <- lift (let* pi := Py.getitem channel_response "pageInfo" in
                 Py.getitem pi "totalResults") ;;
  if Py.eq_zero total then
    ret [Lit "Error: Channel not found for ID '"; Lit channel_id;
         Lit "'. Please check the channel ID."]
  else
    uploads_playlist_id <-
      lift (let* its := Py.getitem channel_response "items" in
            let* first := Py.getfirst its in
            let* cd := Py.getitem first "contentDetails" in
            let* rp := Py.getitem cd "relatedPlaylists" in
            Py.getitem rp "uploads") ;;
    r <- while_loop fuel yt uploads_playlist_id max_results [] JNull ;;
    match r with
    | inr output => ret output
    | inl videos =>
        df <- lift (rank sort_by videos) ;;
        ret ([Lit "Videos from channel (sorted by "; Lit sort_by; Lit "):"; Lit nl;
              Lit (repeat_str "=" 50); Lit nl; Lit nl]
             ++ flat_map format_row df)%list
    end.

(** Lines 131-132 *)
Definition handler (e : pyexc) : text :=
  [Lit "Error fetching videos: "; Lit (exc_msg e)].

Definition run (fuel : nat) (API_KEY : option string) (yt : client)
    (channel_id : string) (max_results : Z) (sort_by : string) : M text :=
  try_except (body fuel API_KEY yt channel_id max_results sort_by) handler.

End Run.

(** The page requests among the requests of a log. *)
Definition is_page_request (c : call) : bool :=
  match c with
  | PlaylistItemsList _ _ _ => true
  | _ => false
  end.

Definition page_requests (log : list call) : Z :=
  Z.of_nat (List.length (filter is_page_request log)).

(** [ceil(a / b)] *)
Definition ceil_div (a b : Z) : Z := (a + b - 1) / b.

(** Lines 75-81: the ids that a turn looks up after the page [j], the video
    ids of the items of the page joined by commas. *)
Definition lookup_ids (j : json) : res string :=
  let* items := items_of j in
  let* video_ids := map_res video_id_of items in
  PyOps.join "," video_ids.

(** Two ways a provider may behave on the uploads playlist [pl], on a page
    request of the loop (1 to 50 items) and the batch lookup of the ids of
    that page.  It honours the bound when the lookup returns at most as
    many records as the page request asked for; it serves full pages when
    the lookup returns at least that many records whenever the page
    announces a further page. *)
Definition honours_bound (yt : client) (pl : json) : Prop :=
  forall log m tok j ids v found,
    1 <= m <= 50 ->
    yt log (PlaylistItemsList pl m tok) = Reply j ->
    lookup_ids j = Ok ids ->
    yt (log ++ [PlaylistItemsList pl m tok])%list (VideosList "statistics,snippet" ids)
    = Reply v ->
    items_of v = Ok found ->
    Z.of_nat (List.length found) <= m.

(** The page request of a turn. *)
Definition page_call (pl : json) (max_results : Z) (videos : list video)
    (tok : json) : call :=
  PlaylistItemsList pl (Z.min 50 (max_results - len_videos videos)) tok.

(** What [sort_values(..., ascending=False)] promises of its positions for
    a column [ks]: they are the positions of the column, each once, and
    the column does not increase along them. *)
Definition sorts_descending (ks : list Z) (idx : list nat) : Prop :=
  Permutation idx (seq 0 (List.length ks)) /\
  StronglySorted (fun i j => nth j ks 0 <= nth i ks 0) idx.

Definition serves_full_pages (yt : client) (pl : json) : Prop :=
  forall log m tok j t ids v found,
    1 <= m <= 50 ->
    yt log (PlaylistItemsList pl m tok) = Reply j ->
    Py.get j "nextPageToken" JNull = Ok t ->
    Py.truthy t = true ->
    lookup_ids j = Ok ids ->
    yt (log ++ [PlaylistItemsList pl m tok])%list (VideosList "statistics,snippet" ids)
    = Reply v ->
    items_of v = Ok found ->
    m <= Z.of_nat (List.length found).

End VideoFetchingTool.

(** ** ChannelDemographicsTool *)

Module ChannelDemographicsTool.

Import PyOps.

(** [OAUTH_CREDENTIALS] is read by [json.loads], turned into credentials
    and handed to a second [build]; the three steps are one request to the
    collaborator here. *)
Definition oauth_client (yt : client) (credentials : string) : M json :=
  execute yt (BuildOAuth credentials).

Definition short_description (snippet : json) : res json :=
  let* d := Py.getitem snippet "description" in
  let* n := len d in
  if 200 <? n then
    let* d1 := Py.getitem snippet "description" in
    let* cut := slice_to 200 d1 in
    add_str cut "..."
  else Py.getitem snippet "description".

(** Lines 56-65 *)
Definition basic_stats (stats snippet : json) : res (list (string * json)) :=
  let* name := Py.getitem snippet "title" in
  let* descr := short_description snippet in
  let* ctry := Py.get snippet "country" (JStr "Not specified") in
  let* created := Py.getitem snippet "publishedAt" in
  let* subs := Py.get stats "subscriberCount" (JStr "Hidden") in
  let* views := Py.getitem stats "viewCount" in
  let* vids := Py.getitem stats "videoCount" in
  let* custom := Py.get snippet "customUrl" (JStr "Not available") in
  Ok [("Channel Name", name); ("Description", descr); ("Country", ctry);
      ("Created Date", created); ("Subscriber Count", subs);
      ("Total Views", views); ("Total Videos", vids); ("Custom URL", custom)].

(** Lines 68-85: the inner [try]. *)
Definition advanced_stats (yt : client) (OAUTH_CREDENTIALS : option string)
    : M (list (string * text)) :=
  match OAUTH_CREDENTIALS with
  | None => ret []
  | Some c =>
      if String.eqb c "" then ret []
      else fun log =>
        match oauth_client yt c log with
        | (Some (Ok _), log') =>
            (Some (Ok [("Note",
               [Lit "Advanced demographics require YouTube Analytics API access"])]), log')
        | (Some (Raise e), log') =>
            if is_Exception e then
              (Some (Ok [("Error",
                 [Lit "Could not fetch advanced demographics: "; Lit (exc_msg e)])]), log')
            else (Some (Raise e), log')
        | (None, log') => (None, log')
        end
  end.

Definition format_stat (kv : string * json) : text :=
  [Lit (fst kv); Lit ": "; Val (snd kv); Lit nl].

Definition format_advanced (kv : string * text) : text :=
  ([Lit (fst kv); Lit ": "] ++ snd kv ++ [Lit nl])%list.

Definition key_is_set (API_KEY : option string) : bool :=
  match API_KEY with
  | None => false
  | Some k => negb (String.eqb k "")
  end.

(** Lines 32-102: the body of [run], under the [try]. *)
Definition body (API_KEY OAUTH_CREDENTIALS : option string) (yt : client)
    (channel_id : string) : M text :=
  if negb (key_is_set API_KEY) then ret [Lit "Error: YouTube API key is not set."]
  else
    _ <- execute yt (Build API_KEY) ;;
    channel_response <-
      execute yt (ChannelsList "statistics,snippet,contentDetails" channel_id) ;;
    has_items <- lift (Py.contains "items" channel_response) ;;
    empty <- lift (if negb has_items then Ok true
                   else let* its := Py.getitem channel_response "items" in
                        Ok (negb (Py.truthy its))) ;;
    if (empty : bool) then ret [Lit "Channel not found or invalid channel ID."]
    else
      channel_data <- lift (let* its := Py.getitem channel_response "items" in
                            Py.getfirst its) ;;
      stats <- lift (Py.getitem channel_data "statistics") ;;
      snippet <- lift (Py.getitem channel_data "snippet") ;;
      basic <- lift (basic_stats stats snippet) ;;
      advanced <- advanced_stats yt OAUTH_CREDENTIALS ;;
      ret ([Lit "Channel Demographics Report"; Lit nl;
            Lit "========================"; Lit nl; Lit nl;
            Lit "Basic Statistics:"; Lit nl; Lit "----------------"; Lit nl]
           ++ flat_map format_stat basic
           ++ match advanced with
              | [] => []
              | _ => [Lit nl; Lit "Advanced Demographics:"; Lit nl;
                      Lit "---------------------"; Lit nl]
                     ++ flat_map format_advanced advanced
              end)%list.

(** Lines 104-105 *)
Definition handler (e : pyexc) : text :=
  [Lit "Error fetching channel demographics: "; Lit (exc_msg e)].

Definition run (API_KEY OAUTH_CREDENTIALS : option string) (yt : client)
    (channel_id : string) : M text :=
  try_except (body API_KEY OAUTH_CREDENTIALS yt channel_id) handler.

End ChannelDemographicsTool.

(** ** VideoPerformanceAnalyzer *)

Module VideoPerformanceAnalyzer.

Import PyOps.

(** An entry of [comment_data].  [likes] is the [likeCount] of the API, an
    integer; a value of another type makes the sort or the format of line
    127 raise a [TypeError] or [ValueError], which the embedding raises as
    a [TypeError] where the value is read. *)
Record comment : Type := {
  text_display : json;
  likes : Z;
  author : json;
  published_at : Z
}.

(** [s.split(c)[0]] and [s.split(c)[1]] for a one-character separator. *)
Fixpoint before (c : ascii) (s : string) : string :=
  match s with
  | EmptyString => EmptyString
  | String x t => if Ascii.eqb x c then EmptyString else String x (before c t)
  end.

Fixpoint after (c : ascii) (s : string) : string :=
  match s with
  | EmptyString => EmptyString
  | String x t => if Ascii.eqb x c then t else after c t
  end.

Definition second (c : ascii) (s : string) : string := before c (after c s).

Fixpoint has_char (c : ascii) (s : string) : bool :=
  match s with
  | EmptyString => false
  | String x t => (Ascii.eqb x c || has_char c t)%bool
  end.

(** [s.replace('PT', '')] *)
Fixpoint remove_PT (s : string) : string :=
  match s with
  | String "P" (String "T" t) => remove_PT t
  | String x t => String x (remove_PT t)
  | EmptyString => EmptyString
  end.

Definition int_str (s : string) : res Z := PyInt.int (JStr s).

(** Lines 49-59 *)
Definition parse_duration (d : json) : res (Z * Z * Z) :=
  match d with
  | JStr s =>
      let duration := remove_PT s in
      let* (hours, duration) :=
        (if has_char "H" duration then
           let* h := int_str (before "H" duration) in Ok (h, second "H" duration)
         else Ok (0, duration)) in
      let* (minutes, duration) :=
        (if has_char "M" duration then
           let* m := int_str (before "M" duration) in Ok (m, second "M" duration)
         else Ok (0, duration)) in
      let* seconds :=
        (if has_char "S" duration then int_str (before "S" duration) else Ok 0) in
      Ok (hours, minutes, seconds)
  | _ => Py.raise AttributeError "object has no attribute 'replace'"
  end.

Definition int_stat (video : json) (field : string) : res Z :=
  let* stats := Py.getitem video "statistics" in
  let* x := Py.get stats field (JNum 0) in
  PyInt.int x.

(** Line 68 *)
Definition engagement_rate (views likes comments : Z) : res Q :=
  if 0 <? views then true_div (likes + comments) views else Ok 0%Q.

(** [(now - t).days] *)
Definition days_between (now t : Z) : Z := (now - t) / 86400.

(** Line 76 *)
Definition views_per_day (views days_since_published : Z) : res Q :=
  true_div views (Z.max days_since_published 1).

(** Lines 134-136: the Summarizer over the recent comments. *)
Definition recent (now : Z) (comment_data : list comment) : list comment :=
  filter (fun c => days_between now (published_at c) <=? 30) comment_data.

Definition mean_likes (recent_comments : list comment) : res Q :=
  match recent_comments with
  | [] => Ok 0%Q
  | _ => true_div (sum (map likes recent_comments))
                  (Z.of_nat (List.length recent_comments))
  end.

Section Run.

(** [datetime.strptime(s, '%Y-%m-%dT%H:%M:%SZ')] and
    [datetime.utcnow()], in seconds on the time line. *)
Variable strptime : string -> option Z.
Variable utcnow : Z.

Definition parse_time (j : json) : res Z :=
  match j with
  | JStr s =>
      match strptime s with
      | Some t => Ok t
      | None => Py.raise ValueError "time data does not match format '%Y-%m-%dT%H:%M:%SZ'"
      end
  | _ => Py.raise TypeError "strptime() argument 1 must be str"
  end.

Definition likes_of (j : json) : res Z :=
  match j with
  | JNum z => Ok z
  | JBool b => Ok (if b then 1 else 0)
  | _ => Py.raise TypeError "'<' not supported between instances"
  end.

(** Lines 110-119 *)
Definition comment_entry (item : json) : res comment :=
  let* sn := Py.getitem item "snippet" in
  let* top := Py.getitem sn "topLevelComment" in
  let* c := Py.getitem top "snippet" in
  let* txt := Py.getitem c "textDisplay" in
  let* lk := Py.getitem c "likeCount" in
  let* n := likes_of lk in
  let* who := Py.getitem c "authorDisplayName" in
  let* pa := Py.getitem c "publishedAt" in
  let* t := parse_time pa in
  Ok {| text_display := txt; likes := n; author := who; published_at := t |}.

(** Lines 126-131 *)
Definition format_comment (idx : Z) (c : comment) : res text :=
  let* cut := slice_to 200 (text_display c) in
  Ok [Int idx; Lit ". Likes: "; IntComma (likes c); Lit nl;
      Lit "   Author: "; Val (author c); Lit nl;
      Lit "   Comment: "; Val cut; Lit "..."; Lit nl;
      Lit "   Posted: "; Time (published_at c) "%Y-%m-%d"; Lit nl; Lit nl].

Fixpoint format_comments (idx : Z) (l : list comment) : res text :=
  match l with
  | [] => Ok []
  | c :: t =>
      let* entry := format_comment idx c in
      let* rest := format_comments (idx + 1) t in
      Ok (entry ++ rest)%list
  end.

(** Lines 107-140: the comments section of the report. *)
Definition comments_section (comments_response : json) : res text :=
  let* found := Py.get comments_response "items" JNull in
  if Py.truthy found then
    let* its := Py.getitem comments_response "items" in
    let* l := Py.iter its in
    let* unsorted := map_res comment_entry l in
    let comment_data := sort_reverse likes unsorted in
    let top_comments := firstn 5 comment_data in
    let* listing := format_comments 1 top_comments in
    let recent_comments := recent utcnow comment_data in
    let* avg_likes_per_comment := mean_likes recent_comments in
    Ok ([Lit "Top Comments Analysis:"; Lit nl]
        ++ listing
        ++ [Lit "Comment Engagement Metrics:"; Lit nl;
            Lit "Average Likes per Comment: "; Float avg_likes_per_comment ".2f"; Lit nl;
            Lit "Recent Comments (30 days): ";
            Int (Z.of_nat (List.length recent_comments)); Lit nl])%list
  else Ok [].

(** Lines 35-142: the body of [run], under the [try]. *)
Definition body (API_KEY : option string) (yt : client)
    (video_id : string) (include_comments : bool) : M text :=
  _ <- execute yt (Build API_KEY) ;;
  video_response <-
    execute yt (VideosList "snippet,statistics,contentDetails" video_id) ;;
  its <- lift (Py.getitem video_response "items") ;;
  if negb (Py.truthy its) then ret [Lit "Video not found."]
  else
    video <- lift (let* its := Py.getitem video_response "items" in
                   Py.getfirst its) ;;
    hms <- lift (let* cd := Py.getitem video "contentDetails" in
                 let* d := Py.getitem cd "duration" in
                 parse_duration d) ;;
    let '(hours, minutes, seconds) := hms in
    views <- lift (int_stat video "viewCount") ;;
    likes <- lift (int_stat video "likeCount") ;;
    comments <- lift (int_stat video "commentCount") ;;
    rate <- lift (engagement_rate views likes comments) ;;
    published <- lift (let* sn := Py.getitem video "snippet" in
                       let* pa := Py.getitem sn "publishedAt" in
                       parse_time pa) ;;
    let days_since_published := days_between utcnow published in
    per_day <- lift (views_per_day views days_since_published) ;;
    ttl <- lift (let* sn := Py.getitem video "snippet" in Py.getitem sn "title") ;;
    chan <- lift (let* sn := Py.getitem video "snippet" in
                  Py.getitem sn "channelTitle") ;;
    let output :=
      [Lit "Video Performance Analysis"; Lit nl; Lit (repeat_str "=" 50); Lit nl; Lit nl;
       Lit "Basic Information:"; Lit nl;
       Lit "Title: "; Val ttl; Lit nl;
       Lit "Channel: "; Val chan; Lit nl;
       Lit "Published: "; Time published "%Y-%m-%d %H:%M UTC"; Lit nl;
       Lit "Duration: "; Int hours; Lit "h "; Int minutes; Lit "m ";
       Int seconds; Lit "s"; Lit nl;
       Lit (repeat_str "-" 50); Lit nl; Lit nl;
       Lit "Performance Metrics:"; Lit nl;
       Lit "Views: "; IntComma views; Lit nl;
       Lit "Likes: "; IntComma likes; Lit nl;
       Lit "Comments: "; IntComma comments; Lit nl;
       Lit "Views per Day: "; Float per_day ",.2f"; Lit nl;
       Lit "Engagement Rate: "; Float rate ".2%"; Lit nl;
       Lit (repeat_str "-" 50); Lit nl; Lit nl] in
    if (include_comments && (0 <? comments))%bool then
      comments_response <- execute yt (CommentThreadsList video_id 100) ;;
      section <- lift (comments_section comments_response) ;;
      ret (output ++ section)%list
    else ret output.

(** Lines 144-145 *)
Definition handler (e : pyexc) : text :=
  [Lit "Error analyzing video performance: "; Lit (exc_msg e)].

Definition run (API_KEY : option string) (yt : client)
    (video_id : string) (include_comments : bool) : M text :=
  try_except (body API_KEY yt video_id include_comments) handler.

End Run.

End VideoPerformanceAnalyzer.

(** ** What the handler of [run] meets *)

Module Handler.

(** An outcome that [except Exception] turns into a value. *)
Definition catchable {A} (r : res A) : Prop :=
  match r with
  | Ok _ => True
  | Raise e => is_Exception e = true
  end.

(** A computation that ends, and ends in a catchable outcome. *)
Definition good {A} (m : M A) : Prop :=
  forall log,
    match fst (m log) with
    | Some r => catchable r
    | None => False
    end.

(** A computation that, if it ends, ends in a catchable outcome. *)
Definition safe {A} (m : M A) : Prop :=
  forall log,
    match fst (m log) with
    | Some r => catchable r
    | None => True
    end.

(** A client whose exceptions are instances of [Exception]. *)
Definition raises_exceptions_only (yt : client) : Prop :=
  forall log c e, yt log c = Fails e -> is_Exception e = true.

(** A provider on which the loop of VideoFetchingTool advances: for a
    page request of the loop (1 to 50 items) whose page announces a further
    page, the batch lookup of the ids of that page returns at least one
    record. *)
Definition makes_progress (yt : client) : Prop :=
  forall log pl m tok j t ids v found,
    1 <= m <= 50 ->
    yt log (PlaylistItemsList pl m tok) = Reply j ->
    Py.get j "nextPageToken" JNull = Ok t ->
    Py.truthy t = true ->
    VideoFetchingTool.lookup_ids j = Ok ids ->
    yt (log ++ [PlaylistItemsList pl m tok])%list (VideosList "statistics,snippet" ids)
    = Reply v ->
    VideoFetchingTool.items_of v = Ok found ->
    (1 <= List.length found)%nat.

End Handler.

(** ** Scripted clients and sample responses *)

(** A client scripted by a table: the answer to the n-th request is the
    n-th entry; requests beyond the table fail with a transport error. *)
Definition scripted (answers : list response) : client :=
  fun log _ => nth (List.length log) answers (Fails (PyExc HttpError "no more answers")).

Module Examples.
Import CompetitorSearchTool.

Definition channel (id title descr keywords : string) (stats : list (string * json)) : json :=
  JDict [("id", JStr id);
         ("snippet", JDict [("title", JStr title); ("description", JStr descr);
                            ("publishedAt", JStr "2020-01-01T00:00:00Z")]);
         ("statistics", JDict stats);
         ("brandingSettings", JDict [("channel", JDict [("keywords", JStr keywords)])])].

Definition search_item (id : string) : json :=
  JDict [("snippet", JDict [("channelId", JStr id)])].

Definition alpha : json :=
  channel "a" "Alpha" "tech news" ""
    [("subscriberCount", JStr "10"); ("viewCount", JStr "100")].

(** A channel that hides its subscriber count. *)
Definition beta_stats : list (string * json) := [("viewCount", JStr "50")].

Definition beta : json := channel "b" "Beta" "gadget reviews" "tech" beta_stats.

Definition beta_data : competitor :=
  {| channel_name := JStr "Beta"; channel_id := JStr "b";
     description := JStr "gadget reviews";
     subscriber_count := 0; video_count := 0; view_count := 50;
     country := JStr "Not specified";
     created_date := JStr "2020-01-01T00:00:00Z";
     topics := JList []; relevance_score := 1;
     url := [Lit "https://www.youtube.com/channel/"; Val (JStr "b")] |}.

Definition alpha_data : competitor :=
  {| channel_name := JStr "Alpha"; channel_id := JStr "a";
     description := JStr "tech news";
     subscriber_count := 10; video_count := 0; view_count := 100;
     country := JStr "Not specified";
     created_date := JStr "2020-01-01T00:00:00Z";
     topics := JList []; relevance_score := 1;
     url := [Lit "https://www.youtube.com/channel/"; Val (JStr "a")] |}.

(** A channel that hides its subscriber count and shows its other counts. *)
Definition gamma_stats : list (string * json) :=
  [("viewCount", JStr "50"); ("videoCount", JStr "3")].

Definition gamma_snippet : json :=
  JDict [("title", JStr "Gamma"); ("description", JStr "gadget reviews");
         ("publishedAt", JStr "2020-01-01T00:00:00Z")].

Definition gamma : json := channel "g" "Gamma" "gadget reviews" "tech" gamma_stats.

Definition gamma_data : competitor :=
  {| channel_name := JStr "Gamma"; channel_id := JStr "g";
     description := JStr "gadget reviews";
     subscriber_count := 0; video_count := 3; view_count := 50;
     country := JStr "Not specified";
     created_date := JStr "2020-01-01T00:00:00Z";
     topics := JList []; relevance_score := 1;
     url := [Lit "https://www.youtube.com/channel/"; Val (JStr "g")] |}.

Definition found_ab : json :=
  JDict [("items", JList [search_item "a"; search_item "b"])].

(** The search finds the channels a and b; the lookup answers with both. *)
Definition two_channels : client :=
  scripted [Reply JNull; Reply found_ab;
            Reply (JDict [("items", JList [alpha; beta])])].

(** The same, the lookup answering in the other order. *)
Definition two_channels_swapped : client :=
  scripted [Reply JNull; Reply found_ab;
            Reply (JDict [("items", JList [beta; alpha])])].
(** Time stamps for the examples: the digits of the string, read as one
    number (which orders the stamps of the API as time does). *)
Fixpoint digits_of (acc : option Z) (s : string) : option Z :=
  match s with
  | EmptyString => acc
  | String c t =>
      match PyInt.digit c with
      | Some d => digits_of (Some (10 * match acc with Some a => a | None => 0 end + d)) t
      | None => digits_of acc t
      end
  end.

Definition strptime (s : string) : option Z := digits_of None s.

(** Two indexers for a descending sort: ties in the order of the frame,
    and ties in the opposite order. *)
Definition stable_indexer (keys : list Z) : list nat :=
  map fst (PyOps.sort_reverse snd (VideoFetchingTool.enumerate 0 keys)).

Definition reversing_indexer (keys : list Z) : list nat :=
  map (fun i => (List.length keys - 1 - i)%nat) (stable_indexer (rev keys)).

Definition playlist_item (id : string) : json :=
  JDict [("snippet", JDict [("resourceId", JDict [("videoId", JStr id)])])].

Definition video_json (id title published views : string) : json :=
  JDict [("id", JStr id);
         ("snippet", JDict [("title", JStr title); ("publishedAt", JStr published)]);
         ("statistics", JDict [("viewCount", JStr views)])].

Definition page (items : list json) (token : option string) : json :=
  JDict (("items", JList items)
         :: match token with
            | Some t => [("nextPageToken", JStr t)]
            | None => []
            end).

Definition channel_with_uploads : json :=
  JDict [("pageInfo", JDict [("totalResults", JNum 1)]);
         ("items", JList [JDict [("contentDetails",
            JDict [("relatedPlaylists", JDict [("uploads", JStr "UU")])])]])].

Definition vx : json := video_json "x" "First" "2024-01-01T00:00:00Z" "7".
Definition vy : json := video_json "y" "Second" "2024-02-01T00:00:00Z" "7".

(** A listing that answers the first page request with two items, however
    many were asked for. *)
Definition generous_page : client :=
  scripted [Reply JNull; Reply channel_with_uploads;
            Reply (page [playlist_item "x"; playlist_item "y"] None);
            Reply (JDict [("items", JList [vx; vy])])].

(** A listing that hands out one item per page. *)
Definition short_pages : client :=
  scripted [Reply JNull; Reply channel_with_uploads;
            Reply (page [playlist_item "x"] (Some "t"));
            Reply (JDict [("items", JList [vx])]);
            Reply (page [playlist_item "y"] None);
            Reply (JDict [("items", JList [vy])])].

Definition vx_data : VideoFetchingTool.video :=
  {| VideoFetchingTool.title := JStr "First";
     VideoFetchingTool.video_id := JStr "x";
     VideoFetchingTool.published_at := 20240101000000;
     VideoFetchingTool.view_count := 7;
     VideoFetchingTool.like_count := 0;
     VideoFetchingTool.comment_count := 0;
     VideoFetchingTool.url := [Lit "https://www.youtube.com/watch?v="; Val (JStr "x")] |}.

Definition vy_data : VideoFetchingTool.video :=
  {| VideoFetchingTool.title := JStr "Second";
     VideoFetchingTool.video_id := JStr "y";
     VideoFetchingTool.published_at := 20240201000000;
     VideoFetchingTool.view_count := 7;
     VideoFetchingTool.like_count := 0;
     VideoFetchingTool.comment_count := 0;
     VideoFetchingTool.url := [Lit "https://www.youtube.com/watch?v="; Val (JStr "y")] |}.

Definition two_videos : list VideoFetchingTool.video := [vx_data; vy_data].

(** A channel without uploads. *)
Definition empty_playlist : client :=
  scripted [Reply JNull; Reply channel_with_uploads;
            Reply (page [] None);
            Reply (JDict [("items", JList [])])].

(** The ids of a batch lookup: the parts of the string between commas. *)
Fixpoint split_commas (cur s : string) : list string :=
  match s with
  | EmptyString => [PyStr.rev_string EmptyString cur]
  | String c t =>
      if Ascii.eqb c "," then PyStr.rev_string EmptyString cur :: split_commas EmptyString t
      else split_commas (String c cur) t
  end.

Definition ids_of (ids : string) : list string :=
  match ids with
  | EmptyString => []
  | _ => split_commas EmptyString ids
  end.

(** A listing without end that answers as it is asked: a page has as many
    items as the request wants and announces a next page, and the lookup
    returns one record for each id it is given, with that id. *)
Definition echo : client :=
  fun log c =>
    match c with
    | Build _ | BuildOAuth _ => Reply JNull
    | ChannelsList _ _ => Reply channel_with_uploads
    | PlaylistItemsList _ m _ =>
        Reply (page (repeat (playlist_item "x") (Z.to_nat m)) (Some "next"))
    | VideosList _ ids =>
        Reply (JDict [("items",
                 JList (map (fun id => video_json id "Title" "2024-01-01T00:00:00Z" "7")
                            (ids_of ids)))])
    | _ => Fails (PyExc HttpError "HttpError 404")
    end.

(** A client whose first request is interrupted from the keyboard. *)
Definition interrupted : client :=
  fun log c =>
    match c with
    | Build _ | BuildOAuth _ => Reply JNull
    | _ => Fails (PyExc KeyboardInterrupt "")
    end.

(** A listing whose pages are empty and always announce a next page. *)
Definition stalling : client :=
  fun log c =>
    match c with
    | Build _ | BuildOAuth _ => Reply JNull
    | ChannelsList _ _ => Reply channel_with_uploads
    | PlaylistItemsList _ _ _ => Reply (page [] (Some "t"))
    | VideosList _ _ => Reply (JDict [("items", JList [])])
    | _ => Fails (PyExc HttpError "HttpError 404")
    end.

(** A client whose [build] succeeds and whose first request fails. *)
Definition unauthorized : client :=
  fun log c =>
    match c with
    | Build _ | BuildOAuth _ => Reply JNull
    | _ => Fails (PyExc HttpError "HttpError 403: the request is missing a valid API key")
    end.

End Examples.

(** ** The scoring policy in the words of the specification *)

Module Spec.
Import PyOps.

(** "split the query into whitespace-delimited lowercase terms; for each
    term, test substring presence in the concatenation of the Record's
    keyword and description fields; score = (count of matching terms) /
    (total terms)", and 0 for a query with zero terms. *)
Definition matches_concatenation (keywords description term : string) : bool :=
  PyStr.contains term (keywords ++ description).

Definition score_spec (search_query keywords description : string) : Q :=
  let terms := PyStr.split (PyStr.lower search_query) in
  match terms with
  | [] => 0%Q
  | _ => (inject_Z (Z.of_nat (List.length
                      (filter (matches_concatenation keywords description) terms)))
          / inject_Z (Z.of_nat (List.length terms)))%Q
  end.
End Spec.

(** ** Decimal numerals and ISO 8601 durations, as the API writes them *)

Module Numerals.

Definition digit_char (d : nat) : ascii := ascii_of_nat (48 + d).

(** The string of a sequence of digits, and the number it denotes. *)
Fixpoint numeral (ds : list nat) : string :=
  match ds with
  | [] => EmptyString
  | d :: t => String (digit_char d) (numeral t)
  end.

Definition value_from (acc : Z) (ds : list nat) : Z :=
  fold_left (fun a d => 10 * a + Z.of_nat d) ds acc.

Definition value (ds : list nat) : Z := value_from 0 ds.

Definition decimal (ds : list nat) : Prop :=
  ds <> [] /\ Forall (fun d => (d < 10)%nat) ds.

(** Every character of [s] passes the test [p]. *)
Fixpoint all_chars (p : ascii -> bool) (s : string) : bool :=
  match s with
  | EmptyString => true
  | String c t => (p c && all_chars p t)%bool
  end.

Definition is_not (c x : ascii) : bool := negb (Ascii.eqb x c).

Definition no_space (c : ascii) : bool := negb (PyStr.is_space c).

Definition is_digit (c : ascii) : bool :=
  match PyInt.digit c with
  | Some _ => true
  | None => false
  end.

(** A component of a duration: the numeral and its designator, or nothing. *)
Definition component (ds : option (list nat)) (designator : string) : string :=
  match ds with
  | Some d => numeral d ++ designator
  | None => EmptyString
  end.

Definition component_value (ds : option (list nat)) : Z :=
  match ds with
  | Some d => value d
  | None => 0
  end.

Definition well_formed (ds : option (list nat)) : Prop :=
  match ds with
  | Some d => decimal d
  | None => True
  end.

(** [PT#H#M#S], each of the three components optional. *)
Definition duration (h m s : option (list nat)) : string :=
  "PT" ++ component h "H" ++ component m "M" ++ component s "S".

(** [P#DT#H#M#S]: a duration of a day or more. *)
Definition long_duration (days : list nat) (h m s : option (list nat)) : string :=
  "P" ++ numeral days ++ "DT" ++ component h "H" ++ component m "M" ++ component s "S".

End Numerals.

(** ** The requests of a run, as its log shows them *)

Module Trace.

Definition is_batch_lookup (c : call) : bool :=
  match c with
  | VideosList _ _ => true
  | _ => false
  end.

Definition batch_lookups (log : list call) : Z :=
  Z.of_nat (List.length (filter is_batch_lookup log)).

(** A request that the loop of VideoFetchingTool issues for the uploads
    playlist [pl]: a page of 1 to 50 items, or a batch lookup. *)
Definition loop_request (pl : json) (c : call) : Prop :=
  match c with
  | PlaylistItemsList p m _ => p = pl /\ 1 <= m <= 50
  | VideosList part _ => part = "statistics,snippet"
  | _ => False
  end.

Definition is_comment_request (c : call) : bool :=
  match c with
  | CommentThreadsList _ _ => true
  | _ => false
  end.

End Trace.

(** * Properties *)

(** ** The list sort *)

Section SortFacts.
Context {A : Type} (key : A -> Z).

Local Abbreviation insert := (PyOps.insert_desc key).
Local Abbreviation sort := (PyOps.sort_reverse key).
Local Abbreviation desc := (PyOps.desc key).
Local Abbreviation has_key := (PyOps.has_key key).

Lemma insert_perm x l : Permutation (insert x l) (x :: l).
Proof.
  induction l as [|y t IH]; simpl.
  - apply Permutation_refl.
  - destruct (key x <? key y).
    + apply perm_trans with (y :: x :: t).
      * apply perm_skip, IH.
      * apply perm_swap.
    + apply Permutation_refl.
Qed.

Lemma sort_perm l : Permutation (sort l) l.
Proof.
  induction l as [|x t IH]; simpl.
  - apply perm_nil.
  - apply perm_trans with (x :: sort t).
    + apply insert_perm.
    + apply perm_skip, IH.
Qed.

Lemma sort_length l : List.length (sort l) = List.length l.
Proof. apply Permutation_length, sort_perm. Qed.

Lemma insert_sorted x l :
  StronglySorted desc l -> StronglySorted desc (insert x l).
Proof.
  induction 1 as [|y t Ht IH Hall]; simpl.
  - constructor; constructor.
  - destruct (Z.ltb_spec (key x) (key y)) as [Hlt|Hge].
    + constructor; [exact IH|].
      apply Forall_forall. intros z Hz.
      apply (Permutation_in _ (insert_perm x t)) in Hz.
      destruct Hz as [<-|Hz].
      * unfold PyOps.desc. lia.
      * rewrite Forall_forall in Hall. apply Hall, Hz.
    + constructor.
      * constructor; assumption.
      * constructor; [unfold PyOps.desc; lia|].
        rewrite Forall_forall in Hall |- *.
        intros z Hz. specialize (Hall z Hz). unfold PyOps.desc in *. lia.
Qed.

Lemma sort_sorted l : StronglySorted desc (sort l).
Proof.
  induction l as [|x t IH]; simpl.
  - constructor.
  - apply insert_sorted, IH.
Qed.

Lemma insert_stable k x l :
  filter (has_key k) (insert x l) = filter (has_key k) (x :: l).
Proof.
  induction l as [|y t IH].
  - reflexivity.
  - cbn [PyOps.insert_desc].
    destruct (Z.ltb_spec (key x) (key y)) as [Hlt|Hge]; [|reflexivity].
    cbn [filter]. rewrite IH. cbn [filter]. unfold PyOps.has_key.
    destruct (Z.eqb_spec (key x) k), (Z.eqb_spec (key y) k);
      try reflexivity; lia.
Qed.

Lemma sort_stable k l : filter (has_key k) (sort l) = filter (has_key k) l.
Proof.
  induction l as [|x t IH].
  - reflexivity.
  - cbn [PyOps.sort_reverse fold_right]. rewrite insert_stable.
    cbn [filter]. fold (sort t). rewrite IH. reflexivity.
Qed.

End SortFacts.

(** ** Inversion of the monadic steps *)

Lemma bind_res_Ok {A B} (r : res A) (k : A -> res B) (b : B) :
  bind_res r k = Ok b -> exists a, r = Ok a /\ k a = Ok b.
Proof.
  destruct r as [a|e]; simpl; intros H; try discriminate.
  exists a. split; [reflexivity | exact H].
Qed.

Ltac inv_res H :=
  let a := fresh "a" in
  let Ha := fresh "Ha" in
  apply bind_res_Ok in H; destruct H as (a & Ha & H).

(** ** Scorer *)

Lemma true_div_zero a : PyOps.true_div a 0 = Py.raise ZeroDivisionError "division by zero".
Proof. reflexivity. Qed.

Lemma score_no_terms q kw d :
  CompetitorSearchTool.search_terms q = [] ->
  CompetitorSearchTool.score q kw d = Py.raise ZeroDivisionError "division by zero".
Proof.
  intros H. unfold CompetitorSearchTool.score. rewrite H. reflexivity.
Qed.

(** C1. A query with zero terms does not get score 0: line 72 divides by
    [len(search_terms)], the division raises [ZeroDivisionError] at the
    first looked-up channel, and [run] ends with the error message of its
    handler instead of a report. *)
Theorem zero_term_query_divides_by_zero :
  CompetitorSearchTool.search_terms "  " = [] /\
  CompetitorSearchTool.score "  " "tech" "tech news"
    = Raise (PyExc ZeroDivisionError "division by zero") /\
  fst (CompetitorSearchTool.run (Some "k") Examples.two_channels "  " 5 (1 # 2) [])
    = Some (Ok [Lit "Error searching for competitors: "; Lit "division by zero"]).
Proof. repeat split; vm_compute; reflexivity. Qed.

Lemma sum_matches (p : string -> bool) (l : list string) :
  PyOps.sum (map (fun t => CompetitorSearchTool.bool_to_Z (p t)) l)
  = Z.of_nat (List.length (filter p l)).
Proof.
  induction l as [|t l IH]; [reflexivity|].
  cbn [map PyOps.sum fold_right filter].
  fold (PyOps.sum (map (fun t => CompetitorSearchTool.bool_to_Z (p t)) l)).
  rewrite IH. destruct (p t); cbn [CompetitorSearchTool.bool_to_Z List.length]; lia.
Qed.

(** C8, as the code has it.  For a query with at least one term the score is
    the number of terms (of the lowercased, whitespace-split query, counted
    with repetitions) that occur in the keywords or in the description, each
    field tested on its own, divided by the number of terms. *)
Theorem score_is_matching_ratio (q keywords description : string) :
  CompetitorSearchTool.search_terms q <> [] ->
  CompetitorSearchTool.score q keywords description
  = Ok (inject_Z (Z.of_nat (List.length
          (filter (CompetitorSearchTool.term_matches keywords description)
                  (CompetitorSearchTool.search_terms q))))
        / inject_Z (Z.of_nat (List.length (CompetitorSearchTool.search_terms q))))%Q.
Proof.
  intros Hne. unfold CompetitorSearchTool.score, PyOps.true_div.
  destruct (CompetitorSearchTool.search_terms q) as [|t l] eqn:E; [contradiction|].
  rewrite sum_matches.
  destruct (Z.eqb_spec (Z.of_nat (List.length (t :: l))) 0) as [H0|_].
  - simpl in H0. lia.
  - reflexivity.
Qed.

Lemma score_is_matching_ratio_witness :
  CompetitorSearchTool.search_terms "Tech Reviews" <> [] /\
  CompetitorSearchTool.score "Tech Reviews" "gadgets" "weekly tech news"
  = Ok (inject_Z 1 / inject_Z 2)%Q.
Proof.
  split.
  - vm_compute. discriminate.
  - apply (score_is_matching_ratio "Tech Reviews" "gadgets" "weekly tech news").
    vm_compute. discriminate.
Defined.

(** C8, as the specification words it, fails: a term that only the
    concatenation of the two fields contains is counted by the
    specification and not by the code. *)
Lemma score_concatenation_differs :
  CompetitorSearchTool.score "tech" "te" "ch" = Ok (inject_Z 0 / inject_Z 1)%Q /\
  Spec.score_spec "tech" "te" "ch" = (inject_Z 1 / inject_Z 1)%Q /\
  ~ (inject_Z 0 / inject_Z 1 == Spec.score_spec "tech" "te" "ch")%Q.
Proof.
  repeat split; try (vm_compute; reflexivity).
  vm_compute. discriminate.
Qed.

(** ** Summarizer *)

(** C2. The Summarizer of CompetitorSearchTool has no case for the empty
    sequence: when no channel reaches the threshold, lines 116-117 divide
    by [len(competitors)] = 0 and [run] ends with the error message of its
    handler.  The Summarizer of VideoPerformanceAnalyzer (line 136) has the
    case, and yields 0. *)
Theorem empty_summary_divides_by_zero :
  CompetitorSearchTool.collect "cooking" (1 # 2) [Examples.alpha; Examples.beta] = Ok [] /\
  CompetitorSearchTool.average CompetitorSearchTool.subscriber_count []
    = Raise (PyExc ZeroDivisionError "division by zero") /\
  fst (CompetitorSearchTool.run (Some "k") Examples.two_channels "cooking" 5 (1 # 2) [])
    = Some (Ok [Lit "Error searching for competitors: "; Lit "division by zero"]) /\
  VideoPerformanceAnalyzer.mean_likes [] = Ok 0%Q.
Proof. repeat split; vm_compute; reflexivity. Qed.

(** ** Hidden subscriber counts *)

Lemma sum_app l1 l2 : PyOps.sum (l1 ++ l2) = PyOps.sum l1 + PyOps.sum l2.
Proof.
  unfold PyOps.sum.
  induction l1 as [|x l1 IH]; cbn [app fold_right]; [reflexivity|].
  rewrite IH. lia.
Qed.

Lemma sorted_after {A} (key : A -> Z) l1 c l2 :
  StronglySorted (PyOps.desc key) (l1 ++ c :: l2) ->
  Forall (fun x => key x <= key c) l2.
Proof.
  induction l1 as [|y l1 IH]; simpl; intros H.
  - apply StronglySorted_inv in H. exact (proj2 H).
  - apply StronglySorted_inv in H. apply IH, (proj1 H).
Qed.

Lemma int_stat_missing channel stats field :
  Py.getitem channel "statistics" = Ok (JDict stats) ->
  Py.lookup field stats = None ->
  CompetitorSearchTool.int_stat channel field = Ok 0.
Proof.
  intros Hs Hl. unfold CompetitorSearchTool.int_stat.
  rewrite Hs. simpl. rewrite Hl. reflexivity.
Qed.

Lemma competitor_data_subscribers channel relevance c :
  CompetitorSearchTool.competitor_data channel relevance = Ok c ->
  CompetitorSearchTool.int_stat channel "subscriberCount"
  = Ok (CompetitorSearchTool.subscriber_count c).
Proof.
  unfold CompetitorSearchTool.competitor_data. intros H.
  do 12 inv_res H.
  injection H as <-. simpl. assumption.
Qed.

(** C10. A channel whose statistics have no [subscriberCount] gets
    [subscriber_count] 0 in CompetitorSearchTool.  Among any competitors
    found it has a place in the ranking: every competitor with a positive
    count stands before that place and none after it, and the average of
    the subscribers is the sum of the other counts divided by the number of
    all competitors, the channel included.  For the same statistics line 61
    of ChannelDemographicsTool reads 'Hidden', and that is what the basic
    statistics show as the subscriber count. *)
Theorem hidden_subscriber_count
    (channel : json) (stats : list (string * json)) (relevance : Q)
    (c : CompetitorSearchTool.competitor) :
  Py.getitem channel "statistics" = Ok (JDict stats) ->
  Py.lookup "subscriberCount" stats = None ->
  CompetitorSearchTool.competitor_data channel relevance = Ok c ->
  CompetitorSearchTool.subscriber_count c = 0 /\
  (forall found,
      In c found ->
      exists l1 l2,
        CompetitorSearchTool.rank found = (l1 ++ c :: l2)%list /\
        (forall x, In x found -> 0 < CompetitorSearchTool.subscriber_count x -> In x l1) /\
        Forall (fun x => CompetitorSearchTool.subscriber_count x <= 0) l2 /\
        CompetitorSearchTool.average CompetitorSearchTool.subscriber_count
          (CompetitorSearchTool.rank found)
        = PyOps.true_div
            (PyOps.sum (map CompetitorSearchTool.subscriber_count (l1 ++ l2)))
            (Z.of_nat (List.length (l1 ++ l2)) + 1)) /\
  Py.get (JDict stats) "subscriberCount" (JStr "Hidden") = Ok (JStr "Hidden") /\
  (forall snippet bs,
      ChannelDemographicsTool.basic_stats (JDict stats) snippet = Ok bs ->
      Py.lookup "Subscriber Count" bs = Some (JStr "Hidden")).
Proof.
  intros Hstats Hmiss Hdata.
  assert (H0 : CompetitorSearchTool.subscriber_count c = 0).
  { apply competitor_data_subscribers in Hdata.
    rewrite (int_stat_missing _ _ _ Hstats Hmiss) in Hdata.
    injection Hdata as <-. reflexivity. }
  split; [exact H0|]. split; [|split].
  - intros found Hc.
    assert (Hin : In c (CompetitorSearchTool.rank found)).
    { apply (Permutation_in _ (Permutation_sym
               (sort_perm CompetitorSearchTool.subscriber_count found))), Hc. }
    destruct (in_split _ _ Hin) as (l1 & l2 & Hrank).
    exists l1, l2. split; [exact Hrank|].
    pose proof (sort_sorted CompetitorSearchTool.subscriber_count found) as Hs.
    fold (CompetitorSearchTool.rank found) in Hs. rewrite Hrank in Hs.
    apply sorted_after in Hs.
    split; [|split].
    + intros x Hx Hpos. rewrite Forall_forall in Hs.
      apply (Permutation_in _ (Permutation_sym
               (sort_perm CompetitorSearchTool.subscriber_count found))) in Hx.
      fold (CompetitorSearchTool.rank found) in Hx. rewrite Hrank in Hx.
      apply in_app_or in Hx. destruct Hx as [Hx|[<-|Hx]].
      * exact Hx.
      * lia.
      * specialize (Hs x Hx). lia.
    + rewrite H0 in Hs. exact Hs.
    + unfold CompetitorSearchTool.average. rewrite Hrank.
      rewrite !map_app, !sum_app, !length_app. cbn [map List.length].
      change (PyOps.sum (CompetitorSearchTool.subscriber_count c
                         :: map CompetitorSearchTool.subscriber_count l2))
        with (CompetitorSearchTool.subscriber_count c
              + PyOps.sum (map CompetitorSearchTool.subscriber_count l2)).
      rewrite H0. f_equal; lia.
  - simpl. rewrite Hmiss. reflexivity.
  - intros snippet bs H. unfold ChannelDemographicsTool.basic_stats in H.
    do 8 inv_res H. injection H as <-.
    simpl in Ha3. rewrite Hmiss in Ha3. injection Ha3 as <-. reflexivity.
Qed.

Lemma hidden_subscriber_count_witness :
  CompetitorSearchTool.subscriber_count Examples.gamma_data = 0 /\
  (exists l1 l2,
      CompetitorSearchTool.rank [Examples.gamma_data; Examples.alpha_data]
      = (l1 ++ Examples.gamma_data :: l2)%list /\
      In Examples.alpha_data l1 /\
      CompetitorSearchTool.average CompetitorSearchTool.subscriber_count
        (CompetitorSearchTool.rank [Examples.gamma_data; Examples.alpha_data])
      = PyOps.true_div
          (PyOps.sum (map CompetitorSearchTool.subscriber_count (l1 ++ l2)))
          (Z.of_nat (List.length (l1 ++ l2)) + 1)) /\
  (exists bs,
      ChannelDemographicsTool.basic_stats (JDict Examples.gamma_stats) Examples.gamma_snippet
      = Ok bs /\
      Py.lookup "Subscriber Count" bs = Some (JStr "Hidden")).
Proof.
  destruct (hidden_subscriber_count Examples.gamma Examples.gamma_stats 1%Q
              Examples.gamma_data eq_refl eq_refl eq_refl)
    as (Hzero & Hrank & _ & Hshown).
  split; [exact Hzero|]. split.
  - destruct (Hrank [Examples.gamma_data; Examples.alpha_data] (or_introl eq_refl))
      as (l1 & l2 & Hsplit & Hbefore & _ & Havg).
    exists l1, l2. split; [exact Hsplit|]. split; [|exact Havg].
    apply Hbefore; [right; left; reflexivity | simpl; lia].
  - eexists. split; [vm_compute; reflexivity|].
    apply (Hshown Examples.gamma_snippet). vm_compute. reflexivity.
Defined.

(** ** Enricher *)

Lemma map_res_cons {A B} (f : A -> res B) x t ys :
  map_res f (x :: t) = Ok ys ->
  exists y ys', f x = Ok y /\ map_res f t = Ok ys' /\ ys = y :: ys'.
Proof.
  cbn [map_res]. intros H. do 2 inv_res H. injection H as <-.
  eauto.
Qed.

Lemma competitor_data_id channel relevance c :
  CompetitorSearchTool.competitor_data channel relevance = Ok c ->
  Py.getitem channel "id" = Ok (CompetitorSearchTool.channel_id c).
Proof.
  unfold CompetitorSearchTool.competitor_data. intros H.
  do 12 inv_res H. injection H as <-. simpl. assumption.
Qed.

Lemma process_channel_id q th channel c :
  CompetitorSearchTool.process_channel q th channel = Ok (Some c) ->
  Py.getitem channel "id" = Ok (CompetitorSearchTool.channel_id c).
Proof.
  unfold CompetitorSearchTool.process_channel. intros H.
  do 7 inv_res H.
  destruct (Qle_bool th a5); [|discriminate].
  inv_res H. injection H as <-.
  eapply competitor_data_id; eassumption.
Qed.

Lemma video_data_id strptime v r :
  VideoFetchingTool.video_data strptime v = Ok r ->
  Py.getitem v "id" = Ok (VideoFetchingTool.video_id r).
Proof.
  unfold VideoFetchingTool.video_data. intros H.
  do 10 inv_res H. injection H as <-. simpl. assumption.
Qed.

Lemma collect_order q th channels cs :
  CompetitorSearchTool.collect q th channels = Ok cs ->
  map_res (fun ch => Py.getitem ch "id")
          (filter (CompetitorSearchTool.retained q th) channels)
  = Ok (map CompetitorSearchTool.channel_id cs).
Proof.
  unfold CompetitorSearchTool.collect. intros H. inv_res H.
  injection H as <-. revert a Ha.
  induction channels as [|ch t IH]; intros os Hos.
  - simpl in Hos. injection Hos as <-. reflexivity.
  - apply map_res_cons in Hos. destruct Hos as (o & os' & Ho & Ht & ->).
    cbn [filter]. unfold CompetitorSearchTool.retained at 1. rewrite Ho.
    destruct o as [c|]; cbn [CompetitorSearchTool.keep map].
    + cbn [map_res]. rewrite (process_channel_id _ _ _ _ Ho).
      cbn [bind_res]. rewrite (IH _ Ht). reflexivity.
    + apply IH, Ht.
Qed.

Lemma videos_order strptime found new :
  map_res (VideoFetchingTool.video_data strptime) found = Ok new ->
  map_res (fun v => Py.getitem v "id") found = Ok (map VideoFetchingTool.video_id new).
Proof.
  revert new. induction found as [|v t IH]; intros new H.
  - simpl in H. injection H as <-. reflexivity.
  - apply map_res_cons in H. destruct H as (r & rs & Hr & Ht & ->).
    cbn [map_res map]. rewrite (video_data_id _ _ _ Hr). cbn [bind_res].
    rewrite (IH _ Ht). reflexivity.
Qed.

(** C7, as the code has it.  The records of the Enricher stand in the order
    of the items of the batch response: in CompetitorSearchTool they are
    the retained channels of the response, in VideoFetchingTool the
    videos of the response, each in the order of the response. *)
Theorem enricher_keeps_response_order
    (q : string) (th : Q) (channels : list json)
    (cs : list CompetitorSearchTool.competitor)
    (strptime : string -> option Z) (found : list json)
    (new : list VideoFetchingTool.video) :
  CompetitorSearchTool.collect q th channels = Ok cs ->
  map_res (VideoFetchingTool.video_data strptime) found = Ok new ->
  map_res (fun ch => Py.getitem ch "id")
          (filter (CompetitorSearchTool.retained q th) channels)
  = Ok (map CompetitorSearchTool.channel_id cs) /\
  map_res (fun v => Py.getitem v "id") found = Ok (map VideoFetchingTool.video_id new).
Proof.
  intros Hc Hv. split.
  - apply collect_order, Hc.
  - eapply videos_order, Hv.
Qed.

Lemma enricher_keeps_response_order_witness :
  map_res (fun ch => Py.getitem ch "id")
          (filter (CompetitorSearchTool.retained "tech" (1 # 2))
                  [Examples.beta; Examples.alpha])
  = Ok [JStr "b"; JStr "a"] /\
  map_res (fun v => Py.getitem v "id") [Examples.vy; Examples.vx]
  = Ok [JStr "y"; JStr "x"].
Proof.
  exact (enricher_keeps_response_order "tech" (1 # 2) [Examples.beta; Examples.alpha] _
           Examples.strptime [Examples.vy; Examples.vx] _ eq_refl eq_refl).
Defined.

(** C7, as the specification words it, fails: the identifiers were seen in
    the order a, b; the batch response lists b before a, and so do the
    records of the Enricher. *)
Lemma enricher_order_is_not_first_seen :
  map_res CompetitorSearchTool.channel_id_of
          [Examples.search_item "a"; Examples.search_item "b"]
  = Ok [JStr "a"; JStr "b"] /\
  snd (CompetitorSearchTool.run (Some "k") Examples.two_channels_swapped "tech" 5 (1 # 2) [])
  = [Build (Some "k"); SearchList "tech" 5;
     ChannelsList "snippet,statistics,brandingSettings,topicDetails" "a,b"] /\
  match CompetitorSearchTool.collect "tech" (1 # 2) [Examples.beta; Examples.alpha] with
  | Ok cs => map CompetitorSearchTool.channel_id cs = [JStr "b"; JStr "a"]
  | _ => False
  end.
Proof. repeat split; vm_compute; reflexivity. Qed.

(** ** The credential *)

(** C4. Only ChannelDemographicsTool checks the key (lines 33-34): without
    a key it returns its message and issues no request.  The other tools
    hand the missing key to [build] and issue their first request; what
    they return is the outcome of that request. *)
Theorem missing_key_is_checked_by_one_tool_only :
  (forall oauth yt channel_id log,
      ChannelDemographicsTool.run None oauth yt channel_id log
      = (Some (Ok [Lit "Error: YouTube API key is not set."]), log)) /\
  snd (CompetitorSearchTool.run None Examples.two_channels "Tech Reviews" 5 (1 # 2) [])
  = [Build None; SearchList "Tech Reviews" 5;
     ChannelsList "snippet,statistics,brandingSettings,topicDetails" "a,b"] /\
  CompetitorSearchTool.run None Examples.unauthorized "Tech Reviews" 5 (1 # 2) []
  = (Some (Ok [Lit "Error searching for competitors: ";
               Lit "HttpError 403: the request is missing a valid API key"]),
     [Build None; SearchList "Tech Reviews" 5]) /\
  VideoFetchingTool.run Examples.strptime Examples.stable_indexer 3 None
    Examples.unauthorized "UC1" 5 "views" []
  = (Some (Ok [Lit "Error fetching videos: ";
               Lit "HttpError 403: the request is missing a valid API key"]),
     [Build None; ChannelsList "contentDetails" "UC1"]) /\
  VideoPerformanceAnalyzer.run Examples.strptime 0 None Examples.unauthorized "v1" true []
  = (Some (Ok [Lit "Error analyzing video performance: ";
               Lit "HttpError 403: the request is missing a valid API key"]),
     [Build None; VideosList "snippet,statistics,contentDetails" "v1"]).
Proof.
  split; [intros; reflexivity|].
  repeat split; vm_compute; reflexivity.
Qed.

(** ** Paginator *)

Ltac turn_ends :=
  let H := fresh "H" in
  let e := fresh "e" in
  let He := fresh "He" in
  intros H; injection H as H ?; subst;
  (split; [eexists; reflexivity|]);
  (split; [first [now left | right; eexists; reflexivity]|]);
  intros e He; discriminate He.

Section Paginator.
Import VideoFetchingTool.

Variable strptime : string -> option Z.
Variable yt : client.
Variable pl : json.
Variable N : Z.

Local Abbreviation turn := (VideoFetchingTool.turn strptime yt pl N).
Local Abbreviation loop fuel := (VideoFetchingTool.while_loop strptime fuel yt pl N).

Local Abbreviation page_call := (VideoFetchingTool.page_call pl N).

Lemma map_res_length {A B} (f : A -> res B) l ys :
  map_res f l = Ok ys -> List.length ys = List.length l.
Proof.
  revert ys. induction l as [|x t IH]; intros ys H.
  - simpl in H. injection H as <-. reflexivity.
  - apply map_res_cons in H. destruct H as (y & ys' & _ & Ht & ->).
    simpl. f_equal. apply IH, Ht.
Qed.

(** What a turn does: one page request, then either nothing more, or one
    batch lookup.  It always ends. *)
Lemma turn_inv videos tok log o log' :
  turn videos tok log = (o, log') ->
  (exists r, o = Some r) /\
  (log' = (log ++ [page_call videos tok])%list \/
   exists ids, log' = (log ++ [page_call videos tok; VideosList "statistics,snippet" ids])%list) /\
  forall e, o = Some (Ok e) ->
    exists j, yt log (page_call videos tok) = Reply j /\
      (e = Return [Lit "No videos found in the uploads playlist."] \/
       exists ids v found new t,
         yt (log ++ [page_call videos tok])%list (VideosList "statistics,snippet" ids) = Reply v /\
         items_of v = Ok found /\
         List.length new = List.length found /\
         Py.get j "nextPageToken" JNull = Ok t /\
         e = if Py.truthy t then Continue (videos ++ new) t else Break (videos ++ new)).
Proof.
  unfold VideoFetchingTool.turn, bind, execute, lift, ret.
  fold (VideoFetchingTool.page_call pl N videos tok).
  destruct (yt log (page_call videos tok)) as [j|e0] eqn:Hj; cbv beta iota;
    [|turn_ends].
  destruct (Py.contains "items" j) as [has|e0] eqn:Hhas; cbv beta iota;
    [|turn_ends].
  destruct has; cbn [negb]; cbv beta iota.
  2:{ intros H; injection H as H ?; subst. split; [eauto|]. split; [now left|].
      intros e He. injection He as <-. exists j. split; [reflexivity|now left]. }
  destruct (items_of j) as [items|e0] eqn:Hitems; cbv beta iota; [|turn_ends].
  destruct (map_res video_id_of items) as [vids|e0] eqn:Hvids; cbv beta iota;
    [|turn_ends].
  destruct (PyOps.join "," vids) as [ids|e0] eqn:Hids; cbv beta iota; [|turn_ends].
  destruct (yt (log ++ [page_call videos tok])%list (VideosList "statistics,snippet" ids))
    as [v|e0] eqn:Hv; cbv beta iota; rewrite <- app_assoc; cbn [app];
    [|turn_ends].
  destruct (items_of v) as [found|e0] eqn:Hfound; cbv beta iota; [|turn_ends].
  destruct (map_res (video_data strptime) found) as [new|e0] eqn:Hnew; cbv beta iota;
    [|turn_ends].
  destruct (Py.get j "nextPageToken" JNull) as [t|e0] eqn:Ht; cbv beta iota;
    [|turn_ends].
  intros H. split; [|split; [right; exists ids|]].
  - destruct (Py.truthy t); injection H as H ?; subst; eauto.
  - destruct (Py.truthy t); injection H as H ?; subst; reflexivity.
  - intros e He. exists j. split; [reflexivity|]. right.
    exists ids, v, found, new, t.
    repeat split; try assumption.
    + eapply map_res_length, Hnew.
    + destruct (Py.truthy t); injection H as H ?; subst; injection He as <-; reflexivity.
Qed.

(** The same, with the ids that the batch lookup asks for and the size of
    the page request. *)
Lemma turn_inv_ids videos tok log e log' :
  len_videos videos < N ->
  turn videos tok log = (Some (Ok e), log') ->
  exists m j,
    1 <= m <= 50 /\ m <= N - len_videos videos /\
    page_call videos tok = PlaylistItemsList pl m tok /\
    yt log (PlaylistItemsList pl m tok) = Reply j /\
    (e = Return [Lit "No videos found in the uploads playlist."] \/
     exists ids v found new t,
       lookup_ids j = Ok ids /\
       yt (log ++ [PlaylistItemsList pl m tok])%list (VideosList "statistics,snippet" ids)
       = Reply v /\
       items_of v = Ok found /\
       List.length new = List.length found /\
       Py.get j "nextPageToken" JNull = Ok t /\
       e = if Py.truthy t then Continue (videos ++ new) t else Break (videos ++ new)).
Proof.
  intros Hlt H. exists (Z.min 50 (N - len_videos videos)).
  revert H. unfold VideoFetchingTool.turn, bind, execute, lift, ret.
  destruct (yt log (PlaylistItemsList pl (Z.min 50 (N - len_videos videos)) tok))
    as [j|e0] eqn:Hj; cbv beta iota; [|discriminate].
  intros H. exists j.
  split; [lia|]. split; [lia|]. split; [reflexivity|]. split; [reflexivity|].
  revert H.
  destruct (Py.contains "items" j) as [has|e0] eqn:Hhas; cbv beta iota; [|discriminate].
  destruct has; cbn [negb]; cbv beta iota.
  2:{ intros H. injection H as <- _. left. reflexivity. }
  destruct (items_of j) as [items|e0] eqn:Hitems; cbv beta iota; [|discriminate].
  destruct (map_res video_id_of items) as [vids|e0] eqn:Hvids; cbv beta iota;
    [|discriminate].
  destruct (PyOps.join "," vids) as [ids|e0] eqn:Hids; cbv beta iota; [|discriminate].
  destruct (yt (log ++ [PlaylistItemsList pl (Z.min 50 (N - len_videos videos)) tok])%list
              (VideosList "statistics,snippet" ids)) as [v|e0] eqn:Hv;
    cbv beta iota; [|discriminate].
  destruct (items_of v) as [found|e0] eqn:Hfound; cbv beta iota; [|discriminate].
  destruct (map_res (video_data strptime) found) as [new|e0] eqn:Hnew; cbv beta iota;
    [|discriminate].
  destruct (Py.get j "nextPageToken" JNull) as [t|e0] eqn:Ht; cbv beta iota;
    [|discriminate].
  intros H. right. exists ids, v, found, new, t.
  split.
  { unfold lookup_ids. rewrite Hitems. cbn [bind_res]. rewrite Hvids. exact Hids. }
  split; [exact Hv|]. split; [exact Hfound|].
  split; [eapply map_res_length, Hnew|]. split; [reflexivity|].
  destruct (Py.truthy t); injection H as <- _; reflexivity.
Qed.

Lemma page_requests_app l1 l2 :
  page_requests (l1 ++ l2) = page_requests l1 + page_requests l2.
Proof.
  unfold page_requests. rewrite filter_app, length_app. lia.
Qed.

Lemma turn_requests videos tok log o log' :
  turn videos tok log = (o, log') ->
  page_requests log' = page_requests log + 1.
Proof.
  intros H. apply turn_inv in H. destruct H as (_ & [->|[ids ->]] & _);
    rewrite page_requests_app; reflexivity.
Qed.

Lemma loop_unfold fuel videos tok :
  loop fuel videos tok
  = if len_videos videos <? N then
      match fuel with
      | O => out_of_fuel
      | S fuel' =>
          bind (turn videos tok)
            (fun e => match e with
                      | Continue videos' token' => loop fuel' videos' token'
                      | Break videos' => ret (inl videos')
                      | Return output => ret (inr output)
                      end)
      end
    else ret (inl videos).
Proof. destruct fuel; reflexivity. Qed.

(** The loop does not start a turn once [max_results] records are there. *)
Lemma loop_stops_at_bound fuel videos tok log :
  N <= len_videos videos ->
  loop fuel videos tok log = (Some (Ok (inl videos)), log).
Proof.
  intros H. rewrite loop_unfold.
  destruct (Z.ltb_spec (len_videos videos) N); [lia|reflexivity].
Qed.

(** After a page without continuation token no page is requested. *)
Lemma loop_last_page fuel videos tok log j t :
  yt log (page_call videos tok) = Reply j ->
  Py.get j "nextPageToken" JNull = Ok t ->
  Py.truthy t = false ->
  page_requests (snd (loop fuel videos tok log)) <= page_requests log + 1.
Proof.
  intros Hj Ht Hfalse. rewrite loop_unfold.
  destruct (len_videos videos <? N); [|simpl; lia].
  destruct fuel as [|fuel]; [simpl; lia|].
  unfold bind. destruct (turn videos tok log) as [o log1] eqn:Hturn.
  pose proof (turn_requests _ _ _ _ _ Hturn) as Hreq.
  apply turn_inv in Hturn. destruct Hturn as (_ & _ & He).
  destruct o as [[e|ex]|]; cbn [snd]; try lia.
  destruct (He e eq_refl) as (j' & Hj' & Hcases).
  rewrite Hj in Hj'. injection Hj' as <-.
  destruct Hcases as [->|(ids & v & found & new & t' & _ & _ & _ & Ht' & ->)].
  - cbn [ret snd]. lia.
  - rewrite Ht in Ht'. injection Ht' as <-. rewrite Hfalse. cbn [ret snd]. lia.
Qed.

Lemma len_videos_app videos new :
  len_videos (videos ++ new) = len_videos videos + Z.of_nat (List.length new).
Proof. unfold len_videos. rewrite length_app. lia. Qed.

(** The records stay within [max_results] when every batch lookup returns
    at most as many records as its page request asked for. *)
Lemma loop_within_bound :
  honours_bound yt pl ->
  forall fuel videos tok log vs log',
    len_videos videos <= N ->
    loop fuel videos tok log = (Some (Ok (inl vs)), log') ->
    len_videos vs <= N.
Proof.
  intros Hb. induction fuel as [|fuel IH]; intros videos tok log vs log' Hle;
    rewrite loop_unfold;
    destruct (Z.ltb_spec (len_videos videos) N) as [Hlt|Hge];
    try (intros H; injection H as <- _; exact Hle).
  - discriminate.
  - unfold bind. destruct (turn videos tok log) as [o log1] eqn:Hturn.
    destruct o as [[e|ex]|]; try discriminate.
    apply (turn_inv_ids _ _ _ _ _ Hlt) in Hturn.
    destruct Hturn as (m & j & Hm & HmN & _ & Hj & Hcases).
    destruct Hcases
      as [->|(ids & v & found & new & t & Hids & Hv & Hfound & Hlen & _ & ->)].
    + discriminate.
    + pose proof (Hb _ _ _ _ _ _ _ Hm Hj Hids Hv Hfound) as Hsize.
      assert (Hnew : len_videos (videos ++ new) <= N).
      { rewrite len_videos_app, Hlen. lia. }
      destruct (Py.truthy t).
      * intros H. eapply IH; eassumption.
      * intros H. injection H as <- _. exact Hnew.
Qed.

Lemma ceil_div_step R :
  0 < R -> ceil_div (Z.max (R - Z.min 50 R) 0) 50 + 1 <= ceil_div (Z.max R 0) 50.
Proof.
  intros HR. unfold ceil_div.
  destruct (Z.le_gt_cases R 50) as [Hs|Hl].
  - rewrite Z.min_r by lia. replace (Z.max (R - R) 0) with 0 by lia.
    rewrite (Z.max_l R 0) by lia.
    change ((0 + 50 - 1) / 50) with 0.
    assert (1 <= (R + 50 - 1) / 50) by (apply Z.div_le_lower_bound; lia).
    lia.
  - rewrite Z.min_l by lia. rewrite !Z.max_l by lia.
    replace (R + 50 - 1) with ((R - 50 + 50 - 1) + 1 * 50) by lia.
    rewrite Z.div_add by lia. lia.
Qed.

Lemma ceil_div_mono a b : a <= b -> ceil_div a 50 <= ceil_div b 50.
Proof. intros H. unfold ceil_div. apply Z.div_le_mono; lia. Qed.

Lemma ceil_div_pos R : 0 < R -> 1 <= ceil_div (Z.max R 0) 50.
Proof.
  intros HR. unfold ceil_div. apply Z.div_le_lower_bound; lia.
Qed.

(** When every page that announces a further page comes with at least as
    many records as were asked for, [ceil(remaining / 50)] page requests
    suffice, and the loop ends within that many turns. *)
Lemma loop_requests :
  serves_full_pages yt pl ->
  forall fuel videos tok log,
    let bound := ceil_div (Z.max (N - len_videos videos) 0) 50 in
    page_requests (snd (loop fuel videos tok log)) - page_requests log <= bound /\
    (bound <= Z.of_nat fuel -> exists r, fst (loop fuel videos tok log) = Some r).
Proof.
  intros Hfull. induction fuel as [|fuel IH]; intros videos tok log bound;
    subst bound; rewrite loop_unfold;
    destruct (Z.ltb_spec (len_videos videos) N) as [Hlt|Hge];
    try (cbn [ret fst snd]; split;
         [rewrite Z.max_r by lia; change (ceil_div 0 50) with 0; lia | eauto]).
  - cbn [out_of_fuel fst snd]. split.
    + pose proof (ceil_div_pos (N - len_videos videos)). lia.
    + pose proof (ceil_div_pos (N - len_videos videos)). lia.
  - assert (Hpos : 1 <= ceil_div (Z.max (N - len_videos videos) 0) 50)
      by (apply ceil_div_pos; lia).
    unfold bind. destruct (turn videos tok log) as [o log1] eqn:Hturn.
    pose proof (turn_requests _ _ _ _ _ Hturn) as Hreq.
    pose proof (turn_inv _ _ _ _ _ Hturn) as ((r & ->) & _ & _).
    destruct r as [e|ex]; [|cbn [fst snd]; split; [lia|eauto]].
    apply (turn_inv_ids _ _ _ _ _ Hlt) in Hturn.
    destruct Hturn as (m & j & Hm & HmN & Hcall & Hj & Hcases).
    destruct Hcases
      as [->|(ids & v & found & new & t & Hids & Hv & Hfound & Hlen & Ht & ->)];
      [cbn [ret fst snd]; split; [lia|eauto]|].
    destruct (Py.truthy t) eqn:Htruthy; [|cbn [ret fst snd]; split; [lia|eauto]].
    pose proof (Hfull _ _ _ _ _ _ _ _ Hm Hj Ht Htruthy Hids Hv Hfound) as Hsize.
    assert (Em : m = Z.min 50 (N - len_videos videos)).
    { unfold VideoFetchingTool.page_call in Hcall. injection Hcall as E. lia. }
    specialize (IH (videos ++ new)%list t log1). cbv zeta in IH.
    destruct IH as [IHreq IHend].
    assert (Hstep : ceil_div (Z.max (N - len_videos (videos ++ new)) 0) 50 + 1
                    <= ceil_div (Z.max (N - len_videos videos) 0) 50).
    { etransitivity; [|apply (ceil_div_step (N - len_videos videos)); lia].
      apply Z.add_le_mono_r, ceil_div_mono.
      rewrite len_videos_app, Hlen. lia. }
    split; [lia|]. intros Hfuel. apply IHend. lia.
Qed.

(** When every page that announces a further page brings at least one
    record, there is at most one page request for each record that is
    still missing, and the loop ends within that many turns. *)
Lemma loop_requests_progress :
  Handler.makes_progress yt ->
  forall fuel videos tok log,
    let bound := Z.max (N - len_videos videos) 0 in
    page_requests (snd (loop fuel videos tok log)) - page_requests log <= bound /\
    (bound <= Z.of_nat fuel -> exists r, fst (loop fuel videos tok log) = Some r).
Proof.
  intros Hprog. induction fuel as [|fuel IH]; intros videos tok log bound;
    subst bound; rewrite loop_unfold;
    destruct (Z.ltb_spec (len_videos videos) N) as [Hlt|Hge];
    try (cbn [ret fst snd]; split; [lia | eauto]).
  - cbn [out_of_fuel fst snd]. split; lia.
  - unfold bind. destruct (turn videos tok log) as [o log1] eqn:Hturn.
    pose proof (turn_requests _ _ _ _ _ Hturn) as Hreq.
    pose proof (turn_inv _ _ _ _ _ Hturn) as ((r & ->) & _ & _).
    destruct r as [e|ex]; [|cbn [fst snd]; split; [lia|eauto]].
    apply (turn_inv_ids _ _ _ _ _ Hlt) in Hturn.
    destruct Hturn as (m & j & Hm & HmN & Hcall & Hj & Hcases).
    destruct Hcases
      as [->|(ids & v & found & new & t & Hids & Hv & Hfound & Hlen & Ht & ->)];
      [cbn [ret fst snd]; split; [lia|eauto]|].
    destruct (Py.truthy t) eqn:Htruthy; [|cbn [ret fst snd]; split; [lia|eauto]].
    pose proof (Hprog _ _ _ _ _ _ _ _ _ Hm Hj Ht Htruthy Hids Hv Hfound) as Hsize.
    specialize (IH (videos ++ new)%list t log1). cbv zeta in IH.
    destruct IH as [IHreq IHend].
    rewrite len_videos_app, Hlen in IHreq, IHend.
    split; [lia|]. intros Hfuel. apply IHend. lia.
Qed.

End Paginator.

(** ** The frame sort of VideoFetchingTool *)

Lemma map_nth_seq {A} (l : list A) (d : A) :
  map (fun i => nth i l d) (seq 0 (List.length l)) = l.
Proof.
  induction l as [|x t IH]; [reflexivity|].
  cbn [List.length seq map nth]. f_equal.
  rewrite <- seq_shift, map_map. exact IH.
Qed.

Lemma enumerate_nth_error {A} (l : list A) (start i : nat) :
  nth_error (VideoFetchingTool.enumerate start l) i
  = option_map (fun x => ((start + i)%nat, x)) (nth_error l i).
Proof.
  revert start i. induction l as [|x t IH]; intros start i.
  - destruct i; reflexivity.
  - destruct i as [|i]; cbn [VideoFetchingTool.enumerate nth_error option_map].
    + rewrite Nat.add_0_r. reflexivity.
    + rewrite IH. rewrite Nat.add_succ_comm. reflexivity.
Qed.

Lemma take_rows_in_range {A} (l : list A) (d : A) (idx : list nat) :
  Forall (fun i => (i < List.length l)%nat) idx ->
  map_res (VideoFetchingTool.take_row (VideoFetchingTool.enumerate 0 l)) idx
  = Ok (map (fun i => (i, nth i l d)) idx).
Proof.
  induction 1 as [|i idx Hi _ IH]; [reflexivity|].
  cbn [map_res map]. unfold VideoFetchingTool.take_row at 1.
  rewrite enumerate_nth_error, (nth_error_nth' l d Hi). cbn [option_map bind_res].
  rewrite IH. reflexivity.
Qed.

Lemma strongly_sorted_map {A B} (R : A -> A -> Prop) (R' : B -> B -> Prop)
    (f : A -> B) (P : A -> Prop) (l : list A) :
  (forall a b, P a -> P b -> R a b -> R' (f a) (f b)) ->
  Forall P l -> StronglySorted R l -> StronglySorted R' (map f l).
Proof.
  intros HR HP Hs. induction Hs as [|a l Hs IH Hall]; cbn [map].
  - constructor.
  - apply Forall_cons_iff in HP. destruct HP as [Pa Pl].
    constructor; [apply IH, Pl|].
    apply Forall_map. rewrite Forall_forall in *.
    intros b Hb. apply HR; auto.
Qed.

Lemma frame_sort (indexer : list Z -> list nat) (column : string)
    (key : VideoFetchingTool.video -> Z) (videos : list VideoFetchingTool.video) :
  videos <> [] ->
  VideoFetchingTool.sorts_descending (map key videos) (indexer (map key videos)) ->
  exists df,
    VideoFetchingTool.sort_values indexer column key videos = Ok df /\
    Permutation (map snd df) videos /\
    List.length df = List.length videos /\
    StronglySorted (PyOps.desc key) (map snd df).
Proof.
  intros Hne [Hperm Hsorted].
  destruct videos as [|v0 rest]; [contradiction|].
  remember (v0 :: rest) as videos eqn:E.
  assert (Hrange : Forall (fun i => (i < List.length videos)%nat) (indexer (map key videos))).
  { apply Forall_forall. intros i Hi.
    apply (Permutation_in _ Hperm) in Hi. apply in_seq in Hi.
    rewrite length_map in Hi. lia. }
  exists (map (fun i => (i, nth i videos v0)) (indexer (map key videos))).
  split; [|split; [|split]].
  - unfold VideoFetchingTool.sort_values.
    destruct videos as [|v1 rest1]; [discriminate E|].
    apply take_rows_in_range, Hrange.
  - rewrite map_map. cbn [snd].
    rewrite <- (map_nth_seq videos v0) at 2.
    apply Permutation_map. rewrite length_map in Hperm. exact Hperm.
  - rewrite length_map, (Permutation_length Hperm), length_seq, length_map. reflexivity.
  - rewrite map_map. cbn [snd].
    eapply strongly_sorted_map; [|exact Hrange|exact Hsorted].
    intros i j Hi Hj Hij. cbv beta in *. unfold PyOps.desc.
    rewrite (nth_indep (map key videos) 0 (key v0) (n:=i)) in Hij
      by (rewrite length_map; exact Hi).
    rewrite (nth_indep (map key videos) 0 (key v0) (n:=j)) in Hij
      by (rewrite length_map; exact Hj).
    rewrite !map_nth in Hij. exact Hij.
Qed.

(** The Rankers where they sort.  The list sort ([competitors.sort] by
    subscribers, [comment_data.sort] by likes) returns a permutation of the
    list, of the same length, that does not increase on the key and keeps
    the order of the list among equal keys.  The frame sort of
    VideoFetchingTool returns, for a frame that is not empty, the rows of
    the frame, each once, in an order in which the chosen column (views or
    date) does not increase. *)
Theorem ranker_sorts {A : Type} (key : A -> Z) (l : list A)
    (indexer : list Z -> list nat) (sort_by : string)
    (videos : list VideoFetchingTool.video) :
  videos <> [] ->
  VideoFetchingTool.sorts_descending
    (map (snd (VideoFetchingTool.sort_column sort_by)) videos)
    (indexer (map (snd (VideoFetchingTool.sort_column sort_by)) videos)) ->
  (Permutation (PyOps.sort_reverse key l) l /\
   List.length (PyOps.sort_reverse key l) = List.length l /\
   StronglySorted (PyOps.desc key) (PyOps.sort_reverse key l) /\
   forall k, filter (PyOps.has_key key k) (PyOps.sort_reverse key l)
             = filter (PyOps.has_key key k) l) /\
  exists df,
    VideoFetchingTool.rank indexer sort_by videos = Ok df /\
    Permutation (map snd df) videos /\
    List.length df = List.length videos /\
    StronglySorted (PyOps.desc (snd (VideoFetchingTool.sort_column sort_by))) (map snd df).
Proof.
  intros Hne Hidx. split.
  - repeat split.
    + apply sort_perm.
    + apply sort_length.
    + apply sort_sorted.
    + intros k. apply sort_stable.
  - unfold VideoFetchingTool.rank.
    destruct (VideoFetchingTool.sort_column sort_by) as [column vkey].
    apply frame_sort; assumption.
Qed.

Ltac sorted_positions :=
  repeat first [apply SSorted_nil | apply SSorted_cons | apply Forall_nil | apply Forall_cons];
  vm_compute; discriminate.

Lemma two_videos_sorted :
  VideoFetchingTool.sorts_descending
    (map (snd (VideoFetchingTool.sort_column "date")) Examples.two_videos)
    (Examples.stable_indexer
       (map (snd (VideoFetchingTool.sort_column "date")) Examples.two_videos)).
Proof.
  replace (Examples.stable_indexer _) with [1; 0]%nat by (vm_compute; reflexivity).
  split.
  - apply perm_swap.
  - sorted_positions.
Qed.

Lemma ranker_sorts_witness :
  exists df,
    VideoFetchingTool.rank Examples.stable_indexer "date" Examples.two_videos = Ok df /\
    Permutation (map snd df) Examples.two_videos /\
    List.length df = List.length Examples.two_videos /\
    StronglySorted (PyOps.desc (snd (VideoFetchingTool.sort_column "date"))) (map snd df).
Proof.
  refine (proj2 (ranker_sorts CompetitorSearchTool.subscriber_count [Examples.beta_data]
                   Examples.stable_indexer "date" Examples.two_videos _ two_videos_sorted)).
  discriminate.
Defined.

(** C3.  The Ranker of VideoFetchingTool misses the empty sequence: a
    frame built from no record has no column to sort by, [sort_values]
    (lines 112 and 114) raises [KeyError] instead of returning the empty
    permutation, and for a channel without uploads [run] ends with the
    error message of its handler. *)
Lemma ranker_fails_on_empty_frame :
  VideoFetchingTool.rank Examples.stable_indexer "views" []
    = Raise (PyExc KeyError "'view_count'") /\
  VideoFetchingTool.run Examples.strptime Examples.stable_indexer 3 (Some "k")
    Examples.empty_playlist "UC1" 5 "date" []
  = (Some (Ok [Lit "Error fetching videos: "; Lit "'published_at'"]),
     [Build (Some "k"); ChannelsList "contentDetails" "UC1";
      PlaylistItemsList (JStr "UU") 5 JNull; VideosList "statistics,snippet" ""]).
Proof. split; vm_compute; reflexivity. Qed.

(** The promise of a descending sort leaves the order of ties open: on two
    videos with the same number of views, both orders meet it. *)
Lemma descending_sort_leaves_ties_open :
  let ks := map VideoFetchingTool.view_count Examples.two_videos in
  VideoFetchingTool.sorts_descending ks (Examples.stable_indexer ks) /\
  VideoFetchingTool.sorts_descending ks (Examples.reversing_indexer ks) /\
  Examples.stable_indexer ks = [0; 1]%nat /\
  Examples.reversing_indexer ks = [1; 0]%nat.
Proof.
  cbv zeta.
  replace (Examples.stable_indexer _) with [0; 1]%nat by (vm_compute; reflexivity).
  replace (Examples.reversing_indexer _) with [1; 0]%nat by (vm_compute; reflexivity).
  split; [|split; [|split; reflexivity]].
  - split; [apply Permutation_refl | sorted_positions].
  - split; [apply perm_swap | sorted_positions].
Qed.

(** ** The bound on the records *)

Lemma keep_length {A} (l : list (option A)) :
  (List.length (CompetitorSearchTool.keep l) <= List.length l)%nat.
Proof.
  induction l as [|[a|] t IH]; simpl; lia.
Qed.

Lemma collect_length q th channels cs :
  CompetitorSearchTool.collect q th channels = Ok cs ->
  (List.length cs <= List.length channels)%nat.
Proof.
  unfold CompetitorSearchTool.collect. intros H. inv_res H. injection H as <-.
  rewrite <- (map_res_length _ _ _ Ha). apply keep_length.
Qed.

Lemma frame_length indexer sort_by videos df :
  Permutation (indexer (map (snd (VideoFetchingTool.sort_column sort_by)) videos))
              (seq 0 (List.length videos)) ->
  VideoFetchingTool.rank indexer sort_by videos = Ok df ->
  List.length df = List.length videos.
Proof.
  unfold VideoFetchingTool.rank.
  destruct (VideoFetchingTool.sort_column sort_by) as [column key]. cbn [snd].
  intros Hperm H. unfold VideoFetchingTool.sort_values in H.
  destruct videos as [|v rest]; [discriminate|].
  rewrite (map_res_length _ _ _ H), (Permutation_length Hperm), length_seq.
  reflexivity.
Qed.

(** C5, as the code has it.  The tools pass the bound on to the provider
    ([maxResults]) and keep every record that comes back.  In
    VideoFetchingTool the records stay within a bound N >= 0, in the list
    the loop hands on and in the frame of the report, when each batch
    lookup of the ids of a page returns at most as many records as the
    page request asked for; in CompetitorSearchTool there are at most as
    many competitors as the channel lookup returned, hence at most N when
    the lookup returns at most N. *)
Theorem records_within_bound
    (strptime : string -> option Z) (indexer : list Z -> list nat) (yt : client)
    (pl : json) (N : Z) :
  (VideoFetchingTool.honours_bound yt pl ->
   0 <= N ->
   forall fuel log videos log',
     VideoFetchingTool.while_loop strptime fuel yt pl N [] JNull log
     = (Some (Ok (inl videos)), log') ->
     VideoFetchingTool.len_videos videos <= N /\
     forall sort_by df,
       Permutation (indexer (map (snd (VideoFetchingTool.sort_column sort_by)) videos))
                   (seq 0 (List.length videos)) ->
       VideoFetchingTool.rank indexer sort_by videos = Ok df ->
       Z.of_nat (List.length df) <= N) /\
  (forall q th channels cs,
      CompetitorSearchTool.collect q th channels = Ok cs ->
      (List.length (CompetitorSearchTool.rank cs) <= List.length channels)%nat /\
      (Z.of_nat (List.length channels) <= N ->
       Z.of_nat (List.length (CompetitorSearchTool.rank cs)) <= N)).
Proof.
  split.
  - intros Hb HN fuel log videos log' Hloop.
    assert (Hlen : VideoFetchingTool.len_videos videos <= N).
    { eapply (loop_within_bound strptime yt pl N Hb); [|exact Hloop].
      unfold VideoFetchingTool.len_videos. simpl. exact HN. }
    split; [exact Hlen|].
    intros sort_by df Hperm Hrank.
    rewrite (frame_length _ _ _ _ Hperm Hrank). exact Hlen.
  - intros q th channels cs Hcollect.
    apply collect_length in Hcollect.
    unfold CompetitorSearchTool.rank. rewrite sort_length.
    split; [exact Hcollect|lia].
Qed.

Lemma map_res_repeat {A B} (f : A -> res B) (a : A) (b : B) (n : nat) :
  f a = Ok b -> map_res f (repeat a n) = Ok (repeat b n).
Proof.
  intros H. induction n as [|n IH]; [reflexivity|].
  cbn [repeat map_res]. rewrite H. cbn [bind_res]. rewrite IH. reflexivity.
Qed.

Lemma echo_lookup_ids n tok :
  VideoFetchingTool.lookup_ids (Examples.page (repeat (Examples.playlist_item "x") n) tok)
  = Ok (PyStr.join "," (repeat "x" n)).
Proof.
  unfold VideoFetchingTool.lookup_ids, VideoFetchingTool.items_of, Examples.page.
  cbn [Py.getitem Py.lookup String.eqb Ascii.eqb Bool.eqb bind_res Py.iter].
  rewrite (map_res_repeat VideoFetchingTool.video_id_of (Examples.playlist_item "x")
             (JStr "x") n eq_refl).
  cbn [bind_res]. unfold PyOps.join.
  rewrite (map_res_repeat PyOps.as_str (JStr "x") "x" n eq_refl). reflexivity.
Qed.

Lemma echo_ids n :
  (1 <= n)%nat -> List.length (Examples.ids_of (PyStr.join "," (repeat "x" n))) = n.
Proof.
  intros Hn. destruct n as [|n]; [lia|]. clear Hn.
  assert (E : Examples.split_commas EmptyString (PyStr.join "," (repeat "x" (S n)))
              = repeat "x" (S n)).
  { induction n as [|n IH]; [reflexivity|].
    change (PyStr.join "," (repeat "x" (S (S n))))
      with (String "x" (String "," (PyStr.join "," (repeat "x" (S n))))).
    cbn [Examples.split_commas Ascii.eqb Bool.eqb PyStr.rev_string].
    rewrite IH. reflexivity. }
  assert (En : Examples.ids_of (PyStr.join "," (repeat "x" (S n)))
               = Examples.split_commas EmptyString (PyStr.join "," (repeat "x" (S n)))).
  { destruct n; reflexivity. }
  rewrite En, E. apply repeat_length.
Qed.

(** What the provider [echo] returns for the ids of one of its pages. *)
Lemma echo_lookup log m tok j ids v found c :
  1 <= m <= 50 ->
  Examples.echo log (PlaylistItemsList (JStr "UU") m tok) = Reply j ->
  VideoFetchingTool.lookup_ids j = Ok ids ->
  Examples.echo c (VideosList "statistics,snippet" ids) = Reply v ->
  VideoFetchingTool.items_of v = Ok found ->
  Z.of_nat (List.length found) = m.
Proof.
  intros Hm Hj Hids Hv Hfound.
  cbn [Examples.echo] in Hj, Hv. injection Hj as <-. injection Hv as <-.
  rewrite echo_lookup_ids in Hids. injection Hids as <-.
  unfold VideoFetchingTool.items_of in Hfound.
  cbn [Py.getitem Py.lookup String.eqb Ascii.eqb Bool.eqb bind_res Py.iter] in Hfound.
  injection Hfound as <-.
  rewrite length_map, echo_ids by lia. lia.
Qed.

Lemma echo_honours_bound : VideoFetchingTool.honours_bound Examples.echo (JStr "UU").
Proof.
  intros log m tok j ids v found Hm Hj Hids Hv Hfound.
  rewrite (echo_lookup _ _ _ _ _ _ _ _ Hm Hj Hids Hv Hfound). lia.
Qed.

Lemma records_within_bound_witness :
  (exists videos log' df,
      VideoFetchingTool.while_loop Examples.strptime 3 Examples.echo
        (JStr "UU") 7 [] JNull [] = (Some (Ok (inl videos)), log') /\
      List.length videos = 7%nat /\
      VideoFetchingTool.len_videos videos <= 7 /\
      VideoFetchingTool.rank Examples.stable_indexer "views" videos = Ok df /\
      Z.of_nat (List.length df) <= 7) /\
  (exists cs,
      CompetitorSearchTool.collect "tech" (1 # 2) [Examples.alpha; Examples.beta] = Ok cs /\
      cs <> [] /\
      (List.length (CompetitorSearchTool.rank cs) <= 2)%nat /\
      Z.of_nat (List.length (CompetitorSearchTool.rank cs)) <= 7).
Proof.
  pose proof (records_within_bound Examples.strptime Examples.stable_indexer
                Examples.echo (JStr "UU") 7) as [Hvideos Hchannels].
  split.
  - destruct (VideoFetchingTool.while_loop Examples.strptime 3 Examples.echo
                (JStr "UU") 7 [] JNull []) as [o log'] eqn:E.
    destruct o as [[[videos|out]|e]|]; try (vm_compute in E; discriminate E).
    destruct (Hvideos echo_honours_bound ltac:(lia) 3%nat [] videos log' E)
      as [Hlen Hframe].
    assert (Ev : List.length videos = 7%nat
                 /\ Examples.stable_indexer
                      (map (snd (VideoFetchingTool.sort_column "views")) videos)
                    = seq 0 (List.length videos)
                 /\ exists df,
                      VideoFetchingTool.rank Examples.stable_indexer "views" videos = Ok df).
    { vm_compute in E. injection E as <- _.
      split; [reflexivity|]. split; [vm_compute; reflexivity|].
      eexists. vm_compute. reflexivity. }
    destruct Ev as (E7 & Eidx & df & Edf).
    exists videos, log', df.
    split; [reflexivity|]. split; [exact E7|]. split; [exact Hlen|].
    split; [exact Edf|].
    apply (Hframe "views" df); [rewrite Eidx; apply Permutation_refl | exact Edf].
  - destruct (CompetitorSearchTool.collect "tech" (1 # 2) [Examples.alpha; Examples.beta])
      as [cs|e] eqn:E; [|vm_compute in E; discriminate E].
    destruct (Hchannels "tech" (1 # 2) [Examples.alpha; Examples.beta] cs E)
      as [Hle HleN].
    exists cs. split; [reflexivity|].
    split; [vm_compute in E; injection E as <-; discriminate|].
    split; [exact Hle|]. apply HleN. simpl. lia.
Defined.

(** C5, as the specification words it, fails: asked for one video, a
    provider that answers the page request with two items makes the loop
    keep two records, and the report lists both. *)
Lemma records_exceed_bound :
  exists videos log,
    VideoFetchingTool.while_loop Examples.strptime 3 Examples.generous_page
      (JStr "UU") 1 [] JNull
      [Build (Some "k"); ChannelsList "contentDetails" "UC1"]
    = (Some (Ok (inl videos)), log) /\
    List.length videos = 2%nat /\
    log = [Build (Some "k"); ChannelsList "contentDetails" "UC1";
           PlaylistItemsList (JStr "UU") 1 JNull;
           VideosList "statistics,snippet" "x,y"] /\
    option_map (@List.length _)
      (match VideoFetchingTool.rank Examples.stable_indexer "views" videos with
       | Ok df => Some df
       | Raise _ => None
       end) = Some 2%nat.
Proof.
  eexists. eexists. split; [vm_compute; reflexivity|].
  repeat split; vm_compute; reflexivity.
Qed.

(** ** The number of page requests *)

(** C6, as the code has it.  Whatever the provider does, the loop starts
    no turn once N records are collected, and after a page without
    continuation token it requests no page.  When every page that
    announces a further page comes with at least as many records as were
    asked for, it issues at most ceil(remaining / 50) page requests and
    ends within that many turns; when such a page comes with at least one
    record, it issues at most one page request for each record that is
    missing and ends within that many turns. *)
Theorem paginator_requests
    (strptime : string -> option Z) (yt : client) (pl : json) (N : Z)
    (fuel : nat) (videos : list VideoFetchingTool.video) (tok : json) (log : list call) :
  (N <= VideoFetchingTool.len_videos videos ->
   VideoFetchingTool.while_loop strptime fuel yt pl N videos tok log
   = (Some (Ok (inl videos)), log)) /\
  (forall j t,
      yt log (VideoFetchingTool.page_call pl N videos tok) = Reply j ->
      Py.get j "nextPageToken" JNull = Ok t ->
      Py.truthy t = false ->
      VideoFetchingTool.page_requests
        (snd (VideoFetchingTool.while_loop strptime fuel yt pl N videos tok log))
      <= VideoFetchingTool.page_requests log + 1) /\
  (VideoFetchingTool.serves_full_pages yt pl ->
   VideoFetchingTool.page_requests
     (snd (VideoFetchingTool.while_loop strptime fuel yt pl N videos tok log))
   - VideoFetchingTool.page_requests log
   <= VideoFetchingTool.ceil_div (Z.max (N - VideoFetchingTool.len_videos videos) 0) 50 /\
   (VideoFetchingTool.ceil_div (Z.max (N - VideoFetchingTool.len_videos videos) 0) 50
    <= Z.of_nat fuel ->
    exists r,
      fst (VideoFetchingTool.while_loop strptime fuel yt pl N videos tok log) = Some r)) /\
  (Handler.makes_progress yt ->
   VideoFetchingTool.page_requests
     (snd (VideoFetchingTool.while_loop strptime fuel yt pl N videos tok log))
   - VideoFetchingTool.page_requests log
   <= Z.max (N - VideoFetchingTool.len_videos videos) 0 /\
   (Z.max (N - VideoFetchingTool.len_videos videos) 0 <= Z.of_nat fuel ->
    exists r,
      fst (VideoFetchingTool.while_loop strptime fuel yt pl N videos tok log) = Some r)).
Proof.
  split; [apply loop_stops_at_bound|].
  split; [intros j t; apply loop_last_page|].
  split.
  - intros Hfull. apply (loop_requests strptime yt pl N Hfull fuel videos tok log).
  - intros Hprog. apply (loop_requests_progress strptime yt pl N Hprog fuel videos tok log).
Qed.

Lemma echo_serves_full_pages :
  VideoFetchingTool.serves_full_pages Examples.echo (JStr "UU").
Proof.
  intros log m tok j t ids v found Hm Hj _ _ Hids Hv Hfound.
  rewrite (echo_lookup _ _ _ _ _ _ _ _ Hm Hj Hids Hv Hfound). lia.
Qed.

(** The listing of the counterexample below, one item per page, is a
    provider that makes progress. *)
Lemma short_pages_makes_progress : Handler.makes_progress Examples.short_pages.
Proof.
  intros log pl m tok j t ids v found Hm Hj Ht Htruthy Hids Hv Hfound.
  unfold Examples.short_pages, scripted in Hj, Hv.
  destruct log as [|c0 [|c1 [|c2 [|c3 [|c4 [|c5 rest]]]]]];
    try (rewrite nth_overflow in Hj by (cbn [List.length]; lia); discriminate Hj);
    cbn [List.length nth app] in Hj, Hv; injection Hj as Ej; subst j;
    vm_compute in Ht; try discriminate Ht;
    injection Ht as Et; subst t; vm_compute in Htruthy; try discriminate Htruthy.
  injection Hv as Ev. subst v. vm_compute in Hfound. injection Hfound as Ef.
  subst found. simpl. lia.
Qed.

Lemma paginator_requests_witness :
  VideoFetchingTool.while_loop Examples.strptime 1 Examples.echo (JStr "UU") 0 [] JNull []
  = (Some (Ok (inl [])), []) /\
  VideoFetchingTool.page_requests
    (snd (VideoFetchingTool.while_loop Examples.strptime 2 Examples.empty_playlist
            (JStr "UU") 5 [] JNull
            [Build (Some "k"); ChannelsList "contentDetails" "UC1"]))
  <= VideoFetchingTool.page_requests
       [Build (Some "k"); ChannelsList "contentDetails" "UC1"] + 1 /\
  (VideoFetchingTool.page_requests
     (snd (VideoFetchingTool.while_loop Examples.strptime 3 Examples.echo
             (JStr "UU") 120 [] JNull []))
   - VideoFetchingTool.page_requests []
   <= VideoFetchingTool.ceil_div (Z.max (120 - VideoFetchingTool.len_videos []) 0) 50 /\
   exists r,
     fst (VideoFetchingTool.while_loop Examples.strptime 3 Examples.echo
            (JStr "UU") 120 [] JNull []) = Some r) /\
  (VideoFetchingTool.page_requests
     (snd (VideoFetchingTool.while_loop Examples.strptime 2 Examples.short_pages
             (JStr "UU") 2 [] JNull
             [Build (Some "k"); ChannelsList "contentDetails" "UC1"]))
   - VideoFetchingTool.page_requests
       [Build (Some "k"); ChannelsList "contentDetails" "UC1"]
   <= Z.max (2 - VideoFetchingTool.len_videos []) 0 /\
   exists r,
     fst (VideoFetchingTool.while_loop Examples.strptime 2 Examples.short_pages
            (JStr "UU") 2 [] JNull
            [Build (Some "k"); ChannelsList "contentDetails" "UC1"]) = Some r).
Proof.
  split; [|split; [|split]].
  - apply (proj1 (paginator_requests Examples.strptime Examples.echo (JStr "UU") 0
                    1%nat [] JNull [])).
    vm_compute. discriminate.
  - apply (proj1 (proj2 (paginator_requests Examples.strptime Examples.empty_playlist
                           (JStr "UU") 5 2%nat [] JNull
                           [Build (Some "k"); ChannelsList "contentDetails" "UC1"]))
             (Examples.page [] None) JNull); reflexivity.
  - destruct (proj1 (proj2 (proj2
                (paginator_requests Examples.strptime Examples.echo (JStr "UU") 120
                   3%nat [] JNull []))) echo_serves_full_pages) as [Hpages Hends].
    split; [exact Hpages|]. apply Hends. vm_compute. discriminate.
  - destruct (proj2 (proj2 (proj2
                (paginator_requests Examples.strptime Examples.short_pages (JStr "UU") 2
                   2%nat [] JNull
                   [Build (Some "k"); ChannelsList "contentDetails" "UC1"])))
                short_pages_makes_progress) as [Hpages Hends].
    split; [exact Hpages|]. apply Hends. vm_compute. discriminate.
Defined.

(** C6, as the specification words it, fails: asked for two videos, a
    listing that hands out one item per page is sent two page requests,
    and ceil(2 / 50) = 1. *)
Lemma page_requests_exceed_ceiling :
  VideoFetchingTool.page_requests
    (snd (VideoFetchingTool.run Examples.strptime Examples.stable_indexer 5 (Some "k")
            Examples.short_pages "UC1" 2 "views" [])) = 2 /\
  snd (VideoFetchingTool.run Examples.strptime Examples.stable_indexer 5 (Some "k")
         Examples.short_pages "UC1" 2 "views" [])
  = [Build (Some "k"); ChannelsList "contentDetails" "UC1";
     PlaylistItemsList (JStr "UU") 2 JNull; VideosList "statistics,snippet" "x";
     PlaylistItemsList (JStr "UU") 1 (JStr "t"); VideosList "statistics,snippet" "y"] /\
  VideoFetchingTool.ceil_div 2 50 = 1.
Proof. repeat split; vm_compute; reflexivity. Qed.

(** ** The handler of [run] *)

Section Catchable.
Import Handler.

Lemma catchable_bind {A B} (r : res A) (k : A -> res B) :
  catchable r -> (forall a, catchable (k a)) -> catchable (bind_res r k).
Proof. destruct r as [a|e]; simpl; auto. Qed.

Lemma catchable_map_res {A B} (f : A -> res B) (l : list A) :
  (forall a, catchable (f a)) -> catchable (map_res f l).
Proof.
  intros Hf. induction l as [|x t IH]; cbn [map_res]; [exact I|].
  apply catchable_bind; [apply Hf|]. intros y.
  apply catchable_bind; [exact IH|]. intros ys. exact I.
Qed.

End Catchable.

(** The raises of the interpreter are all instances of [Exception]; the
    tactic walks through a chain of steps and closes each of them. *)
Ltac catch :=
  repeat match goal with
  | |- Handler.catchable (Ok _) => exact I
  | |- Handler.catchable (Py.raise _ _) => reflexivity
  | |- Handler.catchable (bind_res _ _) => apply catchable_bind; [|intros ?]
  | |- Handler.catchable (map_res _ _) => apply catchable_map_res; intros ?
  | |- Handler.catchable (if ?b then _ else _) => destruct b
  | |- Handler.catchable (match ?x with _ => _ end) => destruct x
  | |- Handler.catchable _ => solve [auto with catch]
  end.

Create HintDb catch.

Section Interpreter.
Import Handler.

Lemma getitem_catchable j k : catchable (Py.getitem j k).
Proof. unfold Py.getitem. catch. Qed.

Lemma getfirst_catchable j : catchable (Py.getfirst j).
Proof. unfold Py.getfirst. catch. Qed.

Lemma get_catchable j k d : catchable (Py.get j k d).
Proof. unfold Py.get. catch. Qed.

Lemma iter_catchable j : catchable (Py.iter j).
Proof. unfold Py.iter. catch. Qed.

Lemma lower_catchable j : catchable (Py.lower j).
Proof. unfold Py.lower. catch. Qed.

Lemma contains_catchable k j : catchable (Py.contains k j).
Proof. unfold Py.contains. catch. Qed.

Lemma int_catchable j : catchable (PyInt.int j).
Proof. unfold PyInt.int. catch. Qed.

Lemma len_catchable j : catchable (PyOps.len j).
Proof. unfold PyOps.len. catch. Qed.

Lemma slice_to_catchable n j : catchable (PyOps.slice_to n j).
Proof. unfold PyOps.slice_to. catch. Qed.

Lemma add_str_catchable j s : catchable (PyOps.add_str j s).
Proof. unfold PyOps.add_str. catch. Qed.

Lemma as_str_catchable j : catchable (PyOps.as_str j).
Proof. unfold PyOps.as_str. catch. Qed.

Lemma true_div_catchable a b : catchable (PyOps.true_div a b).
Proof. unfold PyOps.true_div. catch. Qed.

End Interpreter.

#[export] Hint Resolve getitem_catchable getfirst_catchable get_catchable
  iter_catchable lower_catchable contains_catchable int_catchable len_catchable
  slice_to_catchable add_str_catchable as_str_catchable true_div_catchable : catch.

Section ToolSteps.
Import Handler.

Lemma join_catchable sep l : catchable (PyOps.join sep l).
Proof. unfold PyOps.join. catch. Qed.

(** CompetitorSearchTool *)

Lemma cs_collect_catchable q th channels :
  catchable (CompetitorSearchTool.collect q th channels).
Proof.
  unfold CompetitorSearchTool.collect, CompetitorSearchTool.process_channel,
    CompetitorSearchTool.competitor_data, CompetitorSearchTool.short_description,
    CompetitorSearchTool.int_stat, CompetitorSearchTool.getitem2,
    CompetitorSearchTool.score.
  catch.
Qed.

Lemma cs_format_all_catchable l idx : catchable (CompetitorSearchTool.format_all idx l).
Proof.
  revert idx. induction l as [|c t IH]; intros idx; cbn [CompetitorSearchTool.format_all].
  - exact I.
  - unfold CompetitorSearchTool.format_competitor, CompetitorSearchTool.format_topics,
      CompetitorSearchTool.topic_name.
    catch.
Qed.

Lemma cs_average_catchable f l : catchable (CompetitorSearchTool.average f l).
Proof. unfold CompetitorSearchTool.average. catch. Qed.

Lemma cs_channel_id_catchable item : catchable (CompetitorSearchTool.channel_id_of item).
Proof.
  unfold CompetitorSearchTool.channel_id_of, CompetitorSearchTool.getitem2. catch.
Qed.

(** VideoFetchingTool *)

Lemma vf_items_catchable j : catchable (VideoFetchingTool.items_of j).
Proof. unfold VideoFetchingTool.items_of. catch. Qed.

Lemma vf_video_id_catchable item : catchable (VideoFetchingTool.video_id_of item).
Proof. unfold VideoFetchingTool.video_id_of. catch. Qed.

Lemma vf_video_data_catchable strptime v :
  catchable (VideoFetchingTool.video_data strptime v).
Proof.
  unfold VideoFetchingTool.video_data, VideoFetchingTool.parse_time,
    VideoFetchingTool.int_stat.
  catch.
Qed.

Lemma vf_rank_catchable indexer sort_by videos :
  catchable (VideoFetchingTool.rank indexer sort_by videos).
Proof.
  unfold VideoFetchingTool.rank, VideoFetchingTool.sort_values,
    VideoFetchingTool.take_row.
  catch.
Qed.

(** ChannelDemographicsTool *)

Lemma cd_basic_stats_catchable stats snippet :
  catchable (ChannelDemographicsTool.basic_stats stats snippet).
Proof.
  unfold ChannelDemographicsTool.basic_stats, ChannelDemographicsTool.short_description.
  catch.
Qed.

(** VideoPerformanceAnalyzer *)

Lemma vp_duration_catchable d : catchable (VideoPerformanceAnalyzer.parse_duration d).
Proof.
  unfold VideoPerformanceAnalyzer.parse_duration, VideoPerformanceAnalyzer.int_str.
  catch.
Qed.

Lemma vp_int_stat_catchable v f : catchable (VideoPerformanceAnalyzer.int_stat v f).
Proof. unfold VideoPerformanceAnalyzer.int_stat. catch. Qed.

Lemma vp_rate_catchable v l c : catchable (VideoPerformanceAnalyzer.engagement_rate v l c).
Proof. unfold VideoPerformanceAnalyzer.engagement_rate. catch. Qed.

Lemma vp_per_day_catchable v d : catchable (VideoPerformanceAnalyzer.views_per_day v d).
Proof. unfold VideoPerformanceAnalyzer.views_per_day. catch. Qed.

Lemma vp_parse_time_catchable strptime j :
  catchable (VideoPerformanceAnalyzer.parse_time strptime j).
Proof. unfold VideoPerformanceAnalyzer.parse_time. catch. Qed.

Lemma vp_format_comments_catchable l idx :
  catchable (VideoPerformanceAnalyzer.format_comments idx l).
Proof.
  revert idx. induction l as [|c t IH]; intros idx;
    cbn [VideoPerformanceAnalyzer.format_comments].
  - exact I.
  - unfold VideoPerformanceAnalyzer.format_comment. catch.
Qed.

Lemma vp_comments_section_catchable strptime now r :
  catchable (VideoPerformanceAnalyzer.comments_section strptime now r).
Proof.
  unfold VideoPerformanceAnalyzer.comments_section,
    VideoPerformanceAnalyzer.comment_entry, VideoPerformanceAnalyzer.parse_time,
    VideoPerformanceAnalyzer.likes_of, VideoPerformanceAnalyzer.mean_likes.
  catch; apply vp_format_comments_catchable.
Qed.

End ToolSteps.

#[export] Hint Resolve join_catchable cs_collect_catchable cs_format_all_catchable
  cs_average_catchable cs_channel_id_catchable vf_items_catchable vf_video_id_catchable
  vf_video_data_catchable vf_rank_catchable cd_basic_stats_catchable
  vp_duration_catchable vp_int_stat_catchable vp_rate_catchable vp_per_day_catchable
  vp_parse_time_catchable vp_format_comments_catchable vp_comments_section_catchable
  : catch.

Section Computations.
Import Handler.

Lemma good_ret {A} (a : A) : good (ret a).
Proof. intros log. exact I. Qed.

Lemma good_lift {A} (r : res A) : catchable r -> good (lift r).
Proof. intros H log. exact H. Qed.

Lemma good_execute yt c : raises_exceptions_only yt -> good (execute yt c).
Proof.
  intros Hyt log. unfold execute. cbn [fst].
  destruct (yt log c) as [j|e] eqn:E; [exact I|].
  exact (Hyt _ _ _ E).
Qed.

Lemma good_bind {A B} (m : M A) (k : A -> M B) :
  good m -> (forall a, good (k a)) -> good (bind m k).
Proof.
  intros Hm Hk log. unfold bind. specialize (Hm log).
  destruct (m log) as [[[a|e]|] log1]; cbn [fst] in *.
  - apply Hk.
  - exact Hm.
  - exact Hm.
Qed.

Lemma good_safe {A} (m : M A) : good m -> safe m.
Proof.
  intros H log. specialize (H log). destruct (fst (m log)); [exact H|exact I].
Qed.

Lemma safe_bind {A B} (m : M A) (k : A -> M B) :
  safe m -> (forall a, safe (k a)) -> safe (bind m k).
Proof.
  intros Hm Hk log. unfold bind. specialize (Hm log).
  destruct (m log) as [[[a|e]|] log1]; cbn [fst] in *.
  - apply Hk.
  - exact Hm.
  - exact I.
Qed.

(** [try: ... except Exception] around a good body returns a text. *)
Lemma try_except_good body handler :
  good body -> forall log, exists t, fst (try_except body handler log) = Some (Ok t).
Proof.
  intros H log. unfold try_except. specialize (H log).
  destruct (body log) as [[[t|e]|] log1]; cbn [fst catchable] in *.
  - eauto.
  - rewrite H. cbn [fst]. eauto.
  - contradiction.
Qed.

(** Around a safe body it returns a text or has not ended. *)
Lemma try_except_safe body handler :
  safe body ->
  forall log, fst (try_except body handler log) = None \/
              exists t, fst (try_except body handler log) = Some (Ok t).
Proof.
  intros H log. unfold try_except. specialize (H log).
  destruct (body log) as [[[t|e]|] log1]; cbn [fst catchable] in *.
  - right. eauto.
  - rewrite H. cbn [fst]. right. eauto.
  - left. reflexivity.
Qed.

End Computations.

Ltac good_steps :=
  repeat match goal with
  | |- Handler.good (ret _) => apply good_ret
  | |- Handler.good (lift _) => apply good_lift; catch
  | |- Handler.good (execute _ _) => apply good_execute; assumption
  | |- Handler.good (bind _ _) => apply good_bind; [|intros ?]
  | |- Handler.good (if ?b then _ else _) => destruct b
  | |- Handler.good (match ?x with _ => _ end) => destruct x
  end.

Section Bodies.
Import Handler.

Variable yt : client.
Hypothesis Hyt : raises_exceptions_only yt.

Lemma competitor_search_good key q n th :
  good (CompetitorSearchTool.body key yt q n th).
Proof. unfold CompetitorSearchTool.body. good_steps. Qed.

Lemma advanced_stats_good oauth : good (ChannelDemographicsTool.advanced_stats yt oauth).
Proof.
  unfold ChannelDemographicsTool.advanced_stats.
  destruct oauth as [c|]; [|apply good_ret].
  destruct (String.eqb c ""); [apply good_ret|].
  intros log. unfold ChannelDemographicsTool.oauth_client.
  pose proof (good_execute yt (BuildOAuth c) Hyt log) as H.
  destruct (execute yt (BuildOAuth c) log) as [[[j|e]|] log1]; cbn [fst catchable] in *.
  - exact I.
  - rewrite H. exact I.
  - contradiction.
Qed.

Lemma channel_demographics_good key oauth id :
  good (ChannelDemographicsTool.body key oauth yt id).
Proof.
  unfold ChannelDemographicsTool.body. good_steps.
  apply advanced_stats_good.
Qed.

Lemma video_performance_good strptime now key id inc :
  good (VideoPerformanceAnalyzer.body strptime now key yt id inc).
Proof. unfold VideoPerformanceAnalyzer.body. good_steps. Qed.

Lemma turn_good strptime pl N videos tok :
  good (VideoFetchingTool.turn strptime yt pl N videos tok).
Proof. unfold VideoFetchingTool.turn. good_steps. Qed.

Lemma while_loop_safe strptime pl N fuel :
  forall videos tok, safe (VideoFetchingTool.while_loop strptime fuel yt pl N videos tok).
Proof.
  induction fuel as [|fuel IH]; intros videos tok; rewrite loop_unfold;
    destruct (VideoFetchingTool.len_videos videos <? N);
    try (apply good_safe, good_ret).
  - intros log. exact I.
  - apply safe_bind; [apply good_safe, turn_good|].
    intros [videos' tok'|videos'|output];
      [apply IH | apply good_safe, good_ret | apply good_safe, good_ret].
Qed.

End Bodies.

Section Termination.
Import Handler.

Variable strptime : string -> option Z.
Variable yt : client.
Hypothesis Hyt : raises_exceptions_only yt.
Hypothesis Hprogress : makes_progress yt.

(** On a provider that makes progress the loop ends within
    [max_results] turns. *)
Lemma loop_terminates pl N fuel :
  forall videos tok log,
    Z.max (N - VideoFetchingTool.len_videos videos) 0 <= Z.of_nat fuel ->
    exists r, fst (VideoFetchingTool.while_loop strptime fuel yt pl N videos tok log) = Some r.
Proof.
  intros videos tok log.
  apply (loop_requests_progress strptime yt pl N Hprogress fuel videos tok log).
Qed.

Lemma while_loop_good pl N fuel :
  Z.max N 0 <= Z.of_nat fuel ->
  good (VideoFetchingTool.while_loop strptime fuel yt pl N [] JNull).
Proof.
  intros Hfuel log.
  pose proof (while_loop_safe yt Hyt strptime pl N fuel [] JNull log) as Hsafe.
  destruct (loop_terminates pl N fuel [] JNull log) as [r Hr].
  - unfold VideoFetchingTool.len_videos. simpl. lia.
  - rewrite Hr in *. exact Hsafe.
Qed.

Lemma video_fetching_good indexer fuel key id N sort_by :
  Z.max N 0 <= Z.of_nat fuel ->
  good (VideoFetchingTool.body strptime indexer fuel key yt id N sort_by).
Proof.
  intros Hfuel. unfold VideoFetchingTool.body. good_steps.
  apply while_loop_good, Hfuel.
Qed.

End Termination.

(** C9, as the code has it.  When the exceptions that the collaborator
    raises are instances of [Exception], [run] of CompetitorSearchTool, of
    ChannelDemographicsTool and of VideoPerformanceAnalyzer returns a text,
    whatever the responses are; [run] of VideoFetchingTool returns a text
    or its loop has not ended, and it returns a text within [max_results]
    turns when every page that announces a further page brings at least
    one record. *)
Theorem run_returns_text (yt : client) :
  Handler.raises_exceptions_only yt ->
  (forall key q n th log,
      exists t, fst (CompetitorSearchTool.run key yt q n th log) = Some (Ok t)) /\
  (forall key oauth id log,
      exists t, fst (ChannelDemographicsTool.run key oauth yt id log) = Some (Ok t)) /\
  (forall strptime now key id inc log,
      exists t, fst (VideoPerformanceAnalyzer.run strptime now key yt id inc log)
                = Some (Ok t)) /\
  (forall strptime indexer fuel key id n sort_by log,
      fst (VideoFetchingTool.run strptime indexer fuel key yt id n sort_by log) = None \/
      exists t, fst (VideoFetchingTool.run strptime indexer fuel key yt id n sort_by log)
                = Some (Ok t)) /\
  (forall strptime indexer fuel key id n sort_by log,
      Handler.makes_progress yt ->
      Z.max n 0 <= Z.of_nat fuel ->
      exists t, fst (VideoFetchingTool.run strptime indexer fuel key yt id n sort_by log)
                = Some (Ok t)).
Proof.
  intros Hyt. repeat split; intros.
  - apply try_except_good, competitor_search_good, Hyt.
  - apply try_except_good, channel_demographics_good, Hyt.
  - apply try_except_good, video_performance_good, Hyt.
  - apply try_except_safe. unfold VideoFetchingTool.body.
    repeat first
      [ apply safe_bind; [|intros ?]
      | apply while_loop_safe; exact Hyt
      | match goal with
        | |- Handler.safe (if ?b then _ else _) => destruct b
        | |- Handler.safe (match ?x with _ => _ end) => destruct x
        end
      | apply good_safe; good_steps; fail ].
  - apply try_except_good, video_fetching_good; assumption.
Qed.

Lemma unauthorized_raises_exceptions_only :
  Handler.raises_exceptions_only Examples.unauthorized.
Proof.
  intros log c e H. destruct c; cbn [Examples.unauthorized] in H;
    try discriminate H; injection H as <-; reflexivity.
Qed.

Lemma short_pages_raises_exceptions_only :
  Handler.raises_exceptions_only Examples.short_pages.
Proof.
  intros log c e H. unfold Examples.short_pages, scripted in H.
  destruct log as [|c0 [|c1 [|c2 [|c3 [|c4 [|c5 rest]]]]]];
    try (rewrite nth_overflow in H by (cbn [List.length]; lia));
    cbn [List.length nth] in H; try discriminate H;
    injection H as <-; reflexivity.
Qed.

Lemma run_returns_text_witness :
  (exists t,
      fst (CompetitorSearchTool.run None Examples.unauthorized "tech" 5 (1 # 2) [])
      = Some (Ok t)) /\
  (exists t,
      fst (ChannelDemographicsTool.run (Some "k") None Examples.unauthorized "UC1" [])
      = Some (Ok t)) /\
  (exists t,
      fst (VideoPerformanceAnalyzer.run Examples.strptime 0 (Some "k")
             Examples.unauthorized "v1" true [])
      = Some (Ok t)) /\
  (exists t,
      fst (VideoFetchingTool.run Examples.strptime Examples.stable_indexer 2 (Some "k")
             Examples.short_pages "UC1" 2 "views" [])
      = Some (Ok t)).
Proof.
  pose proof (run_returns_text Examples.unauthorized unauthorized_raises_exceptions_only)
    as (Hsearch & Hdemographics & Hperformance & _).
  pose proof (run_returns_text Examples.short_pages short_pages_raises_exceptions_only)
    as (_ & _ & _ & _ & Hfetching).
  split; [apply Hsearch|]. split; [apply Hdemographics|]. split; [apply Hperformance|].
  apply Hfetching; [exact short_pages_makes_progress|].
  vm_compute. discriminate.
Defined.

Lemma bind_None {A B} (m : M A) (k : A -> M B) log :
  fst (m log) = None -> fst (bind m k log) = None.
Proof.
  unfold bind. destruct (m log) as [[[a|e]|] log1]; cbn [fst]; congruence.
Qed.

Lemma bind_Ok {A B} (m : M A) (k : A -> M B) log a log1 :
  m log = (Some (Ok a), log1) -> bind m k log = k a log1.
Proof. unfold bind. intros ->. reflexivity. Qed.

Lemma stalling_turn strptime tok log :
  VideoFetchingTool.turn strptime Examples.stalling (JStr "UU") 1 [] tok log
  = (Some (Ok (VideoFetchingTool.Continue [] (JStr "t"))),
     ((log ++ [PlaylistItemsList (JStr "UU") 1 tok])
        ++ [VideosList "statistics,snippet" ""])%list).
Proof. reflexivity. Qed.

Lemma stalling_loop strptime fuel :
  forall tok log,
    fst (VideoFetchingTool.while_loop strptime fuel Examples.stalling (JStr "UU") 1 [] tok log)
    = None.
Proof.
  induction fuel as [|fuel IH]; intros tok log; rewrite loop_unfold;
    change (VideoFetchingTool.len_videos [] <? 1) with true; cbv iota.
  - reflexivity.
  - rewrite (bind_Ok _ _ _ _ _ (stalling_turn strptime tok log)). apply IH.
Qed.

(** C9, as the specification words it, fails twice.  [except Exception]
    lets pass what is no instance of [Exception]: an interrupt raised under
    the first request leaves [run] as the exception it is.  And [run] of
    VideoFetchingTool returns nothing while its loop runs: on a listing
    whose pages are empty and always announce a next page, no number of
    turns ends it. *)
Lemma run_may_propagate_or_not_return :
  CompetitorSearchTool.run (Some "k") Examples.interrupted "tech" 5 (1 # 2) []
  = (Some (Raise (PyExc KeyboardInterrupt "")), [Build (Some "k"); SearchList "tech" 5]) /\
  (forall fuel,
      fst (VideoFetchingTool.run Examples.strptime Examples.stable_indexer fuel (Some "k")
             Examples.stalling "UC1" 1 "views" []) = None).
Proof.
  split; [reflexivity|].
  intros fuel. unfold VideoFetchingTool.run, try_except.
  assert (H : fst (VideoFetchingTool.body Examples.strptime Examples.stable_indexer fuel
                     (Some "k") Examples.stalling "UC1" 1 "views" []) = None).
  { unfold VideoFetchingTool.body.
    erewrite bind_Ok by reflexivity.
    erewrite bind_Ok by reflexivity.
    erewrite bind_Ok by reflexivity.
    cbn [Py.eq_zero Z.eqb].
    erewrite bind_Ok by reflexivity.
    apply bind_None, stalling_loop. }
  destruct (VideoFetchingTool.body _ _ _ _ _ _ _ _ _) as [[[t|e]|] log1];
    cbn [fst] in H; try discriminate H. reflexivity.
Qed.

(** * Further properties of the tools *)

(** ** Numerals *)

Section NumeralFacts.
Import Numerals.

Lemma rev_string_twice s : forall a b,
  PyStr.rev_string a (PyStr.rev_string b s) = PyStr.rev_string (s ++ a) b.
Proof.
  induction s as [|c t IH]; intros a b; cbn [PyStr.rev_string append].
  - reflexivity.
  - rewrite IH. reflexivity.
Qed.

Lemma rev_string_involutive s :
  PyStr.rev_string EmptyString (PyStr.rev_string EmptyString s) = s.
Proof.
  rewrite rev_string_twice. cbn [PyStr.rev_string].
  induction s as [|c t IH]; cbn [append]; [reflexivity|]. rewrite IH. reflexivity.
Qed.

Lemma all_chars_rev p s : forall acc,
  all_chars p s = true -> all_chars p acc = true ->
  all_chars p (PyStr.rev_string acc s) = true.
Proof.
  induction s as [|c t IH]; intros acc Hs Hacc; cbn [PyStr.rev_string].
  - exact Hacc.
  - cbn [all_chars] in Hs. apply andb_prop in Hs. destruct Hs as [Hc Ht].
    apply IH; [exact Ht|]. cbn [all_chars]. rewrite Hc, Hacc. reflexivity.
Qed.

Lemma all_chars_app p a b :
  all_chars p (a ++ b) = (all_chars p a && all_chars p b)%bool.
Proof.
  induction a as [|c t IH]; cbn [append all_chars]; [reflexivity|].
  rewrite IH. apply andb_assoc.
Qed.

Lemma all_chars_weaken (p q : ascii -> bool) s :
  (forall c, p c = true -> q c = true) ->
  all_chars p s = true -> all_chars q s = true.
Proof.
  intros Hpq. induction s as [|c t IH]; cbn [all_chars]; [reflexivity|].
  intros H. apply andb_prop in H. destruct H as [Hc Ht].
  rewrite (Hpq _ Hc), (IH Ht). reflexivity.
Qed.

Lemma lstrip_no_space s :
  all_chars (fun c => negb (PyStr.is_space c)) s = true -> PyInt.lstrip s = s.
Proof.
  destruct s as [|c t]; [reflexivity|]. cbn [all_chars PyInt.lstrip].
  intros H. apply andb_prop in H. destruct H as [Hc _].
  destruct (PyStr.is_space c); [discriminate Hc|reflexivity].
Qed.

(** [strip] leaves a string without blanks as it is. *)
Lemma strip_no_space s :
  all_chars (fun c => negb (PyStr.is_space c)) s = true -> PyInt.strip s = s.
Proof.
  intros H. unfold PyInt.strip. rewrite (lstrip_no_space s H).
  rewrite lstrip_no_space by (apply all_chars_rev; [exact H|reflexivity]).
  apply rev_string_involutive.
Qed.

Lemma digit_of_digit_char d :
  (d < 10)%nat -> PyInt.digit (digit_char d) = Some (Z.of_nat d).
Proof.
  intros H. do 10 (destruct d as [|d]; [reflexivity|]). lia.
Qed.

Lemma numeral_all_digits ds :
  Forall (fun d => (d < 10)%nat) ds -> all_chars is_digit (numeral ds) = true.
Proof.
  induction 1 as [|d t Hd _ IH]; cbn [numeral all_chars]; [reflexivity|].
  unfold is_digit at 1. rewrite (digit_of_digit_char d Hd), IH. reflexivity.
Qed.

Lemma digit_not_space c : is_digit c = true -> negb (PyStr.is_space c) = true.
Proof.
  unfold is_digit, PyInt.digit, PyStr.is_space.
  destruct (Nat.leb_spec 48 (nat_of_ascii c)); cbn [andb]; [|discriminate].
  destruct (Nat.leb_spec (nat_of_ascii c) 57); [|discriminate]. intros _.
  destruct (Nat.leb_spec 9 (nat_of_ascii c)); cbn [andb orb];
    destruct (Nat.leb_spec (nat_of_ascii c) 13); cbn [andb orb]; try lia;
    destruct (Nat.leb_spec 28 (nat_of_ascii c)); cbn [andb orb]; try lia;
    destruct (Nat.leb_spec (nat_of_ascii c) 32); cbn [andb orb negb]; try lia;
    reflexivity.
Qed.

Lemma digits_numeral ds : forall acc b,
  Forall (fun d => (d < 10)%nat) ds ->
  (ds <> [] \/ b = true) ->
  PyInt.digits acc b (numeral ds) = Some (value_from acc ds).
Proof.
  induction ds as [|d t IH]; intros acc b Hall Hne.
  - destruct Hne as [Hne| ->]; [contradiction|reflexivity].
  - apply Forall_cons_iff in Hall. destruct Hall as [Hd Ht].
    cbn [numeral PyInt.digits]. rewrite (digit_of_digit_char d Hd).
    rewrite (IH _ true Ht) by (right; reflexivity). reflexivity.
Qed.

(** [int] reads a decimal numeral as the number it denotes. *)
Lemma parse_numeral ds : decimal ds -> PyInt.parse (numeral ds) = Some (value ds).
Proof.
  intros [Hne Hall]. unfold PyInt.parse.
  rewrite strip_no_space
    by (eapply all_chars_weaken; [exact digit_not_space|apply numeral_all_digits, Hall]).
  destruct ds as [|d t]; [contradiction|].
  pose proof (digits_numeral (d :: t) 0 false Hall (or_introl Hne)) as H.
  apply Forall_cons_iff in Hall. destruct Hall as [Hd _].
  cbn [numeral] in *.
  assert (Hc : digit_char d <> "-"%char /\ digit_char d <> "+"%char).
  { do 10 (destruct d as [|d]; [split; discriminate|]). lia. }
  destruct Hc as [Hminus Hplus].
  destruct (digit_char d) as [b0 b1 b2 b3 b4 b5 b6 b7] eqn:E.
  destruct b0, b1, b2, b3, b4, b5, b6, b7; try exact H;
    first [exfalso; apply Hminus; reflexivity | exfalso; apply Hplus; reflexivity].
Qed.

End NumeralFacts.

(** A statistic of a channel that the API gives as a decimal string is read
    as the number the string denotes, and a statistic that is missing is
    read as 0. *)
Theorem statistics_are_read
    (channel : json) (stats : list (string * json)) (field : string) (ds : list nat) :
  Py.getitem channel "statistics" = Ok (JDict stats) ->
  Numerals.decimal ds ->
  (Py.lookup field stats = Some (JStr (Numerals.numeral ds)) ->
   CompetitorSearchTool.int_stat channel field = Ok (Numerals.value ds)) /\
  (Py.lookup field stats = None ->
   CompetitorSearchTool.int_stat channel field = Ok 0).
Proof.
  intros Hstats Hds. split; intros Hl.
  - unfold CompetitorSearchTool.int_stat. rewrite Hstats. cbn [bind_res Py.get].
    rewrite Hl. cbn [bind_res PyInt.int]. rewrite (parse_numeral ds Hds). reflexivity.
  - apply (int_stat_missing channel stats field Hstats Hl).
Qed.

Lemma statistics_are_read_witness :
  CompetitorSearchTool.int_stat Examples.alpha "subscriberCount" = Ok 10 /\
  CompetitorSearchTool.int_stat Examples.alpha "videoCount" = Ok 0.
Proof.
  assert (Hd : Numerals.decimal [1; 0]%nat).
  { split; [discriminate|]. repeat constructor. }
  pose proof (statistics_are_read Examples.alpha
                [("subscriberCount", JStr "10"); ("viewCount", JStr "100")]
                "subscriberCount" [1; 0]%nat eq_refl Hd) as H1.
  pose proof (statistics_are_read Examples.alpha
                [("subscriberCount", JStr "10"); ("viewCount", JStr "100")]
                "videoCount" [1; 0]%nat eq_refl Hd) as H2.
  split; [exact (proj1 H1 eq_refl) | exact (proj2 H2 eq_refl)].
Defined.

(** ** Durations *)

Section DurationFacts.
Import Numerals.
Import VideoPerformanceAnalyzer.

Lemma string_app_assoc (a b c : string) : ((a ++ b) ++ c = a ++ (b ++ c))%string.
Proof.
  induction a as [|x t IH]; cbn [append]; [reflexivity|]. rewrite IH. reflexivity.
Qed.

Lemma has_char_absent c s : all_chars (is_not c) s = true -> has_char c s = false.
Proof.
  induction s as [|x t IH]; cbn [all_chars has_char]; [reflexivity|].
  intros H. apply andb_prop in H. destruct H as [Hx Ht].
  unfold is_not in Hx. apply negb_true_iff in Hx. rewrite Hx, (IH Ht). reflexivity.
Qed.

Lemma before_absent c s : all_chars (is_not c) s = true -> before c s = s.
Proof.
  induction s as [|x t IH]; cbn [all_chars before]; [reflexivity|].
  intros H. apply andb_prop in H. destruct H as [Hx Ht].
  unfold is_not in Hx. apply negb_true_iff in Hx. rewrite Hx, (IH Ht). reflexivity.
Qed.

Lemma has_char_present c a r :
  has_char c (a ++ String c r) = true.
Proof.
  induction a as [|x t IH]; cbn [append has_char].
  - rewrite Ascii.eqb_refl. reflexivity.
  - rewrite IH. apply orb_true_r.
Qed.

Lemma before_present c a r :
  all_chars (is_not c) a = true -> before c (a ++ String c r) = a.
Proof.
  induction a as [|x t IH]; cbn [append all_chars before].
  - rewrite Ascii.eqb_refl. reflexivity.
  - intros H. apply andb_prop in H. destruct H as [Hx Ht].
    unfold is_not in Hx. apply negb_true_iff in Hx. rewrite Hx, (IH Ht). reflexivity.
Qed.

Lemma after_present c a r :
  all_chars (is_not c) a = true -> after c (a ++ String c r) = r.
Proof.
  induction a as [|x t IH]; cbn [append all_chars after].
  - rewrite Ascii.eqb_refl. reflexivity.
  - intros H. apply andb_prop in H. destruct H as [Hx Ht].
    unfold is_not in Hx. apply negb_true_iff in Hx. rewrite Hx. exact (IH Ht).
Qed.

Lemma remove_PT_absent s : all_chars (is_not "P") s = true -> remove_PT s = s.
Proof.
  induction s as [|x t IH]; [reflexivity|]. cbn [all_chars].
  intros H. apply andb_prop in H. destruct H as [Hx Ht].
  unfold is_not in Hx. apply negb_true_iff in Hx.
  assert (E : remove_PT (String x t) = String x (remove_PT t)).
  { destruct x as [b0 b1 b2 b3 b4 b5 b6 b7].
    destruct b0, b1, b2, b3, b4, b5, b6, b7; try reflexivity. discriminate Hx. }
  rewrite E, (IH Ht). reflexivity.
Qed.

Lemma digit_is_not c x :
  is_digit c = false -> is_digit x = true -> is_not c x = true.
Proof.
  intros Hc Hx. unfold is_not. apply negb_true_iff.
  destruct (Ascii.eqb_spec x c) as [->|]; [congruence|reflexivity].
Qed.

Lemma numeral_is_not c ds :
  is_digit c = false -> Forall (fun d => (d < 10)%nat) ds ->
  all_chars (is_not c) (numeral ds) = true.
Proof.
  intros Hc Hall. eapply all_chars_weaken; [|apply numeral_all_digits, Hall].
  intros x. apply digit_is_not, Hc.
Qed.

Lemma component_is_not c ds designator :
  is_digit c = false -> well_formed ds ->
  all_chars (is_not c) designator = true ->
  all_chars (is_not c) (component ds designator) = true.
Proof.
  intros Hc Hds Hdes. destruct ds as [d|]; cbn [component]; [|reflexivity].
  rewrite all_chars_app, (numeral_is_not c d Hc (proj2 Hds)), Hdes. reflexivity.
Qed.

(** One step of lines 52-59: the part of the duration before the
    designator is read, the rest goes on. *)
Lemma read_component (c : ascii) ds rest :
  is_digit c = false -> well_formed ds ->
  all_chars (is_not c) rest = true ->
  (if has_char c (component ds (String c EmptyString) ++ rest) then
     let* n := int_str (before c (component ds (String c EmptyString) ++ rest)) in
     Ok (n, second c (component ds (String c EmptyString) ++ rest))
   else Ok (0, component ds (String c EmptyString) ++ rest))
  = Ok (component_value ds, rest).
Proof.
  intros Hc Hds Hrest. destruct ds as [d|]; cbn [component component_value append].
  - destruct Hds as [Hne Hall].
    pose proof (numeral_is_not c d Hc Hall) as Hnum.
    rewrite string_app_assoc. cbn [append].
    rewrite has_char_present, (before_present c _ _ Hnum).
    unfold int_str. cbn [PyInt.int]. rewrite (parse_numeral d (conj Hne Hall)).
    cbn [bind_res]. unfold second.
    rewrite (after_present c _ _ Hnum), (before_absent c rest Hrest). reflexivity.
  - rewrite (has_char_absent c rest Hrest). reflexivity.
Qed.

End DurationFacts.

Section DurationParsing.
Import Numerals.
Import VideoPerformanceAnalyzer.

Lemma numeral_all (p : ascii -> bool) ds :
  (forall x, is_digit x = true -> p x = true) ->
  Forall (fun d => (d < 10)%nat) ds -> all_chars p (numeral ds) = true.
Proof.
  intros Hp Hall. eapply all_chars_weaken; [exact Hp|apply numeral_all_digits, Hall].
Qed.

Lemma component_all (p : ascii -> bool) ds designator :
  (forall x, is_digit x = true -> p x = true) ->
  well_formed ds -> all_chars p designator = true ->
  all_chars p (component ds designator) = true.
Proof.
  intros Hp Hds Hdes. destruct ds as [d|]; cbn [component]; [|reflexivity].
  rewrite all_chars_app, (numeral_all p d Hp (proj2 Hds)), Hdes. reflexivity.
Qed.

Lemma read_seconds ds :
  well_formed ds ->
  (if has_char "S" (component ds "S") then int_str (before "S" (component ds "S"))
   else Ok 0)
  = Ok (component_value ds).
Proof.
  intros Hds. destruct ds as [d|]; cbn [component component_value]; [|reflexivity].
  destruct Hds as [Hne Hall].
  pose proof (numeral_is_not "S" d eq_refl Hall) as Hnum.
  rewrite has_char_present, (before_present "S" _ _ Hnum).
  unfold int_str. cbn [PyInt.int]. rewrite (parse_numeral d (conj Hne Hall)).
  reflexivity.
Qed.

(** The duration of a video, as the API writes it below a day, is read
    component by component: [PT#H#M#S] gives the three numbers, and a
    component that is left out gives 0. *)
Theorem duration_is_read (h m s : option (list nat)) :
  well_formed h -> well_formed m -> well_formed s ->
  parse_duration (JStr (duration h m s))
  = Ok (component_value h, component_value m, component_value s).
Proof.
  intros Hh Hm Hs. unfold parse_duration, duration.
  change (remove_PT ("PT" ++ component h "H" ++ component m "M" ++ component s "S"))
    with (remove_PT (component h "H" ++ component m "M" ++ component s "S")).
  rewrite remove_PT_absent.
  2:{ rewrite !all_chars_app.
      rewrite (component_is_not "P" h "H"), (component_is_not "P" m "M"),
        (component_is_not "P" s "S"); auto. }
  rewrite (read_component "H" h (component m "M" ++ component s "S") eq_refl Hh).
  2:{ rewrite all_chars_app.
      rewrite (component_is_not "H" m "M"), (component_is_not "H" s "S"); auto. }
  cbn [bind_res].
  rewrite (read_component "M" m (component s "S") eq_refl Hm).
  2:{ apply component_is_not; auto. }
  cbn [bind_res]. rewrite (read_seconds s Hs). reflexivity.
Qed.

Lemma duration_is_read_witness :
  parse_duration (JStr "PT1H02M3S") = Ok (1, 2, 3) /\
  parse_duration (JStr "PT45S") = Ok (0, 0, 45).
Proof.
  split.
  - refine (duration_is_read (Some [1]%nat) (Some [0; 2]%nat) (Some [3]%nat) _ _ _);
      (split; [discriminate|repeat constructor]).
  - refine (duration_is_read None None (Some [4; 5]%nat) _ _ _);
      try exact I; (split; [discriminate|repeat constructor]).
Defined.

Lemma remove_PT_keeps_P x t :
  x <> "T"%char ->
  remove_PT (String "P" (String x t)) = String "P" (remove_PT (String x t)).
Proof.
  intros Hx. destruct x as [b0 b1 b2 b3 b4 b5 b6 b7].
  destruct b0, b1, b2, b3, b4, b5, b6, b7; try reflexivity.
  exfalso. apply Hx. reflexivity.
Qed.

Lemma int_str_fails_on_P t :
  all_chars no_space t = true ->
  exists msg, int_str (String "P" t) = Raise (PyExc ValueError msg).
Proof.
  intros Ht. unfold int_str. cbn [PyInt.int]. unfold PyInt.parse.
  rewrite strip_no_space by (cbn [all_chars]; exact Ht).
  cbn. eexists. reflexivity.
Qed.

Lemma before_all p c s : all_chars p s = true -> all_chars p (before c s) = true.
Proof.
  induction s as [|x t IH]; cbn [all_chars before]; [reflexivity|].
  intros H. apply andb_prop in H. destruct H as [Hx Ht].
  destruct (Ascii.eqb x c); [reflexivity|].
  cbn [all_chars]. rewrite Hx, (IH Ht). reflexivity.
Qed.

Lemma before_P c t : c <> "P"%char -> before c (String "P" t) = String "P" (before c t).
Proof.
  intros Hc. cbn [before].
  destruct (Ascii.eqb_spec "P"%char c) as [E|_]; [congruence|reflexivity].
Qed.

(** A duration of a day or more, [P#DT#H#M#S], is not read: the text before
    the first designator begins with [P#DT], [int] raises [ValueError], and
    the analysis of such a video ends in the error message of [run]. *)
Theorem long_duration_is_rejected (days : list nat) (h m s : option (list nat)) :
  decimal days -> well_formed h -> well_formed m -> well_formed s ->
  h <> None \/ m <> None \/ s <> None ->
  exists msg,
    parse_duration (JStr (long_duration days h m s)) = Raise (PyExc ValueError msg).
Proof.
  intros [Hne Hdays] Hh Hm Hs Hsome. unfold parse_duration, long_duration.
  destruct days as [|d0 days']; [contradiction|].
  set (body := (numeral (d0 :: days') ++ "DT" ++ component h "H" ++ component m "M"
                ++ component s "S")%string).
  change ("P" ++ body)%string with (String "P" body).
  assert (Hspace : all_chars no_space body = true).
  { unfold body. rewrite !all_chars_app.
    rewrite (numeral_all no_space _ digit_not_space Hdays).
    rewrite (component_all no_space h "H" digit_not_space Hh eq_refl).
    rewrite (component_all no_space m "M" digit_not_space Hm eq_refl).
    rewrite (component_all no_space s "S" digit_not_space Hs eq_refl).
    reflexivity. }
  assert (HnoP : all_chars (is_not "P") body = true).
  { unfold body. rewrite !all_chars_app.
    rewrite (numeral_is_not "P" _ eq_refl Hdays).
    rewrite (component_is_not "P" h "H"), (component_is_not "P" m "M"),
      (component_is_not "P" s "S"); auto. }
  assert (Hkeep : remove_PT (String "P" body) = String "P" body).
  { unfold body at 1. cbn [numeral append].
    rewrite remove_PT_keeps_P.
    - f_equal. apply (remove_PT_absent body HnoP).
    - apply Forall_cons_iff in Hdays. destruct Hdays as [Hd _].
      do 10 (destruct d0 as [|d0]; [discriminate|]). lia. }
  rewrite Hkeep.
  assert (Hfail : forall c, c <> "P"%char ->
            exists msg, int_str (before c (String "P" body)) = Raise (PyExc ValueError msg)).
  { intros c Hc. rewrite (before_P c body Hc).
    apply int_str_fails_on_P, before_all, Hspace. }
  destruct (has_char "H" (String "P" body)) eqn:EH.
  { destruct (Hfail "H"%char) as [msg ->]; [discriminate|]. eexists. reflexivity. }
  cbn [bind_res].
  destruct (has_char "M" (String "P" body)) eqn:EM.
  { destruct (Hfail "M"%char) as [msg ->]; [discriminate|]. eexists. reflexivity. }
  cbn [bind_res].
  destruct (has_char "S" (String "P" body)) eqn:ES.
  { destruct (Hfail "S"%char) as [msg ->]; [discriminate|]. eexists. reflexivity. }
  exfalso.
  assert (Hpresent : forall cs c rest, cs <> None ->
            has_char c (component cs (String c EmptyString) ++ rest) = true).
  { intros [cd|] c rest Hcs; [|contradiction]. cbn [component].
    rewrite string_app_assoc. cbn [append]. apply has_char_present. }
  assert (Hskip : forall c a b, has_char c (a ++ b) = (has_char c a || has_char c b)%bool).
  { intros c a b. induction a as [|x t IH]; cbn [append has_char]; [reflexivity|].
    rewrite IH. apply orb_assoc. }
  cbn [has_char] in EH, EM, ES. cbn [Ascii.eqb Bool.eqb andb orb] in EH, EM, ES.
  unfold body in EH, EM, ES. rewrite !Hskip in EH, EM, ES.
  destruct Hsome as [Hx|[Hx|Hx]].
  - pose proof (Hpresent h "H"%char EmptyString Hx) as Hp.
    rewrite Hskip in Hp. cbn [has_char] in Hp. rewrite orb_false_r in Hp.
    rewrite Hp in EH. rewrite !orb_true_r in EH. cbn in EH. discriminate EH.
  - pose proof (Hpresent m "M"%char EmptyString Hx) as Hp.
    rewrite Hskip in Hp. cbn [has_char] in Hp. rewrite orb_false_r in Hp.
    rewrite Hp in EM. rewrite !orb_true_r in EM. cbn in EM.
    rewrite ?orb_true_r in EM. discriminate EM.
  - pose proof (Hpresent s "S"%char EmptyString Hx) as Hp.
    rewrite Hskip in Hp. cbn [has_char] in Hp. rewrite orb_false_r in Hp.
    rewrite Hp in ES. rewrite !orb_true_r in ES. cbn in ES.
    rewrite ?orb_true_r in ES. discriminate ES.
Qed.

Lemma long_duration_is_rejected_witness :
  exists msg, parse_duration (JStr "P1DT2H") = Raise (PyExc ValueError msg).
Proof.
  refine (long_duration_is_rejected [1]%nat (Some [2]%nat) None None _ _ _ _ _);
    try exact I; try (split; [discriminate|repeat constructor]).
  left. discriminate.
Defined.

End DurationParsing.

(** ** Scores and the threshold *)

Lemma ratio_in_unit_interval (a b : Z) :
  0 <= a <= b -> 0 < b -> (0 <= inject_Z a / inject_Z b <= 1)%Q.
Proof.
  intros [Ha Hab] Hb.
  assert (Hbq : (0 < inject_Z b)%Q).
  { change 0%Q with (inject_Z 0). rewrite <- Zlt_Qlt. exact Hb. }
  split.
  - apply Qle_shift_div_l; [exact Hbq|]. rewrite Qmult_0_l.
    change 0%Q with (inject_Z 0). rewrite <- Zle_Qle. exact Ha.
  - apply Qle_shift_div_r; [exact Hbq|]. rewrite Qmult_1_l.
    rewrite <- Zle_Qle. exact Hab.
Qed.

Lemma score_in_unit_interval q kw d r :
  CompetitorSearchTool.score q kw d = Ok r -> (0 <= r <= 1)%Q.
Proof.
  unfold CompetitorSearchTool.score, PyOps.true_div. rewrite sum_matches.
  destruct (Z.eqb_spec (Z.of_nat (List.length (CompetitorSearchTool.search_terms q))) 0)
    as [E|E]; [discriminate|].
  intros H. injection H as <-. apply ratio_in_unit_interval; [|lia].
  split; [lia|]. apply inj_le, filter_length_le.
Qed.

Lemma competitor_data_relevance channel relevance c :
  CompetitorSearchTool.competitor_data channel relevance = Ok c ->
  CompetitorSearchTool.relevance_score c = relevance.
Proof.
  unfold CompetitorSearchTool.competitor_data. intros H.
  do 12 inv_res H. injection H as <-. reflexivity.
Qed.

Lemma process_channel_relevance q th channel c :
  CompetitorSearchTool.process_channel q th channel = Ok (Some c) ->
  (th <= CompetitorSearchTool.relevance_score c <= 1)%Q.
Proof.
  unfold CompetitorSearchTool.process_channel. intros H.
  do 7 inv_res H.
  destruct (Qle_bool th a5) eqn:Hth; [|discriminate].
  inv_res H. injection H as <-.
  rewrite (competitor_data_relevance _ _ _ Ha6).
  split; [apply Qle_bool_iff, Hth|].
  eapply score_in_unit_interval, Ha5.
Qed.

(** Every competitor that the loop retains has a relevance score between
    the threshold and 1; with a threshold above 1 no channel is retained. *)
Theorem retained_meet_threshold
    (q : string) (th : Q) (channels : list json)
    (cs : list CompetitorSearchTool.competitor) :
  CompetitorSearchTool.collect q th channels = Ok cs ->
  Forall (fun c => (th <= CompetitorSearchTool.relevance_score c <= 1)%Q) cs /\
  ((1 < th)%Q -> cs = []).
Proof.
  intros H.
  assert (Hall : Forall (fun c => (th <= CompetitorSearchTool.relevance_score c <= 1)%Q) cs).
  { unfold CompetitorSearchTool.collect in H. inv_res H. injection H as <-.
    revert a Ha. induction channels as [|ch t IH]; intros os Hos.
    - simpl in Hos. injection Hos as <-. constructor.
    - apply map_res_cons in Hos. destruct Hos as (o & os' & Ho & Ht & ->).
      destruct o as [c|]; cbn [CompetitorSearchTool.keep]; [|apply IH, Ht].
      constructor; [|apply IH, Ht].
      eapply process_channel_relevance, Ho. }
  split; [exact Hall|].
  intros Hth. destruct cs as [|c rest]; [reflexivity|].
  apply Forall_cons_iff in Hall. destruct Hall as [[Hlo Hhi] _].
  exfalso. apply (Qlt_irrefl 1).
  eapply Qlt_le_trans; [exact Hth|]. eapply Qle_trans; eassumption.
Qed.

Lemma retained_meet_threshold_witness :
  Forall (fun c => (1 # 2 <= CompetitorSearchTool.relevance_score c <= 1)%Q)
         [Examples.beta_data].
Proof.
  exact (proj1 (retained_meet_threshold "tech" (1 # 2) [Examples.beta]
                  [Examples.beta_data] eq_refl)).
Defined.

(** ** Descriptions and topics *)

Lemma take_length n s : String.length (PyStr.take n s) = Nat.min n (String.length s).
Proof.
  revert s. induction n as [|n IH]; intros s; [reflexivity|].
  destruct s as [|c t]; [reflexivity|]. cbn [PyStr.take String.length].
  rewrite IH. reflexivity.
Qed.

Lemma string_app_length a b :
  String.length (a ++ b) = (String.length a + String.length b)%nat.
Proof.
  induction a as [|c t IH]; cbn [append String.length]; [reflexivity|].
  rewrite IH. reflexivity.
Qed.

(** The description of a report is the description of the channel when
    that has at most 200 characters, and its first 200 characters followed
    by three dots otherwise; it never has more than 203 characters.
    CompetitorSearchTool and ChannelDemographicsTool cut it the same way. *)
Theorem description_is_cut (d : string) (channel snippet : json) :
  CompetitorSearchTool.getitem2 channel "snippet" "description" = Ok (JStr d) ->
  Py.getitem snippet "description" = Ok (JStr d) ->
  exists r,
    CompetitorSearchTool.short_description channel = Ok (JStr r) /\
    ChannelDemographicsTool.short_description snippet = Ok (JStr r) /\
    (String.length r <= 203)%nat /\
    ((String.length d <= 200)%nat -> r = d) /\
    ((200 < String.length d)%nat -> r = (PyStr.take 200 d ++ "...")%string).
Proof.
  intros Hc Hs.
  unfold CompetitorSearchTool.short_description, ChannelDemographicsTool.short_description.
  rewrite Hc, Hs. cbn [bind_res PyOps.len].
  destruct (Z.ltb_spec 200 (Z.of_nat (String.length d))) as [Hlong|Hshort].
  - exists (PyStr.take 200 d ++ "...")%string.
    cbn [bind_res PyOps.slice_to PyOps.add_str].
    repeat split.
    + rewrite string_app_length, take_length. cbn [String.length]. lia.
    + intros H. lia.
  - exists d. repeat split.
    + lia.
    + intros H. lia.
Qed.

Lemma description_is_cut_witness :
  exists r,
    CompetitorSearchTool.short_description Examples.alpha = Ok (JStr r) /\
    ChannelDemographicsTool.short_description
      (JDict [("description", JStr "tech news")]) = Ok (JStr r) /\
    (String.length r <= 203)%nat /\
    ((String.length "tech news" <= 200)%nat -> r = "tech news") /\
    ((200 < String.length "tech news")%nat -> r = (PyStr.take 200 "tech news" ++ "...")%string).
Proof.
  exact (description_is_cut "tech news" Examples.alpha
           (JDict [("description", JStr "tech news")]) eq_refl eq_refl).
Defined.

Section TopicFacts.
Import Numerals.

Lemma last_segment_no_slash s : forall cur,
  all_chars (is_not "/") cur = true ->
  all_chars (is_not "/") (CompetitorSearchTool.last_segment_aux cur s) = true.
Proof.
  induction s as [|c t IH]; intros cur Hcur; cbn [CompetitorSearchTool.last_segment_aux].
  - apply all_chars_rev; [exact Hcur|reflexivity].
  - destruct (Ascii.eqb c "/") eqn:E.
    + apply IH. reflexivity.
    + apply IH. cbn [all_chars]. unfold is_not at 1. rewrite E, Hcur. reflexivity.
Qed.

Lemma replace_underscore_clean s :
  all_chars (is_not "/") s = true ->
  all_chars (fun c => (is_not "/" c && is_not "_" c)%bool)
            (CompetitorSearchTool.replace_underscore s) = true.
Proof.
  induction s as [|c t IH]; cbn [all_chars CompetitorSearchTool.replace_underscore];
    [reflexivity|].
  intros H. apply andb_prop in H. destruct H as [Hc Ht]. rewrite (IH Ht).
  destruct (Ascii.eqb c "_") eqn:E.
  - reflexivity.
  - rewrite Hc. unfold is_not. rewrite E. reflexivity.
Qed.

Lemma rev_string_acc s : forall acc,
  PyStr.rev_string acc s = (PyStr.rev_string EmptyString s ++ acc)%string.
Proof.
  induction s as [|c t IH]; intros acc; cbn [PyStr.rev_string]; [reflexivity|].
  rewrite (IH (String c acc)), (IH (String c EmptyString)), string_app_assoc.
  reflexivity.
Qed.

(** [last_segment_aux] returns what stands after the last slash: with
    [cur] the characters read since the last slash, either no slash follows
    and the result is these characters and the rest, or the rest ends in a
    slash and the result. *)
Lemma last_segment_spec s : forall cur,
  CompetitorSearchTool.last_segment_aux cur s
  = (PyStr.rev_string EmptyString cur ++ s)%string \/
  exists p, s = (p ++ "/" ++ CompetitorSearchTool.last_segment_aux cur s)%string.
Proof.
  induction s as [|c t IH]; intros cur; cbn [CompetitorSearchTool.last_segment_aux].
  - left. induction (PyStr.rev_string EmptyString cur) as [|x r IHr];
      cbn [append]; [reflexivity|]. rewrite <- IHr. reflexivity.
  - destruct (Ascii.eqb_spec c "/") as [->|Hc].
    + right. destruct (IH EmptyString) as [E|[p E]].
      * exists EmptyString. rewrite E. reflexivity.
      * exists (String "/" p). apply (f_equal (String "/")) in E. exact E.
    + destruct (IH (String c cur)) as [E|[p E]].
      * left. rewrite E. cbn [PyStr.rev_string].
        rewrite (rev_string_acc cur (String c EmptyString)), string_app_assoc.
        reflexivity.
      * right. exists (String c p). apply (f_equal (String c)) in E. exact E.
Qed.

Lemma replace_underscore_chars s :
  list_ascii_of_string (CompetitorSearchTool.replace_underscore s)
  = map (fun c => if Ascii.eqb c "_" then " "%char else c) (list_ascii_of_string s).
Proof.
  induction s as [|c t IH];
    cbn [CompetitorSearchTool.replace_underscore list_ascii_of_string map];
    [reflexivity|].
  rewrite IH. reflexivity.
Qed.

(** The topics of an entry: at most three are shown, the first ones, in
    their order.  The name shown for a category is the part of it after its
    last slash (the whole of it when it has none), with a blank for every
    underscore; so a name has neither a slash nor an underscore in it. *)
Theorem topics_are_shown_by_name (cats : list string) :
  cats <> [] ->
  exists names,
    CompetitorSearchTool.format_topics (JList (map JStr cats))
    = Ok [Lit "   Topics: "; Lit (PyStr.join ", " names); Lit PyOps.nl] /\
    List.length names = Nat.min 3 (List.length cats) /\
    Forall2 (fun cat name =>
               exists seg,
                 all_chars (is_not "/") seg = true /\
                 (cat = seg \/ exists p, cat = (p ++ "/" ++ seg)%string) /\
                 list_ascii_of_string name
                 = map (fun c => if Ascii.eqb c "_" then " "%char else c)
                       (list_ascii_of_string seg))
            (firstn 3 cats) names /\
    Forall (fun n => all_chars (fun c => (is_not "/" c && is_not "_" c)%bool) n = true)
           names.
Proof.
  intros Hne.
  exists (map (fun s => CompetitorSearchTool.replace_underscore
                          (CompetitorSearchTool.last_segment_aux EmptyString s))
              (firstn 3 cats)).
  split; [|split; [|split]].
  - unfold CompetitorSearchTool.format_topics.
    destruct cats as [|c0 rest]; [contradiction|].
    cbn [map Py.truthy PyOps.slice_to bind_res Py.iter].
    rewrite <- (map_cons JStr c0 rest), firstn_map.
    assert (E : forall l,
               map_res CompetitorSearchTool.topic_name (map JStr l)
               = Ok (map (fun s => CompetitorSearchTool.replace_underscore
                                     (CompetitorSearchTool.last_segment_aux EmptyString s)) l)).
    { induction l as [|x t IH]; [reflexivity|].
      cbn [map map_res CompetitorSearchTool.topic_name bind_res]. rewrite IH. reflexivity. }
    rewrite E. reflexivity.
  - rewrite length_map, length_firstn. reflexivity.
  - induction (firstn 3 cats) as [|cat l IH]; cbn [map]; constructor; [|exact IH].
    exists (CompetitorSearchTool.last_segment_aux EmptyString cat).
    split; [apply last_segment_no_slash; reflexivity|].
    split; [|apply replace_underscore_chars].
    destruct (last_segment_spec cat EmptyString) as [E|[p E]].
    + left. rewrite E. reflexivity.
    + right. exists p. exact E.
  - apply Forall_map, Forall_forall. intros s _.
    apply replace_underscore_clean, last_segment_no_slash. reflexivity.
Qed.

Lemma topics_are_shown_by_name_witness :
  exists names,
    CompetitorSearchTool.format_topics
      (JList (map JStr ["https://en.wikipedia.org/wiki/Video_game_culture"]))
    = Ok [Lit "   Topics: "; Lit (PyStr.join ", " names); Lit PyOps.nl] /\
    List.length names = Nat.min 3 1 /\
    Forall2 (fun cat name =>
               exists seg,
                 all_chars (is_not "/") seg = true /\
                 (cat = seg \/ exists p, cat = (p ++ "/" ++ seg)%string) /\
                 list_ascii_of_string name
                 = map (fun c => if Ascii.eqb c "_" then " "%char else c)
                       (list_ascii_of_string seg))
            (firstn 3 ["https://en.wikipedia.org/wiki/Video_game_culture"]) names /\
    Forall (fun n => all_chars (fun c => (is_not "/" c && is_not "_" c)%bool) n = true)
           names.
Proof.
  refine (topics_are_shown_by_name ["https://en.wikipedia.org/wiki/Video_game_culture"] _).
  discriminate.
Defined.

End TopicFacts.

(** ** What [run] returns when nothing is found *)

Lemma execute_Reply yt c log j :
  yt log c = Reply j -> execute yt c log = (Some (Ok j), (log ++ [c])%list).
Proof. unfold execute. intros ->. reflexivity. Qed.

Lemma lift_Ok {A} (r : res A) (a : A) log :
  r = Ok a -> lift r log = (Some (Ok a), log).
Proof. intros ->. reflexivity. Qed.

(** When the search finds no channel (the response has no [items], or an
    empty list), CompetitorSearchTool returns its fixed message and looks
    nothing up. *)
Theorem no_competitors_found
    (key : option string) (yt : client) (q : string) (n : Z) (th : Q)
    (log : list call) (b j v : json) :
  yt log (Build key) = Reply b ->
  yt (log ++ [Build key])%list (SearchList q n) = Reply j ->
  Py.get j "items" JNull = Ok v ->
  Py.truthy v = false ->
  CompetitorSearchTool.run key yt q n th log
  = (Some (Ok [Lit "No competing channels found."]),
     (log ++ [Build key; SearchList q n])%list).
Proof.
  intros Hb Hs Hget Hfalse.
  unfold CompetitorSearchTool.run, try_except, CompetitorSearchTool.body.
  rewrite (bind_Ok _ _ _ _ _ (execute_Reply _ _ _ _ Hb)).
  rewrite (bind_Ok _ _ _ _ _ (execute_Reply _ _ _ _ Hs)).
  rewrite (bind_Ok _ _ _ _ _ (lift_Ok _ _ _ Hget)).
  rewrite Hfalse. cbn [negb ret]. rewrite <- app_assoc. reflexivity.
Qed.

Lemma no_competitors_found_witness :
  CompetitorSearchTool.run (Some "k")
    (scripted [Reply JNull; Reply (JDict [("items", JList [])])]) "tech" 5 (1 # 2) []
  = (Some (Ok [Lit "No competing channels found."]),
     [Build (Some "k"); SearchList "tech" 5]).
Proof.
  exact (no_competitors_found (Some "k")
           (scripted [Reply JNull; Reply (JDict [("items", JList [])])])
           "tech" 5 (1 # 2) [] JNull (JDict [("items", JList [])]) (JList [])
           eq_refl eq_refl eq_refl eq_refl).
Defined.

(** When the channel lookup reports no result ([totalResults] is 0),
    VideoFetchingTool returns its message with the channel id and requests
    no page of any playlist, whatever the number of videos asked for. *)
Theorem channel_without_result
    (strptime : string -> option Z) (indexer : list Z -> list nat) (fuel : nat)
    (key : option string) (yt : client) (channel_id : string) (n : Z) (sort_by : string)
    (log : list call) (b j pi total : json) :
  yt log (Build key) = Reply b ->
  yt (log ++ [Build key])%list (ChannelsList "contentDetails" channel_id) = Reply j ->
  Py.getitem j "pageInfo" = Ok pi ->
  Py.getitem pi "totalResults" = Ok total ->
  Py.eq_zero total = true ->
  VideoFetchingTool.run strptime indexer fuel key yt channel_id n sort_by log
  = (Some (Ok [Lit "Error: Channel not found for ID '"; Lit channel_id;
               Lit "'. Please check the channel ID."]),
     (log ++ [Build key; ChannelsList "contentDetails" channel_id])%list).
Proof.
  intros Hb Hc Hpi Htotal Hzero.
  unfold VideoFetchingTool.run, try_except, VideoFetchingTool.body.
  rewrite (bind_Ok _ _ _ _ _ (execute_Reply _ _ _ _ Hb)).
  rewrite (bind_Ok _ _ _ _ _ (execute_Reply _ _ _ _ Hc)).
  rewrite Hpi. cbn [bind_res]. rewrite (bind_Ok _ _ _ _ _ (lift_Ok _ _ _ Htotal)).
  rewrite Hzero. cbn [ret]. rewrite <- app_assoc. reflexivity.
Qed.

Lemma channel_without_result_witness :
  VideoFetchingTool.run Examples.strptime Examples.stable_indexer 0 (Some "k")
    (scripted [Reply JNull; Reply (JDict [("pageInfo", JDict [("totalResults", JNum 0)])])])
    "UC0" 5 "views" []
  = (Some (Ok [Lit "Error: Channel not found for ID '"; Lit "UC0";
               Lit "'. Please check the channel ID."]),
     [Build (Some "k"); ChannelsList "contentDetails" "UC0"]).
Proof.
  exact (channel_without_result Examples.strptime Examples.stable_indexer 0 (Some "k")
           (scripted [Reply JNull;
                      Reply (JDict [("pageInfo", JDict [("totalResults", JNum 0)])])])
           "UC0" 5 "views" [] JNull
           (JDict [("pageInfo", JDict [("totalResults", JNum 0)])])
           (JDict [("totalResults", JNum 0)]) (JNum 0)
           eq_refl eq_refl eq_refl eq_refl eq_refl).
Defined.

(** With a key set, ChannelDemographicsTool returns its fixed message when
    the channel lookup has no [items] or an empty list of them, and makes
    no further request (the OAuth credentials are not touched). *)
Theorem channel_not_found
    (key oauth : option string) (yt : client) (channel_id : string)
    (log : list call) (b j : json) :
  ChannelDemographicsTool.key_is_set key = true ->
  yt log (Build key) = Reply b ->
  yt (log ++ [Build key])%list
     (ChannelsList "statistics,snippet,contentDetails" channel_id) = Reply j ->
  (Py.contains "items" j = Ok false \/
   exists its, Py.contains "items" j = Ok true /\
               Py.getitem j "items" = Ok its /\ Py.truthy its = false) ->
  ChannelDemographicsTool.run key oauth yt channel_id log
  = (Some (Ok [Lit "Channel not found or invalid channel ID."]),
     (log ++ [Build key;
              ChannelsList "statistics,snippet,contentDetails" channel_id])%list).
Proof.
  intros Hkey Hb Hc Hitems.
  unfold ChannelDemographicsTool.run, try_except, ChannelDemographicsTool.body.
  rewrite Hkey. cbn [negb].
  rewrite (bind_Ok _ _ _ _ _ (execute_Reply _ _ _ _ Hb)).
  rewrite (bind_Ok _ _ _ _ _ (execute_Reply _ _ _ _ Hc)).
  destruct Hitems as [Hno|(its & Hyes & Hits & Hfalse)].
  - rewrite (bind_Ok _ _ _ _ _ (lift_Ok _ _ _ Hno)). cbn [negb].
    erewrite bind_Ok by reflexivity. cbn [ret]. rewrite <- app_assoc. reflexivity.
  - rewrite (bind_Ok _ _ _ _ _ (lift_Ok _ _ _ Hyes)). cbn [negb].
    rewrite Hits. cbn [bind_res]. rewrite Hfalse. cbn [negb].
    erewrite bind_Ok by reflexivity. cbn [ret]. rewrite <- app_assoc. reflexivity.
Qed.

Lemma channel_not_found_witness :
  ChannelDemographicsTool.run (Some "k") (Some "{}")
    (scripted [Reply JNull; Reply (JDict [("items", JList [])])]) "UC0" []
  = (Some (Ok [Lit "Channel not found or invalid channel ID."]),
     [Build (Some "k"); ChannelsList "statistics,snippet,contentDetails" "UC0"]).
Proof.
  refine (channel_not_found (Some "k") (Some "{}")
            (scripted [Reply JNull; Reply (JDict [("items", JList [])])]) "UC0" []
            JNull (JDict [("items", JList [])]) eq_refl eq_refl eq_refl _).
  right. exists (JList []). repeat split.
Defined.

(** When the video lookup returns an empty list of [items],
    VideoPerformanceAnalyzer returns its fixed message and requests no
    comments. *)
Theorem video_not_found
    (strptime : string -> option Z) (now : Z) (key : option string) (yt : client)
    (video_id : string) (include_comments : bool) (log : list call) (b j its : json) :
  yt log (Build key) = Reply b ->
  yt (log ++ [Build key])%list
     (VideosList "snippet,statistics,contentDetails" video_id) = Reply j ->
  Py.getitem j "items" = Ok its ->
  Py.truthy its = false ->
  VideoPerformanceAnalyzer.run strptime now key yt video_id include_comments log
  = (Some (Ok [Lit "Video not found."]),
     (log ++ [Build key; VideosList "snippet,statistics,contentDetails" video_id])%list).
Proof.
  intros Hb Hv Hits Hfalse.
  unfold VideoPerformanceAnalyzer.run, try_except, VideoPerformanceAnalyzer.body.
  rewrite (bind_Ok _ _ _ _ _ (execute_Reply _ _ _ _ Hb)).
  rewrite (bind_Ok _ _ _ _ _ (execute_Reply _ _ _ _ Hv)).
  rewrite (bind_Ok _ _ _ _ _ (lift_Ok _ _ _ Hits)).
  rewrite Hfalse. cbn [negb ret]. rewrite <- app_assoc. reflexivity.
Qed.

Lemma video_not_found_witness :
  VideoPerformanceAnalyzer.run Examples.strptime 0 (Some "k")
    (scripted [Reply JNull; Reply (JDict [("items", JList [])])]) "v0" true []
  = (Some (Ok [Lit "Video not found."]),
     [Build (Some "k"); VideosList "snippet,statistics,contentDetails" "v0"]).
Proof.
  exact (video_not_found Examples.strptime 0 (Some "k")
           (scripted [Reply JNull; Reply (JDict [("items", JList [])])]) "v0" true []
           JNull (JDict [("items", JList [])]) (JList [])
           eq_refl eq_refl eq_refl eq_refl).
Defined.

(** ** The requests and the records of the pagination loop *)

Ltac round_ends :=
  let H := fresh "H" in
  intros H; injection H as H ?; subst;
  first [ left; split; [reflexivity | intros ? ?; discriminate]
        | right; eexists; reflexivity ].

Section LoopTrace.
Import VideoFetchingTool.
Import Trace.

Variable strptime : string -> option Z.
Variable yt : client.
Variable pl : json.
Variable N : Z.

(** A turn that goes on to a next turn has made its batch lookup. *)
Lemma turn_rounds videos tok log o log1 :
  turn strptime yt pl N videos tok log = (o, log1) ->
  (log1 = (log ++ [page_call pl N videos tok])%list /\
   forall v t, o <> Some (Ok (Continue v t))) \/
  exists ids,
    log1 = (log ++ [page_call pl N videos tok; VideosList "statistics,snippet" ids])%list.
Proof.
  unfold turn, bind, execute, lift, ret.
  fold (page_call pl N videos tok).
  destruct (yt log (page_call pl N videos tok)) as [j|e0]; cbv beta iota;
    [|round_ends].
  destruct (Py.contains "items" j) as [has|e0]; cbv beta iota; [|round_ends].
  destruct has; cbn [negb]; cbv beta iota; [|round_ends].
  destruct (items_of j) as [items|e0]; cbv beta iota; [|round_ends].
  destruct (map_res video_id_of items) as [vids|e0]; cbv beta iota; [|round_ends].
  destruct (PyOps.join "," vids) as [ids|e0]; cbv beta iota; [|round_ends].
  destruct (yt (log ++ [page_call pl N videos tok])%list (VideosList "statistics,snippet" ids))
    as [v|e0]; cbv beta iota; rewrite <- app_assoc; cbn [app]; [|round_ends].
  destruct (items_of v) as [found|e0]; cbv beta iota; [|round_ends].
  destruct (map_res (video_data strptime) found) as [new|e0]; cbv beta iota;
    [|round_ends].
  destruct (Py.get j "nextPageToken" JNull) as [t|e0]; cbv beta iota; [|round_ends].
  destruct (Py.truthy t); cbn [negb]; round_ends.
Qed.

Lemma batch_lookups_app l1 l2 :
  batch_lookups (l1 ++ l2) = batch_lookups l1 + batch_lookups l2.
Proof. unfold batch_lookups. rewrite filter_app, length_app. lia. Qed.

(** The requests of the loop: pages of 1 to 50 items of the uploads
    playlist and batch lookups, nothing else; and a batch lookup for every
    page, but possibly the last. *)
Theorem loop_requests_shape (fuel : nat) :
  forall videos tok log,
    exists added,
      snd (while_loop strptime fuel yt pl N videos tok log) = (log ++ added)%list /\
      Forall (loop_request pl) added /\
      batch_lookups added <= page_requests added <= batch_lookups added + 1.
Proof.
  induction fuel as [|fuel IH]; intros videos tok log; rewrite loop_unfold;
    destruct (Z.ltb_spec (len_videos videos) N) as [Hlt|Hge];
    try (exists []; cbn [ret out_of_fuel snd]; rewrite app_nil_r;
         repeat split; [constructor | reflexivity | discriminate]).
  unfold bind.
  destruct (turn strptime yt pl N videos tok log) as [o log1] eqn:Hturn.
  assert (Hpage : loop_request pl (page_call pl N videos tok)).
  { unfold page_call. cbn [loop_request]. split; [reflexivity|lia]. }
  apply turn_rounds in Hturn. destruct Hturn as [[-> Hstop]|[ids ->]].
  - exists [page_call pl N videos tok]. split; [|split].
    + destruct o as [[[v t|v|out]|e]|]; cbn [ret snd]; try reflexivity.
      exfalso. apply (Hstop v t). reflexivity.
    + constructor; [exact Hpage|constructor].
    + split; [discriminate|reflexivity].
  - assert (Hround : Forall (loop_request pl)
                       [page_call pl N videos tok; VideosList "statistics,snippet" ids]).
    { constructor; [exact Hpage|]. constructor; [reflexivity|constructor]. }
    destruct o as [[[v t|v|out]|e]|]; cbn [ret snd];
      try (exists [page_call pl N videos tok; VideosList "statistics,snippet" ids];
           split; [reflexivity|split; [exact Hround|split; [discriminate|discriminate]]]).
    destruct (IH v t (log ++ [page_call pl N videos tok;
                              VideosList "statistics,snippet" ids])%list)
      as (added & Hlog & Hall & Hlo & Hhi).
    exists ([page_call pl N videos tok; VideosList "statistics,snippet" ids] ++ added)%list.
    split; [|split].
    + rewrite Hlog, <- app_assoc. reflexivity.
    + apply Forall_app. split; assumption.
    + rewrite batch_lookups_app, page_requests_app.
      change (batch_lookups [page_call pl N videos tok; VideosList "statistics,snippet" ids])
        with 1.
      change (page_requests [page_call pl N videos tok; VideosList "statistics,snippet" ids])
        with 1.
      lia.
Qed.

(** The records of the pages that are already in stay, in their order, in
    front of the records of the later pages. *)
Theorem loop_appends (fuel : nat) :
  forall videos tok log vs log',
    while_loop strptime fuel yt pl N videos tok log = (Some (Ok (inl vs)), log') ->
    exists added, vs = (videos ++ added)%list.
Proof.
  induction fuel as [|fuel IH]; intros videos tok log vs log'; rewrite loop_unfold;
    destruct (len_videos videos <? N);
    try (intros H; injection H as <- _; exists []; rewrite app_nil_r; reflexivity).
  - discriminate.
  - unfold bind.
    destruct (turn strptime yt pl N videos tok log) as [o log1] eqn:Hturn.
    apply turn_inv in Hturn. destruct Hturn as (_ & _ & He).
    destruct o as [[e|ex]|]; try discriminate.
    destruct (He e eq_refl) as (j & _ & Hcases).
    destruct Hcases as [->|(ids & v & found & new & t & _ & _ & _ & _ & ->)];
      [discriminate|].
    destruct (Py.truthy t).
    + intros H. apply IH in H. destruct H as [added ->].
      exists (new ++ added)%list. rewrite app_assoc. reflexivity.
    + intros H. injection H as <- _. exists new. reflexivity.
Qed.

End LoopTrace.

Lemma loop_appends_witness :
  exists added, [Examples.vx_data; Examples.vy_data] = ([Examples.vx_data] ++ added)%list.
Proof.
  refine (loop_appends Examples.strptime Examples.short_pages (JStr "UU") 2 3
            [Examples.vx_data] (JStr "t")
            [Build None; ChannelsList "contentDetails" "UC1";
             PlaylistItemsList (JStr "UU") 2 JNull; VideosList "statistics,snippet" "x"]
            [Examples.vx_data; Examples.vy_data] _ _).
  vm_compute. reflexivity.
Defined.

(** ** The rows of the report of VideoFetchingTool *)

Lemma take_rows_labels {A} (l : list A) (idx : list nat) (df : list (nat * A)) :
  map_res (VideoFetchingTool.take_row (VideoFetchingTool.enumerate 0 l)) idx = Ok df ->
  map fst df = idx /\
  Forall (fun row => nth_error l (fst row) = Some (snd row)) df.
Proof.
  revert df. induction idx as [|i idx IH]; intros df H.
  - simpl in H. injection H as <-. split; [reflexivity|constructor].
  - apply map_res_cons in H. destruct H as (row & rows & Hrow & Hrows & ->).
    destruct (IH _ Hrows) as [Hfst Hall].
    unfold VideoFetchingTool.take_row in Hrow.
    rewrite enumerate_nth_error in Hrow.
    destruct (nth_error l i) as [x|] eqn:E; [|discriminate].
    cbn [option_map] in Hrow. injection Hrow as <-. cbn [map fst snd].
    split; [rewrite Hfst; reflexivity|].
    constructor; [exact E|exact Hall].
Qed.

(** A row of the sorted frame keeps the index it had before the sort: the
    number that the report prints in front of a video ([idx + 1]) is the
    position at which the video was fetched, not its rank. *)
Theorem rows_keep_their_index
    (indexer : list Z -> list nat) (sort_by : string)
    (videos : list VideoFetchingTool.video) (df : list (nat * VideoFetchingTool.video)) :
  VideoFetchingTool.rank indexer sort_by videos = Ok df ->
  map fst df = indexer (map (snd (VideoFetchingTool.sort_column sort_by)) videos) /\
  Forall (fun row => nth_error videos (fst row) = Some (snd row)) df /\
  Forall (fun row => hd_error (VideoFetchingTool.format_row row)
                     = Some (Int (Z.of_nat (fst row) + 1))) df.
Proof.
  unfold VideoFetchingTool.rank.
  destruct (VideoFetchingTool.sort_column sort_by) as [column key]. cbn [snd].
  unfold VideoFetchingTool.sort_values.
  destruct videos as [|v rest]; [discriminate|].
  intros H. apply take_rows_labels in H. destruct H as [Hfst Hall].
  split; [exact Hfst|]. split; [exact Hall|].
  apply Forall_forall. intros [i x] _. reflexivity.
Qed.

Lemma rows_keep_their_index_witness :
  map fst [(1%nat, Examples.vy_data); (0%nat, Examples.vx_data)]
  = Examples.stable_indexer
      (map (snd (VideoFetchingTool.sort_column "date")) Examples.two_videos).
Proof.
  exact (proj1 (rows_keep_their_index Examples.stable_indexer "date" Examples.two_videos
                  [(1%nat, Examples.vy_data); (0%nat, Examples.vx_data)] eq_refl)).
Defined.

(** ** The comments of VideoPerformanceAnalyzer *)

Lemma sorted_app_inv {A} (R : A -> A -> Prop) (l1 l2 : list A) :
  StronglySorted R (l1 ++ l2) ->
  forall a b, In a l1 -> In b l2 -> R a b.
Proof.
  induction l1 as [|x t IH]; cbn [app]; intros Hs a b Ha Hb; [contradiction|].
  apply StronglySorted_inv in Hs. destruct Hs as [Ht Hall].
  destruct Ha as [<-|Ha].
  - rewrite Forall_forall in Hall. apply Hall, in_or_app. right. exact Hb.
  - apply (IH Ht a b Ha Hb).
Qed.

(** The comments that the report lists are the most liked ones: at most
    five, none of them with fewer likes than a comment that is left out,
    and listed and left-out comments together are the comments fetched. *)
Theorem top_comments_are_most_liked (comment_data : list VideoPerformanceAnalyzer.comment) :
  let sorted := PyOps.sort_reverse VideoPerformanceAnalyzer.likes comment_data in
  let top_comments := firstn 5 sorted in
  let others := skipn 5 sorted in
  List.length top_comments = Nat.min 5 (List.length comment_data) /\
  (forall a b, In a top_comments -> In b others ->
               VideoPerformanceAnalyzer.likes b <= VideoPerformanceAnalyzer.likes a) /\
  Permutation (top_comments ++ others) comment_data.
Proof.
  cbv zeta. split; [|split].
  - rewrite length_firstn, sort_length. reflexivity.
  - intros a b Ha Hb.
    pose proof (sort_sorted VideoPerformanceAnalyzer.likes comment_data) as Hs.
    rewrite <- (firstn_skipn 5) in Hs.
    exact (sorted_app_inv _ _ _ Hs a b Ha Hb).
  - rewrite firstn_skipn. apply sort_perm.
Qed.



(** ** The rates of VideoPerformanceAnalyzer *)

(** Neither rate divides by zero.  The engagement rate is 0 for a video
    without views and (likes + comments) / views otherwise; the views per
    day are the views themselves for a video published less than two days
    ago (or with a date in the future), and views / days otherwise. *)
Theorem rates_are_defined (views likes comments days : Z) :
  (exists rate,
      VideoPerformanceAnalyzer.engagement_rate views likes comments = Ok rate /\
      (views <= 0 -> (rate == 0)%Q) /\
      (0 < views -> (rate == inject_Z (likes + comments) / inject_Z views)%Q)) /\
  (exists per_day,
      VideoPerformanceAnalyzer.views_per_day views days = Ok per_day /\
      (days <= 1 -> (per_day == inject_Z views)%Q) /\
      (1 < days -> (per_day == inject_Z views / inject_Z days)%Q)).
Proof.
  split.
  - unfold VideoPerformanceAnalyzer.engagement_rate, PyOps.true_div.
    destruct (Z.ltb_spec 0 views) as [Hpos|Hneg].
    + destruct (Z.eqb_spec views 0) as [H0|_]; [lia|].
      eexists. split; [reflexivity|]. split; [intros; lia|intros; reflexivity].
    + exists 0%Q. split; [reflexivity|]. split; [intros; reflexivity|intros; lia].
  - unfold VideoPerformanceAnalyzer.views_per_day, PyOps.true_div.
    destruct (Z.eqb_spec (Z.max days 1) 0) as [H0|_]; [lia|].
    eexists. split; [reflexivity|]. split; intros Hd.
    + rewrite Z.max_r by lia. unfold Qdiv. change (/ inject_Z 1)%Q with 1%Q.
      apply Qmult_1_r.
    + rewrite Z.max_l by lia. reflexivity.
Qed.

(** ** The requests of CompetitorSearchTool *)

Lemma try_except_log body handler log :
  snd (try_except body handler log) = snd (body log).
Proof.
  unfold try_except. destruct (body log) as [[[t|e]|] log1]; cbn [snd]; [reflexivity| |reflexivity].
  destruct (is_Exception e); reflexivity.
Qed.

Ltac walk :=
  repeat match goal with
  | |- context [match ?yt ?l ?c with Reply _ => _ | Fails _ => _ end] =>
      destruct (yt l c); cbv beta iota
  | |- context [match ?r with Ok _ => _ | Raise _ => _ end] =>
      destruct r; cbv beta iota
  | |- context [if ?b then _ else _] => destruct b; cbv beta iota
  end.

(** CompetitorSearchTool makes one search, with [max_results] as it was
    given (no page is followed and no bound of 50 is applied), and at most
    one lookup; the lookup asks for the channel ids of all items of the
    search response at once, joined by commas in the order of the items.
    It makes no other request. *)
Theorem competitor_search_requests
    (key : option string) (yt : client) (q : string) (n : Z) (th : Q) (log : list call) :
  let log' := snd (CompetitorSearchTool.run key yt q n th log) in
  log' = (log ++ [Build key])%list \/
  log' = (log ++ [Build key; SearchList q n])%list \/
  exists search_response found items channel_ids ids,
    yt (log ++ [Build key])%list (SearchList q n) = Reply search_response /\
    Py.getitem search_response "items" = Ok found /\
    Py.iter found = Ok items /\
    map_res CompetitorSearchTool.channel_id_of items = Ok channel_ids /\
    List.length channel_ids = List.length items /\
    PyOps.join "," channel_ids = Ok ids /\
    log' = (log ++ [Build key; SearchList q n;
                    ChannelsList "snippet,statistics,brandingSettings,topicDetails" ids])%list.
Proof.
  cbv zeta. unfold CompetitorSearchTool.run. rewrite try_except_log.
  unfold CompetitorSearchTool.body, bind, execute, lift, ret.
  destruct (yt log (Build key)) as [b|e]; cbv beta iota; [|left; reflexivity].
  destruct (yt (log ++ [Build key])%list (SearchList q n)) as [j|e];
    cbv beta iota; [|right; left; rewrite <- app_assoc; reflexivity].
  destruct (Py.get j "items" JNull) as [found|e]; cbv beta iota;
    [|right; left; rewrite <- app_assoc; reflexivity].
  destruct (Py.truthy found); cbn [negb]; cbv beta iota;
    [|right; left; rewrite <- app_assoc; reflexivity].
  destruct (Py.getitem j "items") as [l|e] eqn:Hitems; cbn [bind_res]; cbv beta iota;
    [|right; left; rewrite <- app_assoc; reflexivity].
  destruct (Py.iter l) as [items|e] eqn:Hiter; cbv beta iota;
    [|right; left; rewrite <- app_assoc; reflexivity].
  destruct (map_res CompetitorSearchTool.channel_id_of items) as [channel_ids|e] eqn:Hids;
    cbv beta iota; [|right; left; rewrite <- app_assoc; reflexivity].
  destruct (PyOps.join "," channel_ids) as [ids|e] eqn:Hjoin; cbv beta iota;
    [|right; left; rewrite <- app_assoc; reflexivity].
  right. right. exists j, l, items, channel_ids, ids.
  split; [reflexivity|].
  split; [exact Hitems|].
  split; [exact Hiter|].
  split; [exact Hids|].
  split; [apply (map_res_length _ _ _ Hids)|].
  split; [exact Hjoin|].
  walk; cbn [snd]; rewrite <- ?app_assoc; reflexivity.
Qed.

(** ** The requests of ChannelDemographicsTool and VideoPerformanceAnalyzer *)

(** ChannelDemographicsTool makes at most one channel lookup, and turns to
    the OAuth credentials only after it, and only when they are set and not
    empty. *)
Theorem channel_demographics_requests
    (key oauth : option string) (yt : client) (channel_id : string) (log : list call) :
  let log' := snd (ChannelDemographicsTool.run key oauth yt channel_id log) in
  let lookup := ChannelsList "statistics,snippet,contentDetails" channel_id in
  log' = log \/
  log' = (log ++ [Build key])%list \/
  log' = (log ++ [Build key; lookup])%list \/
  exists c, oauth = Some c /\ c <> EmptyString /\
            log' = (log ++ [Build key; lookup; BuildOAuth c])%list.
Proof.
  cbv zeta. unfold ChannelDemographicsTool.run. rewrite try_except_log.
  unfold ChannelDemographicsTool.body.
  destruct (ChannelDemographicsTool.key_is_set key); cbn [negb];
    [|left; reflexivity].
  unfold ChannelDemographicsTool.advanced_stats, ChannelDemographicsTool.oauth_client,
    bind, execute, lift, ret.
  destruct oauth as [c|].
  - destruct (String.eqb_spec c EmptyString) as [->|Hc];
      walk; cbn [snd]; rewrite <- ?app_assoc; cbn [app];
      first [ right; left; reflexivity
            | right; right; left; reflexivity
            | right; right; right; exists c; repeat split; assumption ].
  - walk; cbn [snd]; rewrite <- ?app_assoc; cbn [app];
      first [ right; left; reflexivity | right; right; left; reflexivity ].
Qed.

Ltac walk_pairs :=
  repeat first
    [ progress walk
    | match goal with
      | |- context [let (_, _) := ?p in _] => is_var p; destruct p; cbv beta iota
      end ].

(** VideoPerformanceAnalyzer makes one video lookup and at most one request
    for comments (of 100 threads), after the lookup and only when
    [include_comments] is set. *)
Theorem video_performance_requests
    (strptime : string -> option Z) (now : Z) (key : option string) (yt : client)
    (video_id : string) (include_comments : bool) (log : list call) :
  let log' := snd (VideoPerformanceAnalyzer.run strptime now key yt video_id
                     include_comments log) in
  let lookup := VideosList "snippet,statistics,contentDetails" video_id in
  log' = (log ++ [Build key])%list \/
  log' = (log ++ [Build key; lookup])%list \/
  (include_comments = true /\
   log' = (log ++ [Build key; lookup; CommentThreadsList video_id 100])%list).
Proof.
  cbv zeta. unfold VideoPerformanceAnalyzer.run. rewrite try_except_log.
  unfold VideoPerformanceAnalyzer.body, bind, execute, lift, ret.
  destruct include_comments; cbn [andb];
    walk_pairs; cbn [snd]; rewrite <- ?app_assoc; cbn [app];
    first [ left; reflexivity
          | right; left; reflexivity
          | right; right; split; reflexivity ].
Qed.

(** A failure of the OAuth step does not cost the report: when the
    credentials are set and building the OAuth client raises an exception,
    ChannelDemographicsTool returns the basic statistics, followed by an
    entry that carries the message of the exception. *)
Theorem oauth_failure_is_contained
    (key : option string) (c : string) (yt : client) (channel_id : string)
    (log : list call) (b j its cd stats sn : json) (basic : list (string * json))
    (e : pyexc) :
  ChannelDemographicsTool.key_is_set key = true ->
  yt log (Build key) = Reply b ->
  yt (log ++ [Build key])%list
     (ChannelsList "statistics,snippet,contentDetails" channel_id) = Reply j ->
  Py.contains "items" j = Ok true ->
  Py.getitem j "items" = Ok its ->
  Py.truthy its = true ->
  Py.getfirst its = Ok cd ->
  Py.getitem cd "statistics" = Ok stats ->
  Py.getitem cd "snippet" = Ok sn ->
  ChannelDemographicsTool.basic_stats stats sn = Ok basic ->
  c <> EmptyString ->
  yt ((log ++ [Build key])
        ++ [ChannelsList "statistics,snippet,contentDetails" channel_id])%list
     (BuildOAuth c) = Fails e ->
  is_Exception e = true ->
  fst (ChannelDemographicsTool.run key (Some c) yt channel_id log)
  = Some (Ok ([Lit "Channel Demographics Report"; Lit PyOps.nl;
               Lit "========================"; Lit PyOps.nl; Lit PyOps.nl;
               Lit "Basic Statistics:"; Lit PyOps.nl; Lit "----------------"; Lit PyOps.nl]
              ++ flat_map ChannelDemographicsTool.format_stat basic
              ++ [Lit PyOps.nl; Lit "Advanced Demographics:"; Lit PyOps.nl;
                  Lit "---------------------"; Lit PyOps.nl;
                  Lit "Error"; Lit ": ";
                  Lit "Could not fetch advanced demographics: "; Lit (exc_msg e);
                  Lit PyOps.nl])%list).
Proof.
  intros Hkey Hb Hc Hhas Hits Htruthy Hfirst Hstats Hsn Hbasic Hne Hfail Hexc.
  unfold ChannelDemographicsTool.run, try_except, ChannelDemographicsTool.body.
  rewrite Hkey. cbn [negb].
  rewrite (bind_Ok _ _ _ _ _ (execute_Reply _ _ _ _ Hb)).
  rewrite (bind_Ok _ _ _ _ _ (execute_Reply _ _ _ _ Hc)).
  rewrite (bind_Ok _ _ _ _ _ (lift_Ok _ _ _ Hhas)). cbn [negb].
  rewrite Hits. cbn [bind_res]. rewrite Htruthy. cbn [negb].
  erewrite bind_Ok by reflexivity. cbv iota.
  rewrite Hfirst. erewrite bind_Ok by reflexivity.
  rewrite (bind_Ok _ _ _ _ _ (lift_Ok _ _ _ Hstats)).
  rewrite (bind_Ok _ _ _ _ _ (lift_Ok _ _ _ Hsn)).
  rewrite (bind_Ok _ _ _ _ _ (lift_Ok _ _ _ Hbasic)).
  unfold bind, ChannelDemographicsTool.advanced_stats, ChannelDemographicsTool.oauth_client,
    execute.
  destruct (String.eqb_spec c EmptyString) as [E|_]; [contradiction|].
  rewrite Hfail, Hexc. reflexivity.
Qed.

Lemma oauth_failure_is_contained_witness :
  exists report,
    fst (ChannelDemographicsTool.run (Some "k") (Some "{}")
           (scripted [Reply JNull;
                      Reply (JDict [("items", JList [(Examples.channel "a" "Alpha" "tech news" EmptyString
               [("viewCount", JStr "100"); ("videoCount", JStr "3")])])]);
                      Fails (PyExc ValueError "bad credentials")]) "a" [])
    = Some (Ok report).
Proof.
  eexists.
  refine (oauth_failure_is_contained (Some "k") "{}"
            (scripted [Reply JNull;
                       Reply (JDict [("items", JList [(Examples.channel "a" "Alpha" "tech news" EmptyString
               [("viewCount", JStr "100"); ("videoCount", JStr "3")])])]);
                       Fails (PyExc ValueError "bad credentials")]) "a" []
            JNull (JDict [("items", JList [(Examples.channel "a" "Alpha" "tech news" EmptyString
               [("viewCount", JStr "100"); ("videoCount", JStr "3")])])]) (JList [(Examples.channel "a" "Alpha" "tech news" EmptyString
               [("viewCount", JStr "100"); ("videoCount", JStr "3")])])
            (Examples.channel "a" "Alpha" "tech news" EmptyString
               [("viewCount", JStr "100"); ("videoCount", JStr "3")]) _ _ _ (PyExc ValueError "bad credentials")
            eq_refl eq_refl eq_refl eq_refl eq_refl eq_refl eq_refl
            eq_refl eq_refl _ _ eq_refl eq_refl).
  - vm_compute. reflexivity.
  - discriminate.
Defined.

(** ** The statistics that ChannelDemographicsTool needs *)

(** ChannelDemographicsTool has basic statistics to show only for a channel
    whose statistics carry both [viewCount] and [videoCount] (a missing
    one is a [KeyError], unlike the subscriber count); it shows the two
    values as the API gave them. *)
Theorem demographics_need_both_counts
    (stats : list (string * json)) (snippet : json) (bs : list (string * json)) :
  ChannelDemographicsTool.basic_stats (JDict stats) snippet = Ok bs ->
  exists views videos,
    Py.lookup "viewCount" stats = Some views /\
    Py.lookup "videoCount" stats = Some videos /\
    Py.lookup "Total Views" bs = Some views /\
    Py.lookup "Total Videos" bs = Some videos.
Proof.
  unfold ChannelDemographicsTool.basic_stats. intros H.
  do 8 inv_res H. injection H as <-.
  cbn [Py.getitem] in Ha4, Ha5.
  destruct (Py.lookup "viewCount" stats) as [views|]; [|discriminate Ha4].
  destruct (Py.lookup "videoCount" stats) as [videos|]; [|discriminate Ha5].
  injection Ha4 as <-. injection Ha5 as <-.
  exists views, videos. repeat split.
Qed.

Lemma demographics_need_both_counts_witness :
  exists views videos,
    Py.lookup "viewCount" [("viewCount", JStr "100"); ("videoCount", JStr "3")]
    = Some views /\
    Py.lookup "videoCount" [("viewCount", JStr "100"); ("videoCount", JStr "3")]
    = Some videos /\
    Py.lookup "Total Views"
      [("Channel Name", JStr "Alpha"); ("Description", JStr "tech news");
       ("Country", JStr "Not specified"); ("Created Date", JStr "2020-01-01T00:00:00Z");
       ("Subscriber Count", JStr "Hidden"); ("Total Views", JStr "100");
       ("Total Videos", JStr "3"); ("Custom URL", JStr "Not available")] = Some views /\
    Py.lookup "Total Videos"
      [("Channel Name", JStr "Alpha"); ("Description", JStr "tech news");
       ("Country", JStr "Not specified"); ("Created Date", JStr "2020-01-01T00:00:00Z");
       ("Subscriber Count", JStr "Hidden"); ("Total Views", JStr "100");
       ("Total Videos", JStr "3"); ("Custom URL", JStr "Not available")] = Some videos.
Proof.
  exact (demographics_need_both_counts
           [("viewCount", JStr "100"); ("videoCount", JStr "3")]
           (JDict [("title", JStr "Alpha"); ("description", JStr "tech news");
                   ("publishedAt", JStr "2020-01-01T00:00:00Z")])
           _ eq_refl).
Defined.
